(** * keep-ecdsa, package [tss]: marshaling and protocol entry points

    A shallow embedding of [pkg/ecdsa/tss/marshaling.go] and
    [pkg/ecdsa/tss/tss.go], with the properties the specification states
    about them.

    Conventions.
    - Go integers are [Z] with the wrap-around of every conversion written
      out ([Go.int32], [Go.int], [Go.uint32]); [int] and [uint] are 64 bits
      wide, as on the amd64 and arm64 targets of the client.
    - [[]byte] is [list byte]; a nil slice and an empty slice are the same
      list.  [*big.Int] is [Z]; pointers that the code dereferences without
      a nil check are taken to be non-nil.
    - Functions returning [(T, error)] return [result E T].
    - The generated package [gen/pb] is a parameter of [marshaling.go]: a
      codec per message struct ([pb.Message]), assumed lossless
      ([pb.Lossless]).  Module [wire] gives one such codec, in the
      protocol-buffer wire format.
    - The callees of [tss.go] (logger, contexts, network bridge, join
      protocol, key generation and signing rounds) are calls of a
      computation ([Prog]) that an environment answers ([Handler]). *)

From Stdlib Require Import ZArith List Lia Bool String Ascii DecimalString.
From Stdlib Require Import Strings.Byte FinFun.
Import ListNotations.

Set Implicit Arguments.
Local Open Scope Z_scope.

(** ** Results and errors *)

Inductive result (E A : Type) : Type :=
| Ok (a : A)
| Err (e : E).

Arguments Ok {E A} a.
Arguments Err {E A} e.

Definition bind {E A B : Type} (r : result E A) (k : A -> result E B) : result E B :=
  match r with
  | Ok a => k a
  | Err e => Err e
  end.

Definition map_err {E F A : Type} (f : E -> F) (r : result E A) : result F A :=
  match r with
  | Ok a => Ok a
  | Err e => Err (f e)
  end.

Declare Scope result_scope.
Delimit Scope result_scope with result.
Notation "x <- r ;; k" := (bind r (fun x => k))
  (at level 61, r at next level, right associativity) : result_scope.
Notation "' p <- r ;; k" := (bind r (fun p => k))
  (at level 61, p pattern, r at next level, right associativity) : result_scope.

(** An error value produced outside the files embedded here (the generated
    [pb] package, [tss-lib], [math/big], the rest of package [tss]): only
    its message is known. *)
Record lib_error : Type := LibError { message : string }.

Definition bytes : Type := list byte.

(** ** Go integer conversions *)

Module Go.

(** Conversion to a signed integer type of [bits] bits: the value is
    truncated to [bits] bits and read in two's complement. *)
Definition wrap_signed (bits z : Z) : Z :=
  (z + 2 ^ (bits - 1)) mod 2 ^ bits - 2 ^ (bits - 1).

Definition wrap_unsigned (bits z : Z) : Z := z mod 2 ^ bits.

Definition intSize : Z := 64.

Definition int32 (z : Z) : Z := wrap_signed 32 z.
Definition int (z : Z) : Z := wrap_signed intSize z.
Definition uint32 (z : Z) : Z := wrap_unsigned 32 z.
Definition uint64 (z : Z) : Z := wrap_unsigned 64 z.

(** [len(s)] of a slice, an [int]. *)
Definition len {A : Type} (s : list A) : Z := Z.of_nat (List.length s).

Definition is_int32 (z : Z) : Prop := - 2 ^ 31 <= z < 2 ^ 31.
Definition is_int (z : Z) : Prop := - 2 ^ 63 <= z < 2 ^ 63.
Definition is_uint (z : Z) : Prop := 0 <= z < 2 ^ 64.

End Go.

(** ** Bytes as numbers *)

Definition Z_of_byte (b : byte) : Z := Z.of_N (Byte.to_N b).

Definition byte_of_Z (z : Z) : byte :=
  match Byte.of_N (Z.to_N (z mod 256)) with
  | Some b => b
  | None => x00
  end.

(** ** [math/big]: the part of [big.Int] the package uses *)

Module big.

Definition Int : Type := Z.

(** Number of binary digits of a non-negative integer; it bounds the number
    of iterations of the byte loops below. *)
Definition bitLen (n : Z) : nat :=
  match n with
  | Zpos p => Pos.size_nat p
  | _ => O
  end.

(** [nat.bytes]: the base-256 digits of [n], most significant first, pushed
    in front of [acc]; stops as soon as the remaining value is zero, so no
    leading zero byte is ever produced. *)
Fixpoint be_digits (fuel : nat) (n : Z) (acc : bytes) : bytes :=
  match fuel with
  | O => acc
  | S fuel' =>
      if n =? 0 then acc
      else be_digits fuel' (n / 256) (byte_of_Z (n mod 256) :: acc)
  end.

(** [Int.Bytes]: the absolute value as a big-endian byte slice. *)
Definition Bytes (x : Int) : bytes :=
  be_digits (bitLen (Z.abs x)) (Z.abs x) [].

(** [Int.SetBytes]: the bytes read as a big-endian unsigned integer. *)
Definition SetBytes (buf : bytes) : Int :=
  fold_left (fun acc b => acc * 256 + Z_of_byte b) buf 0.

Definition intGobVersion : Z := 1.

(** [Int.GobEncode]: one byte holding the version (shifted left by one)
    and the sign bit, followed by the magnitude as in [Bytes]. *)
Definition GobEncode (x : Int) : result lib_error bytes :=
  let b := Z.lor (Z.shiftl intGobVersion 1) (if x <? 0 then 1 else 0) in
  Ok (byte_of_Z b :: Bytes x).

(** [Int.GobDecode]. *)
Definition GobDecode (buf : bytes) : result lib_error Int :=
  match buf with
  | [] => Ok 0
  | b :: rest =>
      if Z.shiftr (Z_of_byte b) 1 =? intGobVersion then
        let neg := negb (Z.land (Z_of_byte b) 1 =? 0) in
        let abs := SetBytes rest in
        Ok (if neg then - abs else abs)
      else Err (LibError "Int.GobDecode: encoding version not supported")
  end.

End big.

(** The value of a big-endian byte string read after the digits that
    make up [start]. *)
Definition be_value (buf : bytes) (start : Z) : Z :=
  fold_left (fun acc b => acc * 256 + Z_of_byte b) buf start.

(** ** [tss-lib]: curve points and Paillier keys

    The library is a dependency of the repository, not part of it; the
    definitions follow its [crypto/ecpoint.go] and the structs of its
    [crypto/paillier] and [ecdsa/keygen] packages. *)

Module crypto.

(** [crypto.ECPoint]: the two affine coordinates; the curve is always
    [tss.EC()], secp256k1. *)
Record ECPoint : Type := { X : big.Int; Y : big.Int }.

(** The field prime of secp256k1. *)
Definition P : Z := 2 ^ 256 - 2 ^ 32 - 977.

(** [ECPoint.IsOnCurve]: [y^2 = x^3 + 7] in the prime field. *)
Definition IsOnCurve (p : ECPoint) : bool :=
  (Y p * Y p) mod P =? (X p * X p * X p + 7) mod P.

(** [binary.Write(buf, binary.LittleEndian, uint32(n))]. *)
Definition putUint32 (n : Z) : bytes :=
  [byte_of_Z n; byte_of_Z (Z.shiftr n 8);
   byte_of_Z (Z.shiftr n 16); byte_of_Z (Z.shiftr n 24)].

(** [binary.Read(reader, binary.LittleEndian, &length)] for a [uint32]:
    the value and the rest of the reader. *)
Definition readUint32 (r : bytes) : result lib_error (Z * bytes) :=
  match r with
  | b0 :: b1 :: b2 :: b3 :: rest =>
      Ok (Z.lor (Z_of_byte b0)
            (Z.lor (Z.shiftl (Z_of_byte b1) 8)
               (Z.lor (Z.shiftl (Z_of_byte b2) 16) (Z.shiftl (Z_of_byte b3) 24))),
          rest)
  | [] => Err (LibError "EOF")
  | _ => Err (LibError "unexpected EOF")
  end.

(** [x := make([]byte, length); n, err := reader.Read(x)] followed by the
    test [n != int(length) || err != nil]: an exhausted reader reports EOF
    even for an empty [x]. *)
Definition readFull (length : Z) (r : bytes) : result lib_error (bytes * bytes) :=
  match r with
  | [] => Err (LibError "gob decode failed: EOF")
  | _ =>
      if length <=? Go.len r
      then Ok (firstn (Z.to_nat length) r, skipn (Z.to_nat length) r)
      else Err (LibError "gob decode failed: <nil>")
  end.

Local Open Scope result_scope.

(** [ECPoint.GobEncode]: each coordinate gob-encoded and prefixed with its
    length as a little-endian [uint32]. *)
Definition GobEncode (p : ECPoint) : result lib_error bytes :=
  x <- big.GobEncode (X p) ;;
  y <- big.GobEncode (Y p) ;;
  Ok (putUint32 (Go.uint32 (Go.len x)) ++ x ++ putUint32 (Go.uint32 (Go.len y)) ++ y).

(** [ECPoint.GobDecode]: the inverse framing, then the curve check. *)
Definition GobDecode (buf : bytes) : result lib_error ECPoint :=
  '(length, r) <- readUint32 buf ;;
  '(x, r) <- readFull length r ;;
  '(length, r) <- readUint32 r ;;
  '(y, _) <- readFull length r ;;
  X <- big.GobDecode x ;;
  Y <- big.GobDecode y ;;
  let p := {| X := X; Y := Y |} in
  if IsOnCurve p then Ok p
  else Err (LibError "ECPoint.UnmarshalJSON: the point is not on the elliptic curve").

End crypto.

Module paillier.

Record PublicKey : Type := { N : big.Int }.

(** [PrivateKey] embeds [PublicKey]; the embedded field is [PublicKey_]. *)
Record PrivateKey : Type := {
  PublicKey_ : PublicKey;
  LambdaN : big.Int;
  PhiN : big.Int
}.

End paillier.

Module keygen.

Record LocalPreParams : Type := {
  PaillierSK : paillier.PrivateKey;
  NTildei : big.Int;
  H1i : big.Int;
  H2i : big.Int
}.

Record LocalSecrets : Type := {
  Xi : big.Int;
  ShareID : big.Int
}.

End keygen.

(** ** The generated package [gen/pb] *)

Module pb.

(** Modelled from the spec: the generated protocol-buffer package
    [pkg/ecdsa/tss/gen/pb] is not part of the sources.  The message structs
    below carry the fields that [marshaling.go] reads and writes, with the
    schema of the specification (section 6): group id as string, member ids
    as bytes, threshold as a 32-bit integer, every large integer and curve
    point as bytes.  A field holding a pointer to a nested message is an
    [option]; the generated getters are nil-safe. *)
Record ThresholdSigner_GroupInfo : Type := {
  GroupID : string;
  MemberID : bytes;
  GroupMemberIDs : list bytes;
  DishonestThreshold : Z  (* int32 *)
}.

Record ThresholdSigner : Type := {
  GroupInfo : option ThresholdSigner_GroupInfo;
  ThresholdKey : bytes
}.

Record LocalPartySaveData_LocalPreParams_PrivateKey : Type := {
  PublicKey : bytes;
  LambdaN : bytes;
  PhiN : bytes
}.

Record LocalPartySaveData_LocalPreParams : Type := {
  PaillierSK : option LocalPartySaveData_LocalPreParams_PrivateKey;
  NTilde : bytes;
  H1I : bytes;
  H2I : bytes
}.

Record LocalPartySaveData_LocalSecrets : Type := {
  Xi : bytes;
  ShareID : bytes
}.

Record LocalPartySaveData : Type := {
  LocalPreParams : option LocalPartySaveData_LocalPreParams;
  LocalSecrets : option LocalPartySaveData_LocalSecrets;
  Ks : list bytes;
  NTildej : list bytes;
  H1J : list bytes;
  H2J : list bytes;
  BigXj : list bytes;
  PaillierPKs : list bytes;
  EcdsaPub : bytes
}.

Record TSSProtocolMessage : Type := {
  SenderID : bytes;
  Payload : bytes;
  IsBroadcast : bool
}.

(** The zero value [&pb.ThresholdSigner_GroupInfo{}]. *)
Definition empty_GroupInfo : ThresholdSigner_GroupInfo :=
  {| GroupID := EmptyString; MemberID := []; GroupMemberIDs := [];
     DishonestThreshold := 0 |}.

(** Getter of a field of an optional nested message: the zero value [d]
    when the message is nil. *)
Definition get {M A : Type} (f : M -> A) (d : A) (m : option M) : A :=
  match m with
  | Some m => f m
  | None => d
  end.

Definition GetGroupInfo (m : ThresholdSigner) := GroupInfo m.
Definition GetThresholdKey (m : ThresholdSigner) := ThresholdKey m.
Definition GetGroupID := get GroupID EmptyString.
Definition GetMemberID := get MemberID [].
Definition GetGroupMemberIDs := get GroupMemberIDs [].
Definition GetDishonestThreshold := get DishonestThreshold 0.

Definition GetLocalPreParams (m : LocalPartySaveData) := LocalPreParams m.
Definition GetLocalSecrets (m : LocalPartySaveData) := LocalSecrets m.
Definition GetPaillierSK := get PaillierSK None.
Definition GetPublicKey := get PublicKey [].
Definition GetLambdaN := get LambdaN [].
Definition GetPhiN := get PhiN [].
Definition GetNTilde := get NTilde [].
Definition GetH1I := get H1I [].
Definition GetH2I := get H2I [].
Definition GetXi := get Xi [].
Definition GetShareID := get ShareID [].
Definition GetKs (m : LocalPartySaveData) := Ks m.
Definition GetNTildej (m : LocalPartySaveData) := NTildej m.
Definition GetH1J (m : LocalPartySaveData) := H1J m.
Definition GetH2J (m : LocalPartySaveData) := H2J m.
Definition GetBigXj (m : LocalPartySaveData) := BigXj m.
Definition GetPaillierPKs (m : LocalPartySaveData) := PaillierPKs m.
Definition GetEcdsaPub (m : LocalPartySaveData) := EcdsaPub m.

(** Modelled from the spec: the generated [Marshal] and [Unmarshal] methods
    of a message struct.  Their wire layout is not fixed here; what the
    package relies on is stated by [Lossless]. *)
Class Message (M : Type) : Type := {
  Marshal : M -> result lib_error bytes;
  Unmarshal : bytes -> result lib_error M
}.

(** A message struct holds values of its field types: the threshold of a
    group info block is an [int32]. *)
Definition typed_GroupInfo (g : ThresholdSigner_GroupInfo) : Prop :=
  Go.is_int32 (DishonestThreshold g).

Definition typed_ThresholdSigner (m : ThresholdSigner) : Prop :=
  match GroupInfo m with
  | Some g => typed_GroupInfo g
  | None => True
  end.

(** Modelled from the spec: "deterministic, lossless byte
    encoding/decoding" (section 2): marshaling a message struct accepted
    by [typed] never fails and unmarshaling its output gives the struct
    back. *)
Class Lossless (M : Type) {codec : Message M} (typed : M -> Prop) : Prop :=
  unmarshal_marshal :
    forall m : M, typed m ->
    exists b : bytes, Marshal m = Ok b /\ Unmarshal b = Ok m.

(** Modelled from the spec: the generated struct of the join envelope,
    "sender id only" (section 6); its field [SenderID] is
    [JoinMessage_SenderID] here. *)
Record JoinMessage : Type := {
  JoinMessage_SenderID : bytes
}.

End pb.

(** ** Types of package [tss] *)

Definition MemberID : Type := bytes.

Record groupInfo : Type := {
  groupID : string;
  memberID : MemberID;
  groupMemberIDs : list MemberID;
  dishonestThreshold : Z  (* int *)
}.

(** [type ThresholdKey keygen.LocalPartySaveData], with the fields the
    package accesses. *)
Record ThresholdKey : Type := {
  LocalPreParams : keygen.LocalPreParams;
  LocalSecrets : keygen.LocalSecrets;
  Ks : list big.Int;
  NTildej : list big.Int;
  H1j : list big.Int;
  H2j : list big.Int;
  BigXj : list crypto.ECPoint;
  PaillierPKs : list paillier.PublicKey;
  ECDSAPub : crypto.ECPoint
}.

(** [ThresholdSigner] embeds [*groupInfo]; the embedded field is
    [signerGroupInfo]. *)
Record ThresholdSigner : Type := {
  signerGroupInfo : groupInfo;
  thresholdKey : ThresholdKey
}.

Record TSSProtocolMessage : Type := {
  SenderID : MemberID;
  Payload : bytes;
  IsBroadcast : bool
}.

(** Errors of package [tss]. *)
Inductive error : Type :=
| InvalidGroupSize (size : Z)
    (* "group should have at least 2 members but got: [%d]" *)
| ThresholdTooLarge (size threshold : Z)
    (* "group size [%d], should be greater than dishonest threshold [%d]" *)
| Errorf (context : string) (cause : error)
    (* fmt.Errorf(context + ": [%v]", cause) *)
| External (e : lib_error).
    (* an error of a callee, returned as it is *)

(** [%d] of an integer. *)
Definition formatInt (z : Z) : string := NilZero.string_of_int (Z.to_int z).

(** [err.Error()]: the message of an error of the package. *)
Fixpoint Error (e : error) : string :=
  match e with
  | InvalidGroupSize size =>
      "group should have at least 2 members but got: [" ++ formatInt size ++ "]"
  | ThresholdTooLarge size threshold =>
      "group size [" ++ formatInt size
      ++ "], should be greater than dishonest threshold ["
      ++ formatInt threshold ++ "]"
  | Errorf context cause => context ++ ": [" ++ Error cause ++ "]"
  | External e => message e
  end.

(** ** [marshaling.go] *)

Section Marshaling.

Context {signerCodec : pb.Message pb.ThresholdSigner}.
Context {keyCodec : pb.Message pb.LocalPartySaveData}.
Context {messageCodec : pb.Message pb.TSSProtocolMessage}.

Local Open Scope result_scope.

(** The closure [marshalBigIntSlice] of [ThresholdKey.Marshal]. *)
Definition marshalBigIntSlice (bigInts : list big.Int) : list bytes :=
  map big.Bytes bigInts.

(** The closure [unmarshalBigIntSlice] of [ThresholdKey.Unmarshal]. *)
Definition unmarshalBigIntSlice (bytesSlice : list bytes) : list big.Int :=
  map big.SetBytes bytesSlice.

(** The loop over [tk.BigXj] of [ThresholdKey.Marshal]: stops at the first
    point that fails to encode. *)
Fixpoint encodeBigXj (points : list crypto.ECPoint) : result error (list bytes) :=
  match points with
  | [] => Ok []
  | bigX :: rest =>
      encoded <- map_err (fun e => Errorf "failed to encode BigXj" (External e))
                   (crypto.GobEncode bigX) ;;
      bigXj <- encodeBigXj rest ;;
      Ok (encoded :: bigXj)
  end.

(** The loop over [pbData.GetBigXj()] of [ThresholdKey.Unmarshal]. *)
Fixpoint decodeBigXj (encoded : list bytes) : result error (list crypto.ECPoint) :=
  match encoded with
  | [] => Ok []
  | bigX :: rest =>
      point <- map_err (fun e => Errorf "failed to decode BigXj" (External e))
                 (crypto.GobDecode bigX) ;;
      points <- decodeBigXj rest ;;
      Ok (point :: points)
  end.

(** The struct [&pb.LocalPartySaveData{...}] that [ThresholdKey.Marshal]
    builds before it calls the generated [Marshal]. *)
Definition ThresholdKey_pb (tk : ThresholdKey) : result error pb.LocalPartySaveData :=
  let localPreParams :=
    {| pb.PaillierSK := Some
         {| pb.PublicKey :=
              big.Bytes (paillier.N (paillier.PublicKey_
                           (keygen.PaillierSK (LocalPreParams tk))));
            pb.LambdaN := big.Bytes (paillier.LambdaN (keygen.PaillierSK (LocalPreParams tk)));
            pb.PhiN := big.Bytes (paillier.PhiN (keygen.PaillierSK (LocalPreParams tk))) |};
       pb.NTilde := big.Bytes (keygen.NTildei (LocalPreParams tk));
       pb.H1I := big.Bytes (keygen.H1i (LocalPreParams tk));
       pb.H2I := big.Bytes (keygen.H2i (LocalPreParams tk)) |} in
  let localSecrets :=
    {| pb.Xi := big.Bytes (keygen.Xi (LocalSecrets tk));
       pb.ShareID := big.Bytes (keygen.ShareID (LocalSecrets tk)) |} in
  bigXj <- encodeBigXj (BigXj tk) ;;
  let paillierPKs := map (fun paillierPK => big.Bytes (paillier.N paillierPK)) (PaillierPKs tk) in
  ecdsaPub <- map_err (fun e => Errorf "failed to encode ECDSAPub" (External e))
                (crypto.GobEncode (ECDSAPub tk)) ;;
  Ok {| pb.LocalPreParams := Some localPreParams;
        pb.LocalSecrets := Some localSecrets;
        pb.Ks := marshalBigIntSlice (Ks tk);
        pb.NTildej := marshalBigIntSlice (NTildej tk);
        pb.H1J := marshalBigIntSlice (H1j tk);
        pb.H2J := marshalBigIntSlice (H2j tk);
        pb.BigXj := bigXj;
        pb.PaillierPKs := paillierPKs;
        pb.EcdsaPub := ecdsaPub |}.

(** [func (tk *ThresholdKey) Marshal() ([]byte, error)]. *)
Definition ThresholdKey_Marshal (tk : ThresholdKey) : result error bytes :=
  pbData <- ThresholdKey_pb tk ;;
  map_err External (pb.Marshal pbData).

(** [func (tk *ThresholdKey) Unmarshal(bytes []byte) error]: the key the
    receiver holds when the method returns nil. *)
Definition ThresholdKey_Unmarshal (data : bytes) : result error ThresholdKey :=
  pbData <- map_err (fun e => Errorf "failed to unmarshal signer" (External e))
              (pb.Unmarshal data) ;;
  let paillierSK :=
    {| paillier.PublicKey_ :=
         {| paillier.N := big.SetBytes
              (pb.GetPublicKey (pb.GetPaillierSK (pb.GetLocalPreParams pbData))) |};
       paillier.LambdaN := big.SetBytes
         (pb.GetLambdaN (pb.GetPaillierSK (pb.GetLocalPreParams pbData)));
       paillier.PhiN := big.SetBytes
         (pb.GetPhiN (pb.GetPaillierSK (pb.GetLocalPreParams pbData))) |} in
  let localPreParams :=
    {| keygen.PaillierSK := paillierSK;
       keygen.NTildei := big.SetBytes (pb.GetNTilde (pb.GetLocalPreParams pbData));
       keygen.H1i := big.SetBytes (pb.GetH1I (pb.GetLocalPreParams pbData));
       keygen.H2i := big.SetBytes (pb.GetH2I (pb.GetLocalPreParams pbData)) |} in
  let localSecrets :=
    {| keygen.Xi := big.SetBytes (pb.GetXi (pb.GetLocalSecrets pbData));
       keygen.ShareID := big.SetBytes (pb.GetShareID (pb.GetLocalSecrets pbData)) |} in
  bigXj <- decodeBigXj (pb.GetBigXj pbData) ;;
  let paillierPKs :=
    map (fun paillierPK => {| paillier.N := big.SetBytes paillierPK |})
      (pb.GetPaillierPKs pbData) in
  ecdsaPub <- map_err (fun e => Errorf "failed to decode ECDSAPub" (External e))
                (crypto.GobDecode (pb.GetEcdsaPub pbData)) ;;
  Ok {| LocalPreParams := localPreParams;
        LocalSecrets := localSecrets;
        Ks := unmarshalBigIntSlice (pb.GetKs pbData);
        NTildej := unmarshalBigIntSlice (pb.GetNTildej pbData);
        H1j := unmarshalBigIntSlice (pb.GetH1J pbData);
        H2j := unmarshalBigIntSlice (pb.GetH2J pbData);
        BigXj := bigXj;
        PaillierPKs := paillierPKs;
        ECDSAPub := ecdsaPub |}.

(** The struct [&pb.ThresholdSigner{...}] that [ThresholdSigner.Marshal]
    builds before it calls the generated [Marshal]. *)
Definition ThresholdSigner_pb (s : ThresholdSigner) : result error pb.ThresholdSigner :=
  keygenData <- map_err (Errorf "failed to convert local party save data")
                  (ThresholdKey_Marshal (thresholdKey s)) ;;
  let groupMemberIDs :=
    map (fun memberID : MemberID => memberID) (groupMemberIDs (signerGroupInfo s)) in
  let group :=
    {| pb.GroupID := groupID (signerGroupInfo s);
       pb.MemberID := memberID (signerGroupInfo s);
       pb.GroupMemberIDs := groupMemberIDs;
       pb.DishonestThreshold := Go.int32 (dishonestThreshold (signerGroupInfo s)) |} in
  Ok {| pb.GroupInfo := Some group; pb.ThresholdKey := keygenData |}.

(** [func (s *ThresholdSigner) Marshal() ([]byte, error)]. *)
Definition ThresholdSigner_Marshal (s : ThresholdSigner) : result error bytes :=
  pbSigner <- ThresholdSigner_pb s ;;
  map_err External (pb.Marshal pbSigner).

(** [func (s *ThresholdSigner) Unmarshal(bytes []byte) error]: the signer
    the receiver holds when the method returns nil.  The struct decoded
    into starts with [GroupInfo: &pb.ThresholdSigner_GroupInfo{}]. *)
Definition ThresholdSigner_Unmarshal (data : bytes) : result error ThresholdSigner :=
  decoded <- map_err (fun e => Errorf "failed to unmarshal signer" (External e))
               (pb.Unmarshal data) ;;
  let pbSigner :=
    {| pb.GroupInfo := match pb.GroupInfo decoded with
                       | Some g => Some g
                       | None => Some pb.empty_GroupInfo
                       end;
       pb.ThresholdKey := pb.ThresholdKey decoded |} in
  thresholdKey <- map_err (Errorf "failed to unmarshal signer")
                    (ThresholdKey_Unmarshal (pb.GetThresholdKey pbSigner)) ;;
  let pbGroupInfo := pb.GetGroupInfo pbSigner in
  let groupMemberIDs :=
    map (fun memberID : bytes => (memberID : MemberID)) (pb.GetGroupMemberIDs pbGroupInfo) in
  Ok {| signerGroupInfo :=
          {| groupID := pb.GetGroupID pbGroupInfo;
             memberID := pb.GetMemberID pbGroupInfo;
             groupMemberIDs := groupMemberIDs;
             dishonestThreshold := Go.int (pb.GetDishonestThreshold pbGroupInfo) |};
        thresholdKey := thresholdKey |}.

(** [func (m *TSSProtocolMessage) Marshal() ([]byte, error)]. *)
Definition TSSProtocolMessage_Marshal (m : TSSProtocolMessage) : result error bytes :=
  map_err External
    (pb.Marshal {| pb.SenderID := SenderID m;
                   pb.Payload := Payload m;
                   pb.IsBroadcast := IsBroadcast m |}).

(** [func (m *TSSProtocolMessage) Unmarshal(bytes []byte) error]. *)
Definition TSSProtocolMessage_Unmarshal (data : bytes) : result error TSSProtocolMessage :=
  pbMsg <- map_err External (pb.Unmarshal data) ;;
  Ok {| SenderID := pb.SenderID pbMsg;
        Payload := pb.Payload pbMsg;
        IsBroadcast := pb.IsBroadcast pbMsg |}.

End Marshaling.

(** ** Valid values (specification, section 3) *)

(** A point of the curve in canonical form: both coordinates are reduced
    modulo the field prime and satisfy the curve equation. *)
Definition valid_point (p : crypto.ECPoint) : Prop :=
  0 <= crypto.X p < crypto.P /\ 0 <= crypto.Y p < crypto.P
  /\ crypto.IsOnCurve p = true.

Definition nonneg (x : big.Int) : Prop := 0 <= x.

(** Key material as key generation produces it: every large integer is
    non-negative and every point lies on the curve. *)
Definition valid_key (tk : ThresholdKey) : Prop :=
  nonneg (paillier.N (paillier.PublicKey_ (keygen.PaillierSK (LocalPreParams tk))))
  /\ nonneg (paillier.LambdaN (keygen.PaillierSK (LocalPreParams tk)))
  /\ nonneg (paillier.PhiN (keygen.PaillierSK (LocalPreParams tk)))
  /\ nonneg (keygen.NTildei (LocalPreParams tk))
  /\ nonneg (keygen.H1i (LocalPreParams tk))
  /\ nonneg (keygen.H2i (LocalPreParams tk))
  /\ nonneg (keygen.Xi (LocalSecrets tk))
  /\ nonneg (keygen.ShareID (LocalSecrets tk))
  /\ Forall nonneg (Ks tk)
  /\ Forall nonneg (NTildej tk)
  /\ Forall nonneg (H1j tk)
  /\ Forall nonneg (H2j tk)
  /\ Forall valid_point (BigXj tk)
  /\ Forall (fun pk => nonneg (paillier.N pk)) (PaillierPKs tk)
  /\ valid_point (ECDSAPub tk).

(** The invariant of a group: at least two members, pairwise distinct, the
    local member among them, and [0 <= t < len(group_member_ids)]. *)
Definition valid_group (g : groupInfo) : Prop :=
  2 <= Go.len (groupMemberIDs g)
  /\ 0 <= dishonestThreshold g < Go.len (groupMemberIDs g)
  /\ In (memberID g) (groupMemberIDs g)
  /\ NoDup (groupMemberIDs g).

Definition valid_signer (s : ThresholdSigner) : Prop :=
  valid_group (signerGroupInfo s) /\ valid_key (thresholdKey s).

(** The signer [s] with its threshold converted to [int32]. *)
Definition narrowThreshold (s : ThresholdSigner) : ThresholdSigner :=
  {| signerGroupInfo :=
       {| groupID := groupID (signerGroupInfo s);
          memberID := memberID (signerGroupInfo s);
          groupMemberIDs := groupMemberIDs (signerGroupInfo s);
          dishonestThreshold := Go.int32 (dishonestThreshold (signerGroupInfo s)) |};
     thresholdKey := thresholdKey s |}.

(** ** [tss.go] *)

Module time.

(** [time.Duration]: nanoseconds, an [int64]. *)
Definition Duration : Type := Z.
Definition Second : Duration := 1000000000.

End time.

(** The [const] block of [tss.go].  The entry points take the block as a
    parameter, so that the constant each of them reads stays visible;
    [tss_constants] below holds the values of the source. *)
Class Constants : Type := {
  keyGenerationTimeout : time.Duration;
  signingTimeout : time.Duration
}.

Definition tss_constants : Constants :=
  {| keyGenerationTimeout := 120 * time.Second;
     signingTimeout := 120 * time.Second |}.

(** Types declared outside [tss.go] and used there only as handles, and
    [keyGenSigner.keygenParty.PartyID()] as [%s] prints it. *)
Class Environment : Type := {
  Provider : Type;        (* net.Provider *)
  Context_ : Type;        (* context.Context *)
  networkBridge : Type;
  keyGenSigner : Type;
  signingSigner : Type;
  Signature : Type;       (* ecdsa.Signature *)
  PartyID : keyGenSigner -> string
}.

Section Protocol.

Context {env : Environment}.

(** The calls [tss.go] makes to code outside the file: the logger, package
    [context], and the functions and methods of package [tss] defined in
    other files.  [WithTimeout d] is
    [context.WithTimeout(context.Background(), d)]. *)
Inductive Op : Type :=
| Warningf (msg : string)
| Infof (msg : string)
| WithTimeout (timeout : time.Duration)
| cancel (ctx : Context_)
| newNetworkBridge (group : groupInfo) (networkProvider : Provider)
| initializeKeyGeneration (ctx : Context_) (group : groupInfo)
    (tssPreParams : option keygen.LocalPreParams) (netBridge : networkBridge)
| joinProtocol (ctx : Context_) (group : groupInfo) (networkProvider : Provider)
| generateKey (s : keyGenSigner) (ctx : Context_)
| initializeSigning (s : ThresholdSigner) (ctx : Context_) (digest : bytes)
    (netBridge : networkBridge)
| sign (s : signingSigner) (ctx : Context_).

(** What each call returns. *)
Definition Resp (o : Op) : Type :=
  match o with
  | Warningf _ | Infof _ | cancel _ => unit
  | WithTimeout _ => Context_
  | newNetworkBridge _ _ => result lib_error networkBridge
  | initializeKeyGeneration _ _ _ _ => result lib_error keyGenSigner
  | joinProtocol _ _ _ => result lib_error unit
  | generateKey _ _ => result lib_error ThresholdSigner
  | initializeSigning _ _ _ _ => result lib_error signingSigner
  | sign _ _ => result lib_error Signature
  end.

(** A computation of [tss.go]: it returns, or makes a call and goes on
    with what the call returned. *)
Inductive Prog (A : Type) : Type :=
| Ret (a : A)
| Call (o : Op) (k : Resp o -> Prog A).

Arguments Ret {A} a.
Arguments Call {A} o k.

Fixpoint pbind {A B : Type} (p : Prog A) (f : A -> Prog B) : Prog B :=
  match p with
  | Ret a => f a
  | Call o k => Call o (fun x => pbind (k x) f)
  end.

Definition call (o : Op) : Prog (Resp o) := Call o (fun x => Ret x).

Notation "x <~ p ;; q" := (pbind p (fun x => q))
  (at level 61, p at next level, right associativity).

(** [defer f()]: [f] runs when the surrounding function returns. *)
Definition defer {A : Type} (f : Op) (body : Prog A) : Prog A :=
  r <~ body ;; _ <~ call f ;; Ret r.


(** The environment: what each call returns and how it changes the state
    [W] of the world outside the file. *)
Definition Handler (W : Type) : Type := forall o : Op, W -> Resp o * W.

(** Running a computation: its result, the final state and the calls made,
    in order. *)
Fixpoint run {W A : Type} (h : Handler W) (p : Prog A) (w : W) : A * W * list Op :=
  match p with
  | Ret a => (a, w, [])
  | Call o k =>
      let (x, w1) := h o w in
      let '(a, w2, calls) := run h (k x) w1 in
      (a, w2, o :: calls)
  end.

Context {constants : Constants}.

(** [func GenerateThresholdSigner(groupID, memberID, groupMemberIDs,
    dishonestThreshold, networkProvider, tssPreParams)], returning a
    [*ThresholdSigner] and an [error]; [dishonestThreshold] is a [uint]. *)
Definition GenerateThresholdSigner
  (groupID : string) (memberID : MemberID) (groupMemberIDs : list MemberID)
  (dishonestThreshold : Z) (networkProvider : Provider)
  (tssPreParams : option keygen.LocalPreParams)
  : Prog (result error ThresholdSigner) :=
  if Go.len groupMemberIDs <? 2 then
    Ret (Err (InvalidGroupSize (Go.len groupMemberIDs)))
  else if Go.len groupMemberIDs <=? Go.int dishonestThreshold then
    Ret (Err (ThresholdTooLarge (Go.len groupMemberIDs) dishonestThreshold))
  else
    let group :=
      Build_groupInfo groupID memberID groupMemberIDs (Go.int dishonestThreshold) in
    _ <~ match tssPreParams with
         | None =>
             call (Warningf
               "tss pre-params were not provided, they will be generated on protocol execution")
         | Some _ => Ret tt
         end ;;
    r <~ call (newNetworkBridge group networkProvider) ;;
    match r with
    | Err err =>
        Ret (Err (Errorf "failed to initialize network bridge" (External err)))
    | Ok netBridge =>
        ctx <~ call (WithTimeout keyGenerationTimeout) ;;
        defer (cancel ctx)
          (r <~ call (initializeKeyGeneration ctx group tssPreParams netBridge) ;;
           match r with
           | Err err => Ret (Err (External err))
           | Ok keyGenSigner =>
               _ <~ call (Infof ("[party:" ++ PartyID keyGenSigner
                                  ++ "]: initialized key generation")) ;;
               r <~ call (joinProtocol ctx group networkProvider) ;;
               match r with
               | Err err =>
                   Ret (Err (Errorf "failed to join the protocol" (External err)))
               | Ok _ =>
                   _ <~ call (Infof ("[party:" ++ PartyID keyGenSigner
                                      ++ "]: starting key generation")) ;;
                   r <~ call (generateKey keyGenSigner ctx) ;;
                   match r with
                   | Err err =>
                       Ret (Err (Errorf "failed to generate key" (External err)))
                   | Ok signer =>
                       _ <~ call (Infof ("[party:" ++ PartyID keyGenSigner
                                          ++ "]: completed key generation")) ;;
                       Ret (Ok signer)
                   end
               end
           end)
    end.

(** [func (s *ThresholdSigner) CalculateSignature(digest, networkProvider)],
    returning an [*ecdsa.Signature] and an [error]. *)
Definition CalculateSignature
  (s : ThresholdSigner) (digest : bytes) (networkProvider : Provider)
  : Prog (result error Signature) :=
  r <~ call (newNetworkBridge (signerGroupInfo s) networkProvider) ;;
  match r with
  | Err err =>
      Ret (Err (Errorf "failed to initialize network bridge" (External err)))
  | Ok netBridge =>
      ctx <~ call (WithTimeout keyGenerationTimeout) ;;
      defer (cancel ctx)
        (r <~ call (initializeSigning s ctx digest netBridge) ;;
         match r with
         | Err err =>
             Ret (Err (Errorf "failed to initialize signing" (External err)))
         | Ok signingSigner =>
             r <~ call (joinProtocol ctx (signerGroupInfo s) networkProvider) ;;
             match r with
             | Err err =>
                 Ret (Err (Errorf "failed to join the protocol:" (External err)))
             | Ok _ =>
                 r <~ call (sign signingSigner ctx) ;;
                 match r with
                 | Err err => Ret (Err (Errorf "failed to sign" (External err)))
                 | Ok signature => Ret (Ok signature)
                 end
             end
         end)
  end.

End Protocol.

(** ** Observing the entry points *)

(** The two configuration errors of the specification (section 7). *)
Definition isConfigurationError (e : error) : Prop :=
  match e with
  | InvalidGroupSize _ | ThresholdTooLarge _ _ => True
  | _ => False
  end.

(** The error is one a callee reported, possibly wrapped with a context. *)
Definition reportedByCallee (e : error) : Prop :=
  match e with
  | External _ | Errorf _ (External _) => True
  | _ => False
  end.

Definition isOk {E A : Type} (r : result E A) : Prop := exists a : A, r = Ok a.

Section Observations.

Context {env : Environment}.

(** [P] holds of whatever the computation returns, whatever its calls
    answer. *)
Fixpoint returnsOnly {A : Type} (P : A -> Prop) (p : Prog A) : Prop :=
  match p with
  | Ret a => P a
  | Call o k => forall x : Resp o, returnsOnly P (k x)
  end.

(** Every call the computation can make satisfies [P]. *)
Fixpoint callsOnly {A : Type} (P : Op -> Prop) (p : Prog A) : Prop :=
  match p with
  | Ret _ => True
  | Call o k => P o /\ forall x : Resp o, callsOnly P (k x)
  end.

(** The answer [x] to the call [o] is not an error. *)
Definition answersOk (o : Op) : Resp o -> Prop :=
  match o as o' return Resp o' -> Prop with
  | newNetworkBridge _ _ => fun x => isOk x
  | initializeKeyGeneration _ _ _ _ => fun x => isOk x
  | joinProtocol _ _ _ => fun x => isOk x
  | generateKey _ _ => fun x => isOk x
  | initializeSigning _ _ _ _ => fun x => isOk x
  | sign _ _ => fun x => isOk x
  | _ => fun _ => True
  end.

(** [P] holds of whatever the computation returns when no call fails. *)
Fixpoint returnsWhenOk {A : Type} (P : A -> Prop) (p : Prog A) : Prop :=
  match p with
  | Ret a => P a
  | Call o k => forall x : Resp o, answersOk o x -> returnsWhenOk P (k x)
  end.

(** An environment in which no call fails. *)
Definition succeeds {W : Type} (h : Handler W) : Prop :=
  forall (o : Op) (w : W), answersOk o (fst (h o w)).

(** The timeouts of the contexts created during a run. *)
Definition timeouts (calls : list Op) : list time.Duration :=
  flat_map (fun o => match o with WithTimeout d => [d] | _ => [] end) calls.

End Observations.

(** ** Sample data *)

(** The base point of secp256k1. *)
Definition basePoint : crypto.ECPoint :=
  {| crypto.X := 0x79BE667EF9DCBBAC55A06295CE870B07029BFCDB2DCE28D959F2815B16F81798;
     crypto.Y := 0x483ADA7726A3C4655DA4FBFC0E1108A8FD17B448A68554199C47D08FFB10D4B8 |}.

(** Key material of a three-member group with toy Paillier parameters and
    a zero-valued secret share. *)
Definition sampleKey : ThresholdKey :=
  {| LocalPreParams :=
       {| keygen.PaillierSK :=
            {| paillier.PublicKey_ := {| paillier.N := 35 |};
               paillier.LambdaN := 12; paillier.PhiN := 24 |};
          keygen.NTildei := 77; keygen.H1i := 4; keygen.H2i := 9 |};
     LocalSecrets := {| keygen.Xi := 0; keygen.ShareID := 1 |};
     Ks := [1; 2; 3];
     NTildej := [77; 221; 323];
     H1j := [4; 9; 16];
     H2j := [9; 16; 25];
     BigXj := [basePoint; basePoint; basePoint];
     PaillierPKs := [{| paillier.N := 35 |}; {| paillier.N := 77 |};
                     {| paillier.N := 143 |}];
     ECDSAPub := basePoint |}.

Definition sampleMembers : list MemberID := [[x01]; [x02]; [x03]].

Definition sampleSigner : ThresholdSigner :=
  {| signerGroupInfo :=
       {| groupID := "keep"; memberID := [x01];
          groupMemberIDs := sampleMembers; dishonestThreshold := 1 |};
     thresholdKey := sampleKey |}.

(** The point of the curve with [x = 1]: its first coordinate has 31
    leading zero bytes when written on 32 bytes. *)
Definition smallPoint : crypto.ECPoint :=
  {| crypto.X := 1;
     crypto.Y := 0x4218f20ae6c646b363db68605822fb14264ca8d2587fdd6fbc750d587e76a7ee |}.

(** A group of [2^31 + 1] members with pairwise distinct identifiers and
    the threshold [2^31], which the invariant of a group allows. *)
Definition largeGroupSize : nat := Z.to_nat (2 ^ 31 + 1).

Definition largeGroup : groupInfo :=
  {| groupID := "keep";
     memberID := big.Bytes 1;
     groupMemberIDs := map (fun i : nat => big.Bytes (Z.of_nat i)) (seq 1 largeGroupSize);
     dishonestThreshold := 2 ^ 31 |}.

Definition largeSigner : ThresholdSigner :=
  {| signerGroupInfo := largeGroup; thresholdKey := sampleKey |}.

Definition sampleMessage : TSSProtocolMessage :=
  {| SenderID := [x01]; Payload := [xff; x00; x2a]; IsBroadcast := true |}.

(** A digest one byte short of the 32 bytes of a SHA-256 hash. *)
Definition shortDigest : bytes := repeat x00 31.

(** An environment to run the entry points in: every handle is [unit], the
    party of a key-generation signer prints as ["1"]. *)
Definition unitEnvironment : Environment :=
  {| Provider := unit; Context_ := unit; networkBridge := unit;
     keyGenSigner := unit; signingSigner := unit; Signature := unit;
     PartyID := fun _ => "1"%string |}.

(** Its callees never fail; key generation yields [signer]. *)
Definition cooperative (signer : ThresholdSigner)
  : Handler (env := unitEnvironment) unit :=
  fun o w =>
    match o as o' return Resp (env := unitEnvironment) o' * unit with
    | Warningf _ => (tt, w)
    | Infof _ => (tt, w)
    | WithTimeout _ => (tt, w)
    | cancel _ => (tt, w)
    | newNetworkBridge _ _ => (Ok tt, w)
    | initializeKeyGeneration _ _ _ _ => (Ok tt, w)
    | joinProtocol _ _ _ => (Ok tt, w)
    | generateKey _ _ => (Ok signer, w)
    | initializeSigning _ _ _ _ => (Ok tt, w)
    | sign _ _ => (Ok tt, w)
    end.

(** ** A protocol-buffer wire format for the messages of [gen/pb]

    Modelled from the spec: one instance of [pb.Message] per message
    struct, in the proto3 wire format (base-128 varints, tagged fields,
    length-delimited bytes and nested messages, zero values of singular
    fields omitted).  Field numbers follow the order of the fields in the
    structs.  The instances show that the lossless codecs the package
    relies on exist, and let the entry points of [marshaling.go] run on
    concrete data; the theorems about [marshaling.go] hold for every
    lossless codec. *)

Module wire.

(** [encodeVarint]: seven bits per byte, least significant group first,
    the top bit of a byte telling that more follow. *)
Fixpoint putUvarint (fuel : nat) (v : Z) : bytes :=
  match fuel with
  | O => [byte_of_Z v]
  | S fuel' =>
      if v <? 128 then [byte_of_Z v]
      else byte_of_Z (v mod 128 + 128) :: putUvarint fuel' (v / 128)
  end.

Definition encodeVarint (v : Z) : bytes :=
  putUvarint (Z.to_nat (Z.succ (Z.log2 v))) v.

Fixpoint decodeVarint (data : bytes) : option (Z * bytes) :=
  match data with
  | [] => None
  | b :: rest =>
      if Z_of_byte b <? 128 then Some (Z_of_byte b, rest)
      else
        match decodeVarint rest with
        | Some (v, rest') => Some (Z_of_byte b - 128 + 128 * v, rest')
        | None => None
        end
  end.

(** A field on the wire: wire type 0 (varint) or 2 (length-delimited). *)
Inductive value : Type :=
| Varint (v : Z)
| LengthDelimited (b : bytes).

Definition field : Type := (Z * value)%type.

Definition putField (f : field) : bytes :=
  match f with
  | (num, Varint v) => encodeVarint (num * 8) ++ encodeVarint v
  | (num, LengthDelimited b) =>
      encodeVarint (num * 8 + 2) ++ encodeVarint (Go.len b) ++ b
  end.

Definition putFields (fs : list field) : bytes := flat_map putField fs.

Fixpoint getFields (fuel : nat) (data : bytes) : option (list field) :=
  match data with
  | [] => Some []
  | _ :: _ =>
      match fuel with
      | O => None
      | S fuel' =>
          match decodeVarint data with
          | None => None
          | Some (key, rest) =>
              if key mod 8 =? 0 then
                match decodeVarint rest with
                | None => None
                | Some (v, rest') =>
                    option_map (cons (key / 8, Varint v)) (getFields fuel' rest')
                end
              else if key mod 8 =? 2 then
                match decodeVarint rest with
                | None => None
                | Some (n, rest') =>
                    if n <=? Go.len rest' then
                      option_map
                        (cons (key / 8, LengthDelimited (firstn (Z.to_nat n) rest')))
                        (getFields fuel' (skipn (Z.to_nat n) rest'))
                    else None
                end
              else None
          end
      end
  end.

Definition parse (data : bytes) : option (list field) :=
  getFields (List.length data) data.

(** Decoding a message: each field in turn updates the struct; a known
    field with the wrong wire type is an error, an unknown field is
    skipped. *)
Fixpoint decodeFields {M : Type} (step : M -> field -> option M)
  (fs : list field) (m : M) : option M :=
  match fs with
  | [] => Some m
  | f :: fs' =>
      match step m f with
      | Some m' => decodeFields step fs' m'
      | None => None
      end
  end.

Definition decodeMessage {M : Type} (step : M -> field -> option M) (zero : M)
  (data : bytes) : option M :=
  match parse data with
  | Some fs => decodeFields step fs zero
  | None => None
  end.

(** Singular fields: the zero value is not written. *)
Definition bytesField (num : Z) (b : bytes) : list field :=
  match b with
  | [] => []
  | _ :: _ => [(num, LengthDelimited b)]
  end.

Definition boolField (num : Z) (v : bool) : list field :=
  if v then [(num, Varint 1)] else [].

Definition int32Field (num : Z) (v : Z) : list field :=
  if v =? 0 then [] else [(num, Varint (Go.uint64 v))].

Definition repeatedBytes (num : Z) (l : list bytes) : list field :=
  map (fun b => (num, LengthDelimited b)) l.

Definition messageField {M : Type} (num : Z) (fields : M -> list field)
  (m : option M) : list field :=
  match m with
  | Some m => [(num, LengthDelimited (putFields (fields m)))]
  | None => []
  end.

(** *** [TSSProtocolMessage] *)

Definition TSSProtocolMessage_fields (m : pb.TSSProtocolMessage) : list field :=
  bytesField 1 (pb.SenderID m) ++ bytesField 2 (pb.Payload m)
  ++ boolField 3 (pb.IsBroadcast m).

Definition TSSProtocolMessage_zero : pb.TSSProtocolMessage :=
  {| pb.SenderID := []; pb.Payload := []; pb.IsBroadcast := false |}.

Definition TSSProtocolMessage_step (m : pb.TSSProtocolMessage) (f : field)
  : option pb.TSSProtocolMessage :=
  match f with
  | (1, LengthDelimited b) =>
      Some {| pb.SenderID := b; pb.Payload := pb.Payload m;
              pb.IsBroadcast := pb.IsBroadcast m |}
  | (2, LengthDelimited b) =>
      Some {| pb.SenderID := pb.SenderID m; pb.Payload := b;
              pb.IsBroadcast := pb.IsBroadcast m |}
  | (3, Varint v) =>
      Some {| pb.SenderID := pb.SenderID m; pb.Payload := pb.Payload m;
              pb.IsBroadcast := negb (v =? 0) |}
  | (1, _) | (2, _) | (3, _) => None
  | _ => Some m
  end.

(** *** [ThresholdSigner] and its [GroupInfo] *)

Definition GroupInfo_fields (g : pb.ThresholdSigner_GroupInfo) : list field :=
  bytesField 1 (list_byte_of_string (pb.GroupID g))
  ++ bytesField 2 (pb.MemberID g)
  ++ repeatedBytes 3 (pb.GroupMemberIDs g)
  ++ int32Field 4 (pb.DishonestThreshold g).

Definition GroupInfo_step (g : pb.ThresholdSigner_GroupInfo) (f : field)
  : option pb.ThresholdSigner_GroupInfo :=
  match f with
  | (1, LengthDelimited b) =>
      Some {| pb.GroupID := string_of_list_byte b; pb.MemberID := pb.MemberID g;
              pb.GroupMemberIDs := pb.GroupMemberIDs g;
              pb.DishonestThreshold := pb.DishonestThreshold g |}
  | (2, LengthDelimited b) =>
      Some {| pb.GroupID := pb.GroupID g; pb.MemberID := b;
              pb.GroupMemberIDs := pb.GroupMemberIDs g;
              pb.DishonestThreshold := pb.DishonestThreshold g |}
  | (3, LengthDelimited b) =>
      Some {| pb.GroupID := pb.GroupID g; pb.MemberID := pb.MemberID g;
              pb.GroupMemberIDs := pb.GroupMemberIDs g ++ [b];
              pb.DishonestThreshold := pb.DishonestThreshold g |}
  | (4, Varint v) =>
      Some {| pb.GroupID := pb.GroupID g; pb.MemberID := pb.MemberID g;
              pb.GroupMemberIDs := pb.GroupMemberIDs g;
              pb.DishonestThreshold := Go.int32 v |}
  | (1, _) | (2, _) | (3, _) | (4, _) => None
  | _ => Some g
  end.

Definition ThresholdSigner_fields (m : pb.ThresholdSigner) : list field :=
  messageField 1 GroupInfo_fields (pb.GroupInfo m)
  ++ bytesField 2 (pb.ThresholdKey m).

Definition ThresholdSigner_zero : pb.ThresholdSigner :=
  {| pb.GroupInfo := None; pb.ThresholdKey := [] |}.

Definition ThresholdSigner_step (m : pb.ThresholdSigner) (f : field)
  : option pb.ThresholdSigner :=
  match f with
  | (1, LengthDelimited b) =>
      match decodeMessage GroupInfo_step pb.empty_GroupInfo b with
      | Some g => Some {| pb.GroupInfo := Some g; pb.ThresholdKey := pb.ThresholdKey m |}
      | None => None
      end
  | (2, LengthDelimited b) =>
      Some {| pb.GroupInfo := pb.GroupInfo m; pb.ThresholdKey := b |}
  | (1, _) | (2, _) => None
  | _ => Some m
  end.

(** *** [LocalPartySaveData] and its nested messages *)

Definition PrivateKey_fields (k : pb.LocalPartySaveData_LocalPreParams_PrivateKey)
  : list field :=
  bytesField 1 (pb.PublicKey k) ++ bytesField 2 (pb.LambdaN k)
  ++ bytesField 3 (pb.PhiN k).

Definition PrivateKey_zero : pb.LocalPartySaveData_LocalPreParams_PrivateKey :=
  {| pb.PublicKey := []; pb.LambdaN := []; pb.PhiN := [] |}.

Definition PrivateKey_step (k : pb.LocalPartySaveData_LocalPreParams_PrivateKey)
  (f : field) : option pb.LocalPartySaveData_LocalPreParams_PrivateKey :=
  match f with
  | (1, LengthDelimited b) =>
      Some {| pb.PublicKey := b; pb.LambdaN := pb.LambdaN k; pb.PhiN := pb.PhiN k |}
  | (2, LengthDelimited b) =>
      Some {| pb.PublicKey := pb.PublicKey k; pb.LambdaN := b; pb.PhiN := pb.PhiN k |}
  | (3, LengthDelimited b) =>
      Some {| pb.PublicKey := pb.PublicKey k; pb.LambdaN := pb.LambdaN k; pb.PhiN := b |}
  | (1, _) | (2, _) | (3, _) => None
  | _ => Some k
  end.

Definition LocalPreParams_fields (p : pb.LocalPartySaveData_LocalPreParams)
  : list field :=
  messageField 1 PrivateKey_fields (pb.PaillierSK p)
  ++ bytesField 2 (pb.NTilde p) ++ bytesField 3 (pb.H1I p)
  ++ bytesField 4 (pb.H2I p).

Definition LocalPreParams_zero : pb.LocalPartySaveData_LocalPreParams :=
  {| pb.PaillierSK := None; pb.NTilde := []; pb.H1I := []; pb.H2I := [] |}.

Definition LocalPreParams_step (p : pb.LocalPartySaveData_LocalPreParams)
  (f : field) : option pb.LocalPartySaveData_LocalPreParams :=
  match f with
  | (1, LengthDelimited b) =>
      match decodeMessage PrivateKey_step PrivateKey_zero b with
      | Some k =>
          Some {| pb.PaillierSK := Some k; pb.NTilde := pb.NTilde p;
                  pb.H1I := pb.H1I p; pb.H2I := pb.H2I p |}
      | None => None
      end
  | (2, LengthDelimited b) =>
      Some {| pb.PaillierSK := pb.PaillierSK p; pb.NTilde := b;
              pb.H1I := pb.H1I p; pb.H2I := pb.H2I p |}
  | (3, LengthDelimited b) =>
      Some {| pb.PaillierSK := pb.PaillierSK p; pb.NTilde := pb.NTilde p;
              pb.H1I := b; pb.H2I := pb.H2I p |}
  | (4, LengthDelimited b) =>
      Some {| pb.PaillierSK := pb.PaillierSK p; pb.NTilde := pb.NTilde p;
              pb.H1I := pb.H1I p; pb.H2I := b |}
  | (1, _) | (2, _) | (3, _) | (4, _) => None
  | _ => Some p
  end.

Definition LocalSecrets_fields (x : pb.LocalPartySaveData_LocalSecrets)
  : list field :=
  bytesField 1 (pb.Xi x) ++ bytesField 2 (pb.ShareID x).

Definition LocalSecrets_zero : pb.LocalPartySaveData_LocalSecrets :=
  {| pb.Xi := []; pb.ShareID := [] |}.

Definition LocalSecrets_step (x : pb.LocalPartySaveData_LocalSecrets) (f : field)
  : option pb.LocalPartySaveData_LocalSecrets :=
  match f with
  | (1, LengthDelimited b) => Some {| pb.Xi := b; pb.ShareID := pb.ShareID x |}
  | (2, LengthDelimited b) => Some {| pb.Xi := pb.Xi x; pb.ShareID := b |}
  | (1, _) | (2, _) => None
  | _ => Some x
  end.

Definition LocalPartySaveData_fields (m : pb.LocalPartySaveData) : list field :=
  messageField 1 LocalPreParams_fields (pb.LocalPreParams m)
  ++ messageField 2 LocalSecrets_fields (pb.LocalSecrets m)
  ++ repeatedBytes 3 (pb.Ks m)
  ++ repeatedBytes 4 (pb.NTildej m)
  ++ repeatedBytes 5 (pb.H1J m)
  ++ repeatedBytes 6 (pb.H2J m)
  ++ repeatedBytes 7 (pb.BigXj m)
  ++ repeatedBytes 8 (pb.PaillierPKs m)
  ++ bytesField 9 (pb.EcdsaPub m).

Definition LocalPartySaveData_zero : pb.LocalPartySaveData :=
  {| pb.LocalPreParams := None; pb.LocalSecrets := None; pb.Ks := [];
     pb.NTildej := []; pb.H1J := []; pb.H2J := []; pb.BigXj := [];
     pb.PaillierPKs := []; pb.EcdsaPub := [] |}.

(** The repeated fields of the struct, by field number. *)
Definition appendRepeated (num : positive) (b : bytes) (m : pb.LocalPartySaveData)
  : pb.LocalPartySaveData :=
  let add (n : positive) (l : list bytes) :=
    if Pos.eqb num n then l ++ [b] else l in
  {| pb.LocalPreParams := pb.LocalPreParams m;
     pb.LocalSecrets := pb.LocalSecrets m;
     pb.Ks := add 3%positive (pb.Ks m);
     pb.NTildej := add 4%positive (pb.NTildej m);
     pb.H1J := add 5%positive (pb.H1J m);
     pb.H2J := add 6%positive (pb.H2J m);
     pb.BigXj := add 7%positive (pb.BigXj m);
     pb.PaillierPKs := add 8%positive (pb.PaillierPKs m);
     pb.EcdsaPub := pb.EcdsaPub m |}.

Definition LocalPartySaveData_step (m : pb.LocalPartySaveData) (f : field)
  : option pb.LocalPartySaveData :=
  match f with
  | (1, LengthDelimited b) =>
      match decodeMessage LocalPreParams_step LocalPreParams_zero b with
      | Some p =>
          Some {| pb.LocalPreParams := Some p;
                  pb.LocalSecrets := pb.LocalSecrets m; pb.Ks := pb.Ks m;
                  pb.NTildej := pb.NTildej m; pb.H1J := pb.H1J m;
                  pb.H2J := pb.H2J m; pb.BigXj := pb.BigXj m;
                  pb.PaillierPKs := pb.PaillierPKs m;
                  pb.EcdsaPub := pb.EcdsaPub m |}
      | None => None
      end
  | (2, LengthDelimited b) =>
      match decodeMessage LocalSecrets_step LocalSecrets_zero b with
      | Some x =>
          Some {| pb.LocalPreParams := pb.LocalPreParams m;
                  pb.LocalSecrets := Some x; pb.Ks := pb.Ks m;
                  pb.NTildej := pb.NTildej m; pb.H1J := pb.H1J m;
                  pb.H2J := pb.H2J m; pb.BigXj := pb.BigXj m;
                  pb.PaillierPKs := pb.PaillierPKs m;
                  pb.EcdsaPub := pb.EcdsaPub m |}
      | None => None
      end
  | (Zpos ((3 | 4 | 5 | 6 | 7 | 8)%positive as num), LengthDelimited b) =>
      Some (appendRepeated num b m)
  | (9, LengthDelimited b) =>
      Some {| pb.LocalPreParams := pb.LocalPreParams m;
              pb.LocalSecrets := pb.LocalSecrets m; pb.Ks := pb.Ks m;
              pb.NTildej := pb.NTildej m; pb.H1J := pb.H1J m;
              pb.H2J := pb.H2J m; pb.BigXj := pb.BigXj m;
              pb.PaillierPKs := pb.PaillierPKs m; pb.EcdsaPub := b |}
  | (Zpos (1 | 2 | 3 | 4 | 5 | 6 | 7 | 8 | 9)%positive, _) => None
  | _ => Some m
  end.

(** *** The instances *)

Definition marshalWith {M : Type} (fields : M -> list field) (m : M)
  : result lib_error bytes :=
  Ok (putFields (fields m)).

Definition unmarshalWith {M : Type} (step : M -> field -> option M) (zero : M)
  (data : bytes) : result lib_error M :=
  match decodeMessage step zero data with
  | Some m => Ok m
  | None => Err (LibError "proto: illegal wire data")
  end.

#[export] Instance ThresholdSigner_message : pb.Message pb.ThresholdSigner :=
  {| pb.Marshal := marshalWith ThresholdSigner_fields;
     pb.Unmarshal := unmarshalWith ThresholdSigner_step ThresholdSigner_zero |}.

#[export] Instance LocalPartySaveData_message : pb.Message pb.LocalPartySaveData :=
  {| pb.Marshal := marshalWith LocalPartySaveData_fields;
     pb.Unmarshal := unmarshalWith LocalPartySaveData_step LocalPartySaveData_zero |}.

#[export] Instance TSSProtocolMessage_message : pb.Message pb.TSSProtocolMessage :=
  {| pb.Marshal := marshalWith TSSProtocolMessage_fields;
     pb.Unmarshal := unmarshalWith TSSProtocolMessage_step TSSProtocolMessage_zero |}.

(** *** [JoinMessage] *)

Definition JoinMessage_fields (m : pb.JoinMessage) : list field :=
  bytesField 1 (pb.JoinMessage_SenderID m).

Definition JoinMessage_zero : pb.JoinMessage :=
  {| pb.JoinMessage_SenderID := [] |}.

Definition JoinMessage_step (m : pb.JoinMessage) (f : field)
  : option pb.JoinMessage :=
  match f with
  | (1, LengthDelimited b) => Some {| pb.JoinMessage_SenderID := b |}
  | (1, _) => None
  | _ => Some m
  end.

#[export] Instance JoinMessage_message : pb.Message pb.JoinMessage :=
  {| pb.Marshal := marshalWith JoinMessage_fields;
     pb.Unmarshal := unmarshalWith JoinMessage_step JoinMessage_zero |}.

(** *** Facts the encoders rely on *)

(** Field numbers and varint payloads are not negative. *)
Definition wf_field (f : field) : Prop :=
  0 <= fst f /\ match snd f with Varint v => 0 <= v | LengthDelimited _ => True end.

(** The field numbers of the repeated fields of [LocalPartySaveData]. *)
Definition isRepeated (num : positive) : Prop :=
  In num [3; 4; 5; 6; 7; 8]%positive.

(** [appendRepeated] for each element of [l] in turn. *)
Definition appendAll (num : positive) (l : list bytes) (m : pb.LocalPartySaveData)
  : pb.LocalPartySaveData :=
  let add (n : positive) (old : list bytes) :=
    if Pos.eqb num n then old ++ l else old in
  {| pb.LocalPreParams := pb.LocalPreParams m;
     pb.LocalSecrets := pb.LocalSecrets m;
     pb.Ks := add 3%positive (pb.Ks m);
     pb.NTildej := add 4%positive (pb.NTildej m);
     pb.H1J := add 5%positive (pb.H1J m);
     pb.H2J := add 6%positive (pb.H2J m);
     pb.BigXj := add 7%positive (pb.BigXj m);
     pb.PaillierPKs := add 8%positive (pb.PaillierPKs m);
     pb.EcdsaPub := pb.EcdsaPub m |}.

End wire.

(** ** The other messages of package [tss] *)

(** [JoinMessage]; its field [SenderID] is [JoinMessage_SenderID] here. *)
Record JoinMessage : Type := {
  JoinMessage_SenderID : MemberID
}.

(** [AnnounceMessage]; its field [SenderID] is [AnnounceMessage_SenderID]
    here. *)
Record AnnounceMessage : Type := {
  AnnounceMessage_SenderID : MemberID
}.

(** [func (m *TSSProtocolMessage) Type() string]. *)
Definition TSSProtocolMessage_Type (m : TSSProtocolMessage) : string :=
  "ecdsa/tss_message".

(** [func (m *JoinMessage) Type() string]. *)
Definition JoinMessage_Type (m : JoinMessage) : string :=
  "ecdsa/join_message".

(** [func (m *AnnounceMessage) Type() string]. *)
Definition AnnounceMessage_Type (m : AnnounceMessage) : string :=
  "ecdsa/announce_message".

Section MarshalingJoin.

Context {joinCodec : pb.Message pb.JoinMessage}.

Local Open Scope result_scope.

(** [func (m *JoinMessage) Marshal() ([]byte, error)]. *)
Definition JoinMessage_Marshal (m : JoinMessage) : result error bytes :=
  map_err External
    (pb.Marshal {| pb.JoinMessage_SenderID := JoinMessage_SenderID m |}).

(** [func (m *JoinMessage) Unmarshal(bytes []byte) error]. *)
Definition JoinMessage_Unmarshal (data : bytes) : result error JoinMessage :=
  pbMsg <- map_err External (pb.Unmarshal data) ;;
  Ok {| JoinMessage_SenderID := pb.JoinMessage_SenderID pbMsg |}.

End MarshalingJoin.

(** ** What a stored key looks like after loading *)

(** A point [ECPoint.GobDecode] accepts back from [ECPoint.GobEncode]: it
    passes the curve check and each gob-encoded coordinate is shorter than
    [2^32] bytes, the range of the length prefix. *)
Definition storable_point (p : crypto.ECPoint) : Prop :=
  crypto.IsOnCurve p = true
  /\ Go.len (big.Bytes (crypto.X p)) + 1 < 2 ^ 32
  /\ Go.len (big.Bytes (crypto.Y p)) + 1 < 2 ^ 32.

(** The key with every large integer replaced by its absolute value. *)
Definition absKey (tk : ThresholdKey) : ThresholdKey :=
  {| LocalPreParams :=
       {| keygen.PaillierSK :=
            {| paillier.PublicKey_ :=
                 {| paillier.N :=
                      Z.abs (paillier.N (paillier.PublicKey_
                               (keygen.PaillierSK (LocalPreParams tk)))) |};
               paillier.LambdaN :=
                 Z.abs (paillier.LambdaN (keygen.PaillierSK (LocalPreParams tk)));
               paillier.PhiN :=
                 Z.abs (paillier.PhiN (keygen.PaillierSK (LocalPreParams tk))) |};
          keygen.NTildei := Z.abs (keygen.NTildei (LocalPreParams tk));
          keygen.H1i := Z.abs (keygen.H1i (LocalPreParams tk));
          keygen.H2i := Z.abs (keygen.H2i (LocalPreParams tk)) |};
     LocalSecrets :=
       {| keygen.Xi := Z.abs (keygen.Xi (LocalSecrets tk));
          keygen.ShareID := Z.abs (keygen.ShareID (LocalSecrets tk)) |};
     Ks := map Z.abs (Ks tk);
     NTildej := map Z.abs (NTildej tk);
     H1j := map Z.abs (H1j tk);
     H2j := map Z.abs (H2j tk);
     BigXj := BigXj tk;
     PaillierPKs :=
       map (fun pk => {| paillier.N := Z.abs (paillier.N pk) |}) (PaillierPKs tk);
     ECDSAPub := ECDSAPub tk |}.

(** What [ThresholdKey.Unmarshal] guarantees of the key it returns: the
    integers are non-negative and the points storable. *)
Definition loaded_key (tk : ThresholdKey) : Prop :=
  nonneg (paillier.N (paillier.PublicKey_ (keygen.PaillierSK (LocalPreParams tk))))
  /\ nonneg (paillier.LambdaN (keygen.PaillierSK (LocalPreParams tk)))
  /\ nonneg (paillier.PhiN (keygen.PaillierSK (LocalPreParams tk)))
  /\ nonneg (keygen.NTildei (LocalPreParams tk))
  /\ nonneg (keygen.H1i (LocalPreParams tk))
  /\ nonneg (keygen.H2i (LocalPreParams tk))
  /\ nonneg (keygen.Xi (LocalSecrets tk))
  /\ nonneg (keygen.ShareID (LocalSecrets tk))
  /\ Forall nonneg (Ks tk)
  /\ Forall nonneg (NTildej tk)
  /\ Forall nonneg (H1j tk)
  /\ Forall nonneg (H2j tk)
  /\ Forall storable_point (BigXj tk)
  /\ Forall (fun pk => nonneg (paillier.N pk)) (PaillierPKs tk)
  /\ storable_point (ECDSAPub tk).

(** The error of the curve check of [ECPoint.GobDecode]. *)
Definition notOnCurve : lib_error :=
  LibError "ECPoint.UnmarshalJSON: the point is not on the elliptic curve".

(** ** Reading the calls of a run *)

Section Stages.

Context {env : Environment}.

(** The network stages of an execution, in the order of the source. *)
Inductive Stage : Type :=
| BridgeStage       (* newNetworkBridge *)
| InitStage         (* initializeKeyGeneration, initializeSigning *)
| JoinStage         (* joinProtocol *)
| RoundsStage.      (* generateKey, sign *)

Definition stageOf (o : Op) : list Stage :=
  match o with
  | newNetworkBridge _ _ => [BridgeStage]
  | initializeKeyGeneration _ _ _ _ | initializeSigning _ _ _ _ => [InitStage]
  | joinProtocol _ _ _ => [JoinStage]
  | generateKey _ _ | sign _ _ => [RoundsStage]
  | _ => []
  end.

Definition stages (calls : list Op) : list Stage := flat_map stageOf calls.

(** The warnings logged during a run. *)
Definition warnings (calls : list Op) : list string :=
  flat_map (fun o => match o with Warningf msg => [msg] | _ => [] end) calls.

(** The calls that create or cancel a context. *)
Definition isContextCall (o : Op) : bool :=
  match o with
  | WithTimeout _ | cancel _ => true
  | _ => false
  end.

Definition contextCalls (calls : list Op) : list Op := filter isContextCall calls.

(** A call that is given a context is given [ctx]. *)
Definition takesContext (ctx : Context_) (o : Op) : Prop :=
  match o with
  | cancel c
  | initializeKeyGeneration c _ _ _
  | joinProtocol c _ _
  | generateKey _ c
  | initializeSigning _ c _ _
  | sign _ c => c = ctx
  | _ => True
  end.

End Stages.

(** A key whose public key is not a point of the curve. *)
Definition offCurveKey : ThresholdKey :=
  {| LocalPreParams := LocalPreParams sampleKey;
     LocalSecrets := LocalSecrets sampleKey;
     Ks := Ks sampleKey; NTildej := NTildej sampleKey;
     H1j := H1j sampleKey; H2j := H2j sampleKey;
     BigXj := BigXj sampleKey; PaillierPKs := PaillierPKs sampleKey;
     ECDSAPub := {| crypto.X := 1; crypto.Y := 1 |} |}.

(** A signer whose secret share and share identifier are negative. *)
Definition negativeSigner : ThresholdSigner :=
  {| signerGroupInfo := signerGroupInfo sampleSigner;
     thresholdKey :=
       {| LocalPreParams := LocalPreParams sampleKey;
          LocalSecrets := {| keygen.Xi := -5; keygen.ShareID := -1 |};
          Ks := Ks sampleKey; NTildej := NTildej sampleKey;
          H1j := H1j sampleKey; H2j := H2j sampleKey;
          BigXj := BigXj sampleKey; PaillierPKs := PaillierPKs sampleKey;
          ECDSAPub := ECDSAPub sampleKey |} |}.

Definition sampleJoin : JoinMessage := {| JoinMessage_SenderID := [x02] |}.

(** The wire encoding of [sampleKey]. *)
Definition sampleKeyData : bytes :=
  match ThresholdKey_Marshal (keyCodec := wire.LocalPartySaveData_message)
          sampleKey with
  | Ok data => data
  | Err _ => []
  end.

Unset Implicit Arguments.

(** * Properties *)

(** ** Bytes as numbers *)

Lemma Z_of_byte_range (b : byte) : 0 <= Z_of_byte b < 256.
Proof.
  unfold Z_of_byte. pose proof (Byte.to_N_bounded b). lia.
Qed.

Lemma Z_of_byte_of_Z (z : Z) : Z_of_byte (byte_of_Z z) = z mod 256.
Proof.
  unfold byte_of_Z, Z_of_byte.
  pose proof (Z.mod_pos_bound z 256 ltac:(lia)) as Hr.
  destruct (Byte.of_N (Z.to_N (z mod 256))) as [b|] eqn:E.
  - apply Byte.to_of_N in E. rewrite E. lia.
  - apply Byte.of_N_None_iff in E. lia.
Qed.

Lemma byte_of_Z_of_byte (b : byte) : byte_of_Z (Z_of_byte b) = b.
Proof.
  unfold byte_of_Z. pose proof (Z_of_byte_range b) as Hr.
  rewrite Z.mod_small by lia. unfold Z_of_byte.
  rewrite N2Z.id, Byte.of_to_N. reflexivity.
Qed.

Lemma Z_of_byte_small (z : Z) : 0 <= z < 256 -> Z_of_byte (byte_of_Z z) = z.
Proof. intros H. rewrite Z_of_byte_of_Z. apply Z.mod_small; lia. Qed.

Lemma byte_of_Z_x00 (z : Z) : 0 < z < 256 -> byte_of_Z z <> x00.
Proof.
  intros H E. apply (f_equal Z_of_byte) in E.
  rewrite Z_of_byte_small in E by lia. cbn in E. lia.
Qed.

(** ** [math/big] *)

Lemma bitLen_spec (n : Z) : 0 <= n -> n < 2 ^ Z.of_nat (big.bitLen n).
Proof.
  intros Hn. destruct n as [|p|p]; [reflexivity| |lia].
  unfold big.bitLen. clear Hn.
  induction p as [p IH|p IH|]; cbn [Pos.size_nat];
    rewrite ?Nat2Z.inj_succ, ?Z.pow_succ_r by lia; lia.
Qed.


Lemma be_value_digits (fuel : nat) :
  forall (n : Z) (acc : bytes),
    0 <= n < 2 ^ Z.of_nat fuel ->
    be_value (big.be_digits fuel n acc) 0 = be_value acc n.
Proof.
  induction fuel as [|fuel IH]; intros n acc Hn.
  - cbn in *. replace n with 0 by lia. reflexivity.
  - cbn [big.be_digits]. destruct (n =? 0) eqn:E.
    + apply Z.eqb_eq in E. subst n. reflexivity.
    + rewrite IH.
      * cbn [be_value fold_left]. unfold be_value. f_equal.
        rewrite Z_of_byte_small by (apply Z.mod_pos_bound; lia).
        pose proof (Z.div_mod n 256 ltac:(lia)). lia.
      * rewrite Nat2Z.inj_succ, Z.pow_succ_r in Hn by lia.
        split; [apply Z.div_pos; lia|].
        apply Z.div_lt_upper_bound; lia.
Qed.

Lemma SetBytes_Bytes (x : Z) : big.SetBytes (big.Bytes x) = Z.abs x.
Proof.
  unfold big.SetBytes, big.Bytes.
  change (be_value (big.be_digits (big.bitLen (Z.abs x)) (Z.abs x) []) 0 = Z.abs x).
  rewrite be_value_digits by (split; [lia | apply bitLen_spec; lia]).
  reflexivity.
Qed.

Lemma SetBytes_Bytes_nonneg (x : Z) : 0 <= x -> big.SetBytes (big.Bytes x) = x.
Proof. intros H. rewrite SetBytes_Bytes. lia. Qed.

Lemma Bytes_zero : big.Bytes 0 = [].
Proof. reflexivity. Qed.

Lemma be_digits_head (fuel : nat) :
  forall (n : Z) (acc : bytes),
    0 < n < 2 ^ Z.of_nat fuel ->
    exists b rest, big.be_digits fuel n acc = b :: rest /\ b <> x00.
Proof.
  induction fuel as [|fuel IH]; intros n acc Hn.
  - cbn in Hn. lia.
  - cbn [big.be_digits]. destruct (n =? 0) eqn:E; [apply Z.eqb_eq in E; lia|].
    rewrite Nat2Z.inj_succ, Z.pow_succ_r in Hn by lia.
    destruct (Z.eq_dec (n / 256) 0) as [Hz|Hz].
    + rewrite Hz. destruct fuel; cbn [big.be_digits Z.eqb];
        (eexists; eexists; split; [reflexivity|]);
        apply byte_of_Z_x00;
        pose proof (Z.div_mod n 256 ltac:(lia));
        pose proof (Z.mod_pos_bound n 256 ltac:(lia)); lia.
    + apply IH. pose proof (Z.div_pos n 256 ltac:(lia) ltac:(lia)).
      split; [lia|]. apply Z.div_lt_upper_bound; lia.
Qed.

(** [Bytes] never starts with a zero byte: the magnitude is written with
    the fewest bytes that hold it. *)
Lemma Bytes_minimal (x : Z) :
  x <> 0 -> exists b rest, big.Bytes x = b :: rest /\ b <> x00.
Proof.
  intros Hx. unfold big.Bytes. apply be_digits_head.
  split; [lia | apply bitLen_spec; lia].
Qed.

Lemma Bytes_empty_iff (x : Z) : big.Bytes x = [] <-> x = 0.
Proof.
  split.
  - intros E. destruct (Z.eq_dec x 0) as [|Hx]; [assumption|].
    destruct (Bytes_minimal x Hx) as (b & rest & Hb & _). congruence.
  - intros ->. reflexivity.
Qed.

Lemma be_digits_length (fuel : nat) :
  forall (n : Z) (acc : bytes) (k : nat),
    0 <= n < 256 ^ Z.of_nat k ->
    (List.length (big.be_digits fuel n acc) <= k + List.length acc)%nat.
Proof.
  induction fuel as [|fuel IH]; intros n acc k Hn; cbn [big.be_digits]; [lia|].
  destruct (n =? 0) eqn:E; [lia|]. apply Z.eqb_neq in E.
  destruct k as [|k]; [cbn in Hn; lia|].
  rewrite Nat2Z.inj_succ, Z.pow_succ_r in Hn by lia.
  specialize (IH (n / 256) (byte_of_Z (n mod 256) :: acc) k).
  cbn [List.length] in IH.
  assert (0 <= n / 256 < 256 ^ Z.of_nat k).
  { split; [apply Z.div_pos; lia|]. apply Z.div_lt_upper_bound; lia. }
  specialize (IH H). lia.
Qed.

Lemma Bytes_length (x : Z) (k : nat) :
  Z.abs x < 256 ^ Z.of_nat k -> (List.length (big.Bytes x) <= k)%nat.
Proof.
  intros H. unfold big.Bytes.
  pose proof (be_digits_length (big.bitLen (Z.abs x)) (Z.abs x) [] k ltac:(lia)) as L.
  cbn [List.length] in L. lia.
Qed.

Lemma GobDecode_GobEncode (x : Z) :
  bind (big.GobEncode x) big.GobDecode = Ok x.
Proof.
  unfold big.GobEncode, big.GobDecode, bind, big.intGobVersion.
  rewrite SetBytes_Bytes.
  destruct (x <? 0) eqn:E.
  - apply Z.ltb_lt in E. cbn. f_equal. lia.
  - apply Z.ltb_ge in E. cbn. f_equal. lia.
Qed.

(** ** [tss-lib] curve points *)

Lemma lor_shiftl_add (a b k : Z) :
  0 <= k -> 0 <= a < 2 ^ k -> Z.lor a (Z.shiftl b k) = a + b * 2 ^ k.
Proof.
  intros Hk Ha. rewrite <- Z.shiftl_mul_pow2 by lia.
  rewrite <- Z.lxor_lor, <- Z.add_nocarry_lxor; try reflexivity.
  all: apply Z.bits_inj'; intros i Hi; rewrite Z.land_spec, Z.bits_0.
  all: destruct (Z.lt_ge_cases i k) as [Hlt|Hge].
  all: try (rewrite (Z.shiftl_spec_low b k i) by lia; apply andb_false_r).
  all: destruct (Z.eq_dec a 0) as [->|Hn]; [rewrite Z.bits_0; reflexivity|].
  all: rewrite (Z.bits_above_log2 a i); [reflexivity|lia|].
  all: apply Z.log2_lt_pow2; [lia|].
  all: apply Z.lt_le_trans with (2 ^ k); [lia|apply Z.pow_le_mono_r; lia].
Qed.

Lemma littleEndian_uint32 (b0 b1 b2 b3 : Z) :
  0 <= b0 < 256 -> 0 <= b1 < 256 -> 0 <= b2 < 256 -> 0 <= b3 < 256 ->
  Z.lor b0 (Z.lor (Z.shiftl b1 8) (Z.lor (Z.shiftl b2 16) (Z.shiftl b3 24)))
  = b0 + 256 * b1 + 65536 * b2 + 16777216 * b3.
Proof.
  intros H0 H1 H2 H3.
  replace (Z.shiftl b3 24) with (Z.shiftl (Z.shiftl b3 8) 16)
    by (rewrite Z.shiftl_shiftl by lia; reflexivity).
  rewrite <- Z.shiftl_lor.
  replace (Z.shiftl (Z.lor b2 (Z.shiftl b3 8)) 16)
    with (Z.shiftl (Z.shiftl (Z.lor b2 (Z.shiftl b3 8)) 8) 8)
    by (rewrite Z.shiftl_shiftl by lia; reflexivity).
  rewrite <- Z.shiftl_lor.
  rewrite (lor_shiftl_add b2 b3 8), (lor_shiftl_add b1 _ 8), (lor_shiftl_add b0 _ 8)
    by (change (2 ^ 8) with 256; lia).
  lia.
Qed.

Lemma readUint32_putUint32 (n : Z) (rest : bytes) :
  0 <= n < 2 ^ 32 ->
  crypto.readUint32 (crypto.putUint32 n ++ rest) = Ok (n, rest).
Proof.
  intros Hn. unfold crypto.putUint32, crypto.readUint32. cbn [app].
  rewrite littleEndian_uint32 by apply Z_of_byte_range.
  rewrite !Z_of_byte_of_Z, !Z.shiftr_div_pow2 by lia.
  apply f_equal. apply (f_equal (fun v => (v, rest))).
  change (2 ^ 8) with 256. change (2 ^ 16) with 65536.
  change (2 ^ 24) with 16777216. change (2 ^ 32) with 4294967296 in Hn.
  Z.div_mod_to_equations. lia.
Qed.

Lemma readFull_app (x rest : bytes) :
  x <> [] ->
  crypto.readFull (Go.len x) (x ++ rest) = Ok (x, rest).
Proof.
  intros Hx. unfold crypto.readFull, Go.len.
  destruct (x ++ rest) eqn:E.
  - apply app_eq_nil in E. tauto.
  - rewrite <- E. rewrite length_app.
    destruct (Z.leb_spec (Z.of_nat (List.length x))
                (Z.of_nat (List.length x + List.length rest))); [|lia].
    rewrite Nat2Z.id, firstn_app, skipn_app, Nat.sub_diag, firstn_all, skipn_all.
    cbn. rewrite app_nil_r. reflexivity.
Qed.

(** A curve point whose coordinates fit in 32 bytes each and satisfy the
    curve equation comes back from its gob encoding. *)
Lemma ECPoint_GobDecode_GobEncode (p : crypto.ECPoint) :
  Z.abs (crypto.X p) < 256 ^ 32 -> Z.abs (crypto.Y p) < 256 ^ 32 ->
  crypto.IsOnCurve p = true ->
  bind (crypto.GobEncode p) crypto.GobDecode = Ok p.
Proof.
  intros HX HY Hc. destruct p as [X Y]. cbn [crypto.X crypto.Y] in *.
  assert (Hlen : forall z : Z, Z.abs z < 256 ^ 32 ->
            forall v, 0 <= Go.len (v :: big.Bytes z) < 2 ^ 32).
  { intros z Hz v. unfold Go.len. cbn [List.length].
    pose proof (Bytes_length z 32 Hz). lia. }
  pose proof (GobDecode_GobEncode X) as EX.
  pose proof (GobDecode_GobEncode Y) as EY.
  unfold crypto.GobEncode, crypto.GobDecode.
  unfold big.GobEncode in *. cbn [bind] in *.
  unfold Go.uint32, Go.wrap_unsigned.
  rewrite !Z.mod_small by (apply Hlen; assumption).
  rewrite readUint32_putUint32 by (apply Hlen; assumption). cbn [bind].
  rewrite readFull_app by discriminate. cbn [bind].
  rewrite readUint32_putUint32 by (apply Hlen; assumption). cbn [bind].
  rewrite <- (app_nil_r (_ :: big.Bytes Y)) at 2.
  rewrite readFull_app by discriminate. cbn [bind].
  cbn [crypto.X crypto.Y]. rewrite EX. cbn [bind]. rewrite EY. cbn [bind].
  rewrite Hc. reflexivity.
Qed.

(** ** Go integer conversions *)

Lemma int32_range (z : Z) : Go.is_int32 (Go.int32 z).
Proof.
  unfold Go.is_int32, Go.int32, Go.wrap_signed.
  pose proof (Z.mod_pos_bound (z + 2 ^ (32 - 1)) (2 ^ 32) ltac:(lia)).
  change (2 ^ (32 - 1)) with (2 ^ 31) in *.
  change (2 ^ 32) with (2 * 2 ^ 31) in *. lia.
Qed.

Lemma int32_id (z : Z) : Go.is_int32 z -> Go.int32 z = z.
Proof.
  unfold Go.is_int32, Go.int32, Go.wrap_signed. intros H.
  change (2 ^ (32 - 1)) with (2 ^ 31).
  rewrite Z.mod_small; [lia|]. change (2 ^ 32) with (2 * 2 ^ 31). lia.
Qed.

Lemma int32_id_iff (z : Z) : Go.int32 z = z <-> Go.is_int32 z.
Proof.
  split; [|apply int32_id]. intros E. rewrite <- E. apply int32_range.
Qed.

Lemma int_id (z : Z) : Go.is_int z -> Go.int z = z.
Proof.
  unfold Go.is_int, Go.int, Go.wrap_signed, Go.intSize. intros H.
  change (2 ^ (64 - 1)) with (2 ^ 63).
  rewrite Z.mod_small; [lia|]. change (2 ^ 64) with (2 * 2 ^ 63). lia.
Qed.

Lemma int_int32 (z : Z) : Go.int (Go.int32 z) = Go.int32 z.
Proof.
  apply int_id. pose proof (int32_range z) as H.
  unfold Go.is_int32, Go.is_int in *. lia.
Qed.

(** ** [marshaling.go] over any lossless codec *)

Lemma valid_point_fits (p : crypto.ECPoint) :
  valid_point p ->
  Z.abs (crypto.X p) < 256 ^ 32 /\ Z.abs (crypto.Y p) < 256 ^ 32
  /\ crypto.IsOnCurve p = true.
Proof.
  unfold valid_point.
  assert (crypto.P < 256 ^ 32) by (vm_compute; reflexivity).
  intros (HX & HY & Hc). repeat split; try assumption; lia.
Qed.

Lemma unmarshal_marshalBigIntSlice (l : list big.Int) :
  Forall nonneg l -> unmarshalBigIntSlice (marshalBigIntSlice l) = l.
Proof.
  unfold unmarshalBigIntSlice, marshalBigIntSlice.
  induction 1 as [|x l Hx _ IH]; cbn [map]; [reflexivity|].
  rewrite IH, SetBytes_Bytes_nonneg by exact Hx. reflexivity.
Qed.

Lemma unmarshal_marshal_paillierPKs (l : list paillier.PublicKey) :
  Forall (fun pk => nonneg (paillier.N pk)) l ->
  map (fun paillierPK => {| paillier.N := big.SetBytes paillierPK |})
    (map (fun paillierPK => big.Bytes (paillier.N paillierPK)) l) = l.
Proof.
  induction 1 as [|[n] l Hx _ IH]; cbn [map]; [reflexivity|].
  cbn [paillier.N] in *. rewrite IH, SetBytes_Bytes_nonneg by exact Hx.
  reflexivity.
Qed.

Lemma ECPoint_GobEncode_ok (p : crypto.ECPoint) :
  exists b, crypto.GobEncode p = Ok b.
Proof. unfold crypto.GobEncode, big.GobEncode. cbn [bind]. eauto. Qed.

Lemma encodeBigXj_ok (l : list crypto.ECPoint) :
  exists enc, encodeBigXj l = Ok enc
    /\ (Forall valid_point l -> decodeBigXj enc = Ok l).
Proof.
  induction l as [|p l (enc & E & D)]; cbn [encodeBigXj].
  - exists []. split; [reflexivity|]. intros _. reflexivity.
  - destruct (ECPoint_GobEncode_ok p) as (b & Eb). rewrite Eb, E.
    cbn [map_err bind]. exists (b :: enc). split; [reflexivity|].
    intros Hv. inversion Hv as [|? ? Hp Hl]; subst.
    cbn [decodeBigXj]. apply valid_point_fits in Hp. destruct Hp as (HX & HY & Hc).
    pose proof (ECPoint_GobDecode_GobEncode p HX HY Hc) as R.
    rewrite Eb in R. cbn [bind] in R. rewrite R. cbn [map_err bind].
    rewrite (D Hl). reflexivity.
Qed.

Section MarshalingProperties.

Context {signerCodec : pb.Message pb.ThresholdSigner}.
Context {keyCodec : pb.Message pb.LocalPartySaveData}.
Context {messageCodec : pb.Message pb.TSSProtocolMessage}.
Context {signerLossless : pb.Lossless pb.typed_ThresholdSigner}.
Context {keyLossless : pb.Lossless (fun _ : pb.LocalPartySaveData => True)}.
Context {messageLossless : pb.Lossless (fun _ : pb.TSSProtocolMessage => True)}.

(** [ThresholdKey.Marshal] returns no error. *)
Lemma ThresholdKey_Marshal_ok (tk : ThresholdKey) :
  exists b, ThresholdKey_Marshal tk = Ok b.
Proof.
  unfold ThresholdKey_Marshal, ThresholdKey_pb.
  destruct (encodeBigXj_ok (BigXj tk)) as (enc & E & _). rewrite E.
  destruct (ECPoint_GobEncode_ok (ECDSAPub tk)) as (pub & Ep). rewrite Ep.
  cbn [map_err bind].
  match goal with |- context [pb.Marshal ?m] =>
    destruct (pb.unmarshal_marshal m I) as (b & Eb & _) end.
  rewrite Eb. cbn [map_err]. eauto.
Qed.

(** Valid key material comes back from its encoding. *)
Lemma ThresholdKey_roundtrip (tk : ThresholdKey) :
  valid_key tk ->
  bind (ThresholdKey_Marshal tk) ThresholdKey_Unmarshal = Ok tk.
Proof.
  intros (HN & HL & HP & HNT & H1 & H2 & HXi & HS & HKs & HNj & H1j & H2j
          & HBig & HPK & HPub).
  unfold ThresholdKey_Marshal, ThresholdKey_pb.
  destruct (encodeBigXj_ok (BigXj tk)) as (enc & E & D). rewrite E.
  destruct (ECPoint_GobEncode_ok (ECDSAPub tk)) as (pub & Ep). rewrite Ep.
  cbn [map_err bind].
  match goal with |- context [pb.Marshal ?m] =>
    destruct (pb.unmarshal_marshal m I) as (b & Eb & Ub) end.
  rewrite Eb. cbn [map_err bind].
  unfold ThresholdKey_Unmarshal. rewrite Ub. cbn [map_err bind].
  cbv [pb.GetLocalPreParams pb.GetLocalSecrets pb.GetPaillierSK pb.GetPublicKey
       pb.GetLambdaN pb.GetPhiN pb.GetNTilde pb.GetH1I pb.GetH2I pb.GetXi
       pb.GetShareID pb.GetKs pb.GetNTildej pb.GetH1J pb.GetH2J pb.GetBigXj
       pb.GetPaillierPKs pb.GetEcdsaPub pb.get
       pb.LocalPreParams pb.LocalSecrets pb.PaillierSK pb.PublicKey pb.LambdaN
       pb.PhiN pb.NTilde pb.H1I pb.H2I pb.Xi pb.ShareID pb.Ks pb.NTildej pb.H1J
       pb.H2J pb.BigXj pb.PaillierPKs pb.EcdsaPub].
  rewrite (D HBig). cbn [bind].
  apply valid_point_fits in HPub. destruct HPub as (HX & HY & Hc).
  pose proof (ECPoint_GobDecode_GobEncode _ HX HY Hc) as R.
  rewrite Ep in R. cbn [bind] in R. rewrite R. cbn [map_err bind].
  rewrite !unmarshal_marshalBigIntSlice, unmarshal_marshal_paillierPKs by assumption.
  rewrite !SetBytes_Bytes_nonneg by assumption.
  destruct tk as [[[[n] l p] nt h1 h2] [xi sh] ks ntj h1j h2j big pks pub'].
  reflexivity.
Qed.

(** The threshold a stored signer carries is the original one narrowed to
    32 bits; everything else comes back as it was. *)
Lemma ThresholdSigner_roundtrip (s : ThresholdSigner) :
  valid_key (thresholdKey s) ->
  bind (ThresholdSigner_Marshal s) ThresholdSigner_Unmarshal
  = Ok (narrowThreshold s).
Proof.
  intros Hk. pose proof (ThresholdKey_roundtrip _ Hk) as R.
  unfold ThresholdSigner_Marshal, ThresholdSigner_pb.
  destruct (ThresholdKey_Marshal_ok (thresholdKey s)) as (kb & Ek).
  rewrite Ek in R |- *. cbn [map_err bind] in R |- *.
  match goal with |- context [pb.Marshal ?m] =>
    destruct (pb.unmarshal_marshal m) as (b & Eb & Ub) end.
  { cbn. apply int32_range. }
  rewrite Eb. cbn [map_err bind].
  unfold ThresholdSigner_Unmarshal. rewrite Ub. cbn [map_err bind].
  cbv [pb.GetGroupInfo pb.GetThresholdKey pb.GetGroupID pb.GetMemberID
       pb.GetGroupMemberIDs pb.GetDishonestThreshold pb.get
       pb.GroupInfo pb.ThresholdKey pb.GroupID pb.MemberID pb.GroupMemberIDs
       pb.DishonestThreshold].
  rewrite R. cbn [map_err bind].
  rewrite !map_id, int_int32. reflexivity.
Qed.

Lemma TSSProtocolMessage_roundtrip (m : TSSProtocolMessage) :
  bind (TSSProtocolMessage_Marshal m) TSSProtocolMessage_Unmarshal = Ok m.
Proof.
  unfold TSSProtocolMessage_Marshal.
  match goal with |- context [pb.Marshal ?m] =>
    destruct (pb.unmarshal_marshal m I) as (b & Eb & Ub) end.
  rewrite Eb. cbn [map_err bind].
  unfold TSSProtocolMessage_Unmarshal. rewrite Ub. cbn [map_err bind].
  destruct m; reflexivity.
Qed.

End MarshalingProperties.

(** ** The wire format is lossless *)

Module wire_facts.
Import wire.

Lemma decodeVarint_putUvarint (fuel : nat) :
  forall (v : Z) (rest : bytes),
    0 <= v < 2 ^ Z.of_nat fuel ->
    decodeVarint (putUvarint fuel v ++ rest) = Some (v, rest).
Proof.
  induction fuel as [|fuel IH]; intros v rest Hv.
  - cbn in Hv. replace v with 0 by lia. reflexivity.
  - cbn [putUvarint]. destruct (Z.ltb_spec v 128) as [Hs|Hs].
    + cbn [app decodeVarint]. rewrite Z_of_byte_small by lia.
      destruct (Z.ltb_spec v 128); [reflexivity|lia].
    + cbn [app decodeVarint].
      pose proof (Z.mod_pos_bound v 128 ltac:(lia)) as Hm.
      rewrite Z_of_byte_small by lia.
      destruct (Z.ltb_spec (v mod 128 + 128) 128); [lia|].
      rewrite IH.
      * f_equal. f_equal. pose proof (Z.div_mod v 128 ltac:(lia)). lia.
      * rewrite Nat2Z.inj_succ, Z.pow_succ_r in Hv by lia.
        split; [apply Z.div_pos; lia|]. apply Z.div_lt_upper_bound; lia.
Qed.

Lemma decodeVarint_encodeVarint (v : Z) (rest : bytes) :
  0 <= v -> decodeVarint (encodeVarint v ++ rest) = Some (v, rest).
Proof.
  intros Hv. unfold encodeVarint. apply decodeVarint_putUvarint.
  split; [assumption|]. pose proof (Z.log2_nonneg v).
  rewrite Z2Nat.id by lia.
  destruct (Z.eq_dec v 0) as [->|Hn]; [reflexivity|].
  apply Z.log2_spec. lia.
Qed.

Lemma putUvarint_cons (fuel : nat) (v : Z) :
  exists b l, putUvarint fuel v = b :: l.
Proof.
  destruct fuel; cbn [putUvarint]; [eauto|]. destruct (v <? 128); eauto.
Qed.


Lemma putField_cons (f : field) : exists b l, putField f = b :: l.
Proof.
  destruct f as [num [v|d]]; cbn [putField]; unfold encodeVarint;
    match goal with |- context [putUvarint ?n ?k] =>
      destruct (putUvarint_cons n k) as (b & l & ->) end;
    cbn [app]; eauto.
Qed.

Lemma getFields_cons (fuel : nat) (b : byte) (l : bytes) :
  getFields (S fuel) (b :: l) =
  match decodeVarint (b :: l) with
  | None => None
  | Some (key, rest) =>
      if key mod 8 =? 0 then
        match decodeVarint rest with
        | None => None
        | Some (v, rest') =>
            option_map (cons (key / 8, Varint v)) (getFields fuel rest')
        end
      else if key mod 8 =? 2 then
        match decodeVarint rest with
        | None => None
        | Some (n, rest') =>
            if n <=? Go.len rest' then
              option_map
                (cons (key / 8, LengthDelimited (firstn (Z.to_nat n) rest')))
                (getFields fuel (skipn (Z.to_nat n) rest'))
            else None
        end
      else None
  end.
Proof. reflexivity. Qed.

Lemma getFields_putFields (fs : list field) :
  Forall wf_field fs ->
  forall (fuel : nat), (List.length fs <= fuel)%nat ->
  getFields fuel (putFields fs) = Some fs.
Proof.
  induction 1 as [|f fs Hf _ IH]; intros fuel Hfuel; [destruct fuel; reflexivity|].
  destruct fuel as [|fuel]; [cbn in Hfuel; lia|]. cbn [List.length] in Hfuel.
  unfold putFields. cbn [flat_map]. fold (putFields fs).
  destruct (putField_cons f) as (b0 & l0 & E0).
  rewrite E0. cbn [app]. rewrite getFields_cons, app_comm_cons, <- E0.
  destruct f as [num [v|d]]; destruct Hf as [Hnum Hv]; cbn [fst snd] in *;
    cbn [putField]; rewrite <- !app_assoc.
  - rewrite decodeVarint_encodeVarint by lia.
    replace ((num * 8) mod 8) with 0 by (symmetry; apply Z.mod_mul; lia).
    cbn [Z.eqb]. rewrite decodeVarint_encodeVarint by lia.
    rewrite Z.div_mul by lia. rewrite IH by lia. reflexivity.
  - rewrite decodeVarint_encodeVarint by lia.
    replace ((num * 8 + 2) mod 8) with 2
      by (rewrite Z.add_comm, Z.mod_add by lia; reflexivity).
    cbn [Z.eqb Pos.eqb].
    rewrite decodeVarint_encodeVarint by (unfold Go.len; lia).
    replace ((num * 8 + 2) / 8) with num
      by (rewrite Z.add_comm, Z.div_add by lia; reflexivity).
    unfold Go.len. rewrite length_app.
    destruct (Z.leb_spec (Z.of_nat (List.length d))
                (Z.of_nat (List.length d + List.length (putFields fs)))); [|lia].
    rewrite Nat2Z.id, firstn_app, skipn_app, Nat.sub_diag, firstn_all, skipn_all.
    cbn [firstn skipn app]. rewrite app_nil_r, IH by lia. reflexivity.
Qed.

Lemma length_putFields (fs : list field) :
  (List.length fs <= List.length (putFields fs))%nat.
Proof.
  induction fs as [|f fs IH]; [reflexivity|].
  unfold putFields. cbn [flat_map]. fold (putFields fs).
  destruct (putField_cons f) as (b & l & ->).
  rewrite length_app. cbn [List.length]. lia.
Qed.

Lemma parse_putFields (fs : list field) :
  Forall wf_field fs -> parse (putFields fs) = Some fs.
Proof.
  intros H. apply getFields_putFields; [assumption|apply length_putFields].
Qed.

Lemma decodeFields_app {M : Type} (step : M -> field -> option M)
  (a b : list field) (m : M) :
  decodeFields step (a ++ b) m =
  match decodeFields step a m with
  | Some m' => decodeFields step b m'
  | None => None
  end.
Proof.
  revert m. induction a as [|f a IH]; intros m; cbn [app decodeFields]; [reflexivity|].
  destruct (step m f); [apply IH|reflexivity].
Qed.

Lemma decodeMessage_putFields {M : Type} (step : M -> field -> option M)
  (zero : M) (fields : M -> list field) (m : M) :
  Forall wf_field (fields m) ->
  decodeFields step (fields m) zero = Some m ->
  decodeMessage step zero (putFields (fields m)) = Some m.
Proof.
  intros Hwf Hd. unfold decodeMessage. rewrite parse_putFields by assumption.
  exact Hd.
Qed.

(** Well-formedness of the fields an encoder writes. *)
Lemma wf_bytesField (num : Z) (b : bytes) :
  0 <= num -> Forall wf_field (bytesField num b).
Proof.
  intros H. destruct b; cbn; repeat constructor; cbn; lia.
Qed.

Lemma wf_boolField (num : Z) (v : bool) :
  0 <= num -> Forall wf_field (boolField num v).
Proof.
  intros H. destruct v; cbn; repeat constructor; cbn; lia.
Qed.

Lemma wf_int32Field (num : Z) (v : Z) :
  0 <= num -> Forall wf_field (int32Field num v).
Proof.
  intros H. unfold int32Field. destruct (v =? 0); repeat constructor; cbn; [lia|].
  unfold Go.uint64, Go.wrap_unsigned. apply Z.mod_pos_bound. lia.
Qed.

Lemma wf_repeatedBytes (num : Z) (l : list bytes) :
  0 <= num -> Forall wf_field (repeatedBytes num l).
Proof.
  intros H. unfold repeatedBytes. apply Forall_forall. intros f Hf.
  apply in_map_iff in Hf. destruct Hf as (b & <- & _). split; cbn; [lia|exact I].
Qed.

Lemma wf_messageField {M : Type} (num : Z) (fields : M -> list field)
  (m : option M) :
  0 <= num -> Forall wf_field (messageField num fields m).
Proof.
  intros H. destruct m; cbn; repeat constructor; cbn; lia.
Qed.

Lemma wf_app (a b : list field) :
  Forall wf_field a -> Forall wf_field b -> Forall wf_field (a ++ b).
Proof. intros Ha Hb. apply Forall_app. split; assumption. Qed.

Ltac wf_fields :=
  repeat apply wf_app;
  first [apply wf_bytesField | apply wf_boolField | apply wf_int32Field
        | apply wf_repeatedBytes | apply wf_messageField]; lia.

(** *** [TSSProtocolMessage] *)

Lemma TSSProtocolMessage_decode (m : pb.TSSProtocolMessage) :
  decodeMessage TSSProtocolMessage_step TSSProtocolMessage_zero
    (putFields (TSSProtocolMessage_fields m)) = Some m.
Proof.
  apply decodeMessage_putFields; [unfold TSSProtocolMessage_fields; wf_fields|].
  destruct m as [[|s0 s] [|p0 p] [|]]; reflexivity.
Qed.

(** *** [ThresholdSigner] *)

Lemma int32_uint64 (v : Z) : Go.is_int32 v -> Go.int32 (Go.uint64 v) = v.
Proof.
  unfold Go.is_int32, Go.int32, Go.uint64, Go.wrap_signed, Go.wrap_unsigned.
  change (2 ^ (32 - 1)) with 2147483648. change (2 ^ 31) with 2147483648.
  change (2 ^ 32) with 4294967296. change (2 ^ 64) with 18446744073709551616.
  intros H. Z.div_mod_to_equations. lia.
Qed.

Lemma GroupInfo_repeated (l : list bytes) :
  forall (rest : list field) (g : pb.ThresholdSigner_GroupInfo),
    decodeFields GroupInfo_step (repeatedBytes 3 l ++ rest) g =
    decodeFields GroupInfo_step rest
      {| pb.GroupID := pb.GroupID g; pb.MemberID := pb.MemberID g;
         pb.GroupMemberIDs := pb.GroupMemberIDs g ++ l;
         pb.DishonestThreshold := pb.DishonestThreshold g |}.
Proof.
  induction l as [|b l IH]; intros rest g.
  - cbn [repeatedBytes map app]. rewrite app_nil_r. destruct g; reflexivity.
  - cbn [repeatedBytes map app decodeFields GroupInfo_step].
    fold (repeatedBytes 3 l). rewrite IH.
    cbn [pb.GroupID pb.MemberID pb.GroupMemberIDs pb.DishonestThreshold].
    rewrite <- app_assoc. reflexivity.
Qed.

Lemma GroupInfo_decode (g : pb.ThresholdSigner_GroupInfo) :
  pb.typed_GroupInfo g ->
  decodeMessage GroupInfo_step pb.empty_GroupInfo
    (putFields (GroupInfo_fields g)) = Some g.
Proof.
  intros Ht. apply decodeMessage_putFields; [unfold GroupInfo_fields; wf_fields|].
  destruct g as [gid mid ids dt]. unfold pb.typed_GroupInfo in Ht.
  cbn [pb.DishonestThreshold] in Ht.
  unfold GroupInfo_fields.
  cbn [pb.GroupID pb.MemberID pb.GroupMemberIDs pb.DishonestThreshold].
  pose proof (string_of_list_byte_of_string gid) as Hs.
  assert (E1 : decodeFields GroupInfo_step
                 (bytesField 1 (list_byte_of_string gid)) pb.empty_GroupInfo
               = Some {| pb.GroupID := gid; pb.MemberID := [];
                         pb.GroupMemberIDs := []; pb.DishonestThreshold := 0 |}).
  { destruct gid as [|a gid]; [reflexivity|].
    change (list_byte_of_string (String a gid))
      with (byte_of_ascii a :: list_byte_of_string gid) in Hs |- *.
    cbn [bytesField decodeFields GroupInfo_step]. rewrite Hs. reflexivity. }
  rewrite decodeFields_app, E1. clear E1.
  assert (E2 : forall g0 : pb.ThresholdSigner_GroupInfo,
            pb.MemberID g0 = [] ->
            decodeFields GroupInfo_step (bytesField 2 mid) g0
            = Some {| pb.GroupID := pb.GroupID g0; pb.MemberID := mid;
                      pb.GroupMemberIDs := pb.GroupMemberIDs g0;
                      pb.DishonestThreshold := pb.DishonestThreshold g0 |}).
  { intros [a b c d] Hb. cbn in Hb. subst b. destruct mid; reflexivity. }
  rewrite decodeFields_app, E2 by reflexivity. clear E2.
  cbn [pb.GroupID pb.MemberID pb.GroupMemberIDs pb.DishonestThreshold].
  rewrite GroupInfo_repeated.
  cbn [pb.GroupID pb.MemberID pb.GroupMemberIDs pb.DishonestThreshold app].
  unfold int32Field. destruct (Z.eqb_spec dt 0) as [->|Hn]; [reflexivity|].
  cbn [decodeFields GroupInfo_step
       pb.GroupID pb.MemberID pb.GroupMemberIDs pb.DishonestThreshold].
  rewrite int32_uint64 by assumption. reflexivity.
Qed.

Lemma ThresholdSigner_decode (m : pb.ThresholdSigner) :
  pb.typed_ThresholdSigner m ->
  decodeMessage ThresholdSigner_step ThresholdSigner_zero
    (putFields (ThresholdSigner_fields m)) = Some m.
Proof.
  intros Ht. apply decodeMessage_putFields; [unfold ThresholdSigner_fields; wf_fields|].
  destruct m as [[g|] key]; unfold pb.typed_ThresholdSigner in Ht;
    cbn [pb.GroupInfo] in Ht; unfold ThresholdSigner_fields;
    cbn [pb.GroupInfo pb.ThresholdKey messageField app decodeFields
         ThresholdSigner_step].
  - rewrite (GroupInfo_decode g Ht). destruct key; reflexivity.
  - destruct key; reflexivity.
Qed.

(** *** [LocalPartySaveData] *)

Lemma PrivateKey_decode (k : pb.LocalPartySaveData_LocalPreParams_PrivateKey) :
  decodeMessage PrivateKey_step PrivateKey_zero
    (putFields (PrivateKey_fields k)) = Some k.
Proof.
  apply decodeMessage_putFields; [unfold PrivateKey_fields; wf_fields|].
  destruct k as [[|a0 a] [|b0 b] [|c0 c]]; reflexivity.
Qed.

Lemma LocalPreParams_decode (p : pb.LocalPartySaveData_LocalPreParams) :
  decodeMessage LocalPreParams_step LocalPreParams_zero
    (putFields (LocalPreParams_fields p)) = Some p.
Proof.
  apply decodeMessage_putFields; [unfold LocalPreParams_fields; wf_fields|].
  destruct p as [[k|] nt h1 h2]; unfold LocalPreParams_fields;
    cbn [pb.PaillierSK pb.NTilde pb.H1I pb.H2I messageField app decodeFields
         LocalPreParams_step];
    rewrite ?PrivateKey_decode;
    destruct nt as [|n0 nt], h1 as [|x0 h1], h2 as [|y0 h2]; reflexivity.
Qed.

Lemma LocalSecrets_decode (x : pb.LocalPartySaveData_LocalSecrets) :
  decodeMessage LocalSecrets_step LocalSecrets_zero
    (putFields (LocalSecrets_fields x)) = Some x.
Proof.
  apply decodeMessage_putFields; [unfold LocalSecrets_fields; wf_fields|].
  destruct x as [[|a0 a] [|b0 b]]; reflexivity.
Qed.


Lemma LocalPartySaveData_step_repeated (num : positive) (b : bytes)
  (m : pb.LocalPartySaveData) :
  isRepeated num ->
  LocalPartySaveData_step m (Zpos num, LengthDelimited b)
  = Some (appendRepeated num b m).
Proof.
  unfold isRepeated. cbn [In].
  intros [<-|[<-|[<-|[<-|[<-|[<-|[]]]]]]]; reflexivity.
Qed.


Lemma LocalPartySaveData_repeated (num : positive) (l : list bytes) :
  isRepeated num ->
  forall (rest : list field) (m : pb.LocalPartySaveData),
    decodeFields LocalPartySaveData_step (repeatedBytes (Zpos num) l ++ rest) m
    = decodeFields LocalPartySaveData_step rest (appendAll num l m).
Proof.
  intros Hn. induction l as [|b l IH]; intros rest m.
  - cbn [repeatedBytes map app]. f_equal. destruct m. unfold appendAll.
    cbn [pb.LocalPreParams pb.LocalSecrets pb.Ks pb.NTildej pb.H1J pb.H2J
         pb.BigXj pb.PaillierPKs pb.EcdsaPub].
    f_equal; match goal with |- context [Pos.eqb ?a ?b] =>
      destruct (Pos.eqb a b) end; rewrite ?app_nil_r; reflexivity.
  - cbn [repeatedBytes map app decodeFields]. fold (repeatedBytes (Zpos num) l).
    rewrite LocalPartySaveData_step_repeated by assumption.
    rewrite IH. f_equal. unfold appendAll, appendRepeated.
    cbn [pb.LocalPreParams pb.LocalSecrets pb.Ks pb.NTildej pb.H1J pb.H2J
         pb.BigXj pb.PaillierPKs pb.EcdsaPub].
    f_equal; match goal with |- context [Pos.eqb ?a ?b] =>
      destruct (Pos.eqb a b) end; rewrite <- ?app_assoc; reflexivity.
Qed.

Lemma LocalPartySaveData_decode (m : pb.LocalPartySaveData) :
  decodeMessage LocalPartySaveData_step LocalPartySaveData_zero
    (putFields (LocalPartySaveData_fields m)) = Some m.
Proof.
  apply decodeMessage_putFields; [unfold LocalPartySaveData_fields; wf_fields|].
  destruct m as [pp ls ks ntj h1j h2j big pks pub].
  unfold LocalPartySaveData_fields.
  cbn [pb.LocalPreParams pb.LocalSecrets pb.Ks pb.NTildej pb.H1J pb.H2J
       pb.BigXj pb.PaillierPKs pb.EcdsaPub].
  rewrite (decodeFields_app _ (messageField 1 _ pp)).
  assert (E1 : decodeFields LocalPartySaveData_step
                 (messageField 1 LocalPreParams_fields pp) LocalPartySaveData_zero
               = Some {| pb.LocalPreParams := pp; pb.LocalSecrets := None;
                         pb.Ks := []; pb.NTildej := []; pb.H1J := [];
                         pb.H2J := []; pb.BigXj := []; pb.PaillierPKs := [];
                         pb.EcdsaPub := [] |}).
  { destruct pp as [p|]; [|reflexivity].
    cbn [messageField decodeFields LocalPartySaveData_step].
    rewrite LocalPreParams_decode. reflexivity. }
  rewrite E1. clear E1.
  rewrite (decodeFields_app _ (messageField 2 _ ls)).
  assert (E2 : decodeFields LocalPartySaveData_step
                 (messageField 2 LocalSecrets_fields ls)
                 {| pb.LocalPreParams := pp; pb.LocalSecrets := None;
                    pb.Ks := []; pb.NTildej := []; pb.H1J := [];
                    pb.H2J := []; pb.BigXj := []; pb.PaillierPKs := [];
                    pb.EcdsaPub := [] |}
               = Some {| pb.LocalPreParams := pp; pb.LocalSecrets := ls;
                         pb.Ks := []; pb.NTildej := []; pb.H1J := [];
                         pb.H2J := []; pb.BigXj := []; pb.PaillierPKs := [];
                         pb.EcdsaPub := [] |}).
  { destruct ls as [x|]; [|reflexivity].
    cbn [messageField decodeFields LocalPartySaveData_step].
    rewrite LocalSecrets_decode. reflexivity. }
  rewrite E2. clear E2.
  repeat (rewrite LocalPartySaveData_repeated by (unfold isRepeated; cbn; tauto);
          cbv [appendAll pb.LocalPreParams pb.LocalSecrets pb.Ks pb.NTildej
               pb.H1J pb.H2J pb.BigXj pb.PaillierPKs pb.EcdsaPub Pos.eqb];
          cbn [app]).
  destruct pub; reflexivity.
Qed.

(** *** The instances are lossless *)

Lemma lossless_of_decode {M : Type} (fields : M -> list field)
  (step : M -> field -> option M) (zero : M) (typed : M -> Prop) :
  (forall m, typed m -> decodeMessage step zero (putFields (fields m)) = Some m) ->
  forall m, typed m ->
  exists b, marshalWith fields m = Ok b /\ unmarshalWith step zero b = Ok m.
Proof.
  intros H m Hm. exists (putFields (fields m)). split; [reflexivity|].
  unfold unmarshalWith. rewrite (H m Hm). reflexivity.
Qed.

#[export] Instance ThresholdSigner_lossless :
  pb.Lossless (codec := ThresholdSigner_message) pb.typed_ThresholdSigner.
Proof.
  exact (lossless_of_decode _ _ _ _ ThresholdSigner_decode).
Qed.

#[export] Instance LocalPartySaveData_lossless :
  pb.Lossless (codec := LocalPartySaveData_message) (fun _ => True).
Proof.
  exact (lossless_of_decode _ _ _ _ (fun m _ => LocalPartySaveData_decode m)).
Qed.

#[export] Instance TSSProtocolMessage_lossless :
  pb.Lossless (codec := TSSProtocolMessage_message) (fun _ => True).
Proof.
  exact (lossless_of_decode _ _ _ _ (fun m _ => TSSProtocolMessage_decode m)).
Qed.

End wire_facts.

(** ** [tss.go] *)

(** The messages of the two configuration errors. *)
Lemma Error_InvalidGroupSize :
  Error (InvalidGroupSize 1)
  = "group should have at least 2 members but got: [1]"%string.
Proof. reflexivity. Qed.

Lemma Error_ThresholdTooLarge :
  Error (ThresholdTooLarge 3 3)
  = "group size [3], should be greater than dishonest threshold [3]"%string.
Proof. reflexivity. Qed.

Lemma Error_Errorf :
  Error (Errorf "failed to join the protocol" (External (LibError "timeout")))
  = "failed to join the protocol: [timeout]"%string.
Proof. reflexivity. Qed.

(** Following a run call by call: the next call is answered by the
    handler; a fallible answer is split into its two cases. *)
Ltac next_call h :=
  match goal with
  | |- context [h ?o ?w] =>
      let x := fresh "x" in
      let w' := fresh "w" in
      let E := fresh "E" in
      destruct (h o w) as [x w'] eqn:E;
      cbn [Resp] in x;
      try (destruct x as [x|x]);
      cbn [run pbind call defer fst snd]
  end.

Ltac follow h := cbn [run pbind call defer fst snd]; repeat next_call h.

(** In an environment whose calls do not fail, a path on which a call
    failed is not taken. *)
Ltac failed_call Hs :=
  match goal with
  | E : ?h ?o ?w0 = (Err _, _) |- _ =>
      let Ha := fresh "Ha" in
      pose proof (Hs o w0) as Ha; rewrite E in Ha;
      cbn [answersOk fst] in Ha; destruct Ha as [? Ha]; discriminate Ha
  end.

Section ProtocolProperties.

Context {env : Environment} {constants : Constants}.

Lemma run_returnsOnly {W A : Type} (P : A -> Prop) (h : Handler W) (p : Prog A) :
  returnsOnly P p -> forall w : W, P (fst (fst (run h p w))).
Proof.
  induction p as [a|o k IH]; intros HP w; cbn [run returnsOnly] in *.
  - exact HP.
  - destruct (h o w) as [x w1]. specialize (IH x (HP x) w1).
    destruct (run h (k x) w1) as [[a w2] calls]. exact IH.
Qed.

(** The group too small: nothing but the error. *)
Lemma GenerateThresholdSigner_small (groupID : string) (memberID : MemberID)
  (groupMemberIDs : list MemberID) (dishonestThreshold : Z)
  (networkProvider : Provider) (tssPreParams : option keygen.LocalPreParams) :
  Go.len groupMemberIDs < 2 ->
  GenerateThresholdSigner groupID memberID groupMemberIDs dishonestThreshold
    networkProvider tssPreParams
  = Ret (Err (InvalidGroupSize (Go.len groupMemberIDs))).
Proof.
  intros H. unfold GenerateThresholdSigner.
  destruct (Z.ltb_spec (Go.len groupMemberIDs) 2); [reflexivity|lia].
Qed.

(** The threshold check, as the code performs it: on [int(dishonestThreshold)]. *)
Lemma GenerateThresholdSigner_large (groupID : string) (memberID : MemberID)
  (groupMemberIDs : list MemberID) (dishonestThreshold : Z)
  (networkProvider : Provider) (tssPreParams : option keygen.LocalPreParams) :
  2 <= Go.len groupMemberIDs ->
  Go.len groupMemberIDs <= Go.int dishonestThreshold ->
  GenerateThresholdSigner groupID memberID groupMemberIDs dishonestThreshold
    networkProvider tssPreParams
  = Ret (Err (ThresholdTooLarge (Go.len groupMemberIDs) dishonestThreshold)).
Proof.
  intros H2 Ht. unfold GenerateThresholdSigner.
  destruct (Z.ltb_spec (Go.len groupMemberIDs) 2); [lia|].
  destruct (Z.leb_spec (Go.len groupMemberIDs) (Go.int dishonestThreshold));
    [reflexivity|lia].
Qed.

Lemma int_uint_small (t : Z) : 0 <= t < 2 ^ 63 -> Go.int t = t.
Proof. intros H. apply int_id. unfold Go.is_int. lia. Qed.

Lemma run_callsOnly {W A : Type} (P : Op -> Prop) (h : Handler W) (p : Prog A) :
  callsOnly P p -> forall w : W, Forall P (snd (run h p w)).
Proof.
  induction p as [a|o k IH]; intros HP w; cbn [run callsOnly] in *.
  - constructor.
  - destruct HP as [Ho Hk]. destruct (h o w) as [x w1].
    specialize (IH x (Hk x) w1).
    destruct (run h (k x) w1) as [[a w2] calls]. constructor; assumption.
Qed.

Lemma run_returnsWhenOk {W A : Type} (P : A -> Prop) (h : Handler W) (p : Prog A) :
  succeeds h -> returnsWhenOk P p -> forall w : W, P (fst (fst (run h p w))).
Proof.
  intros Hs. induction p as [a|o k IH]; intros HP w; cbn [run returnsWhenOk] in *.
  - exact HP.
  - pose proof (Hs o w) as Ho. destruct (h o w) as [x w1]. cbn [fst] in Ho.
    specialize (IH x (HP x Ho) w1).
    destruct (run h (k x) w1) as [[a w2] calls]. exact IH.
Qed.


(** Once the configuration is accepted, an error can only come from a
    callee. *)
Lemma GenerateThresholdSigner_accepted (groupID : string) (memberID : MemberID)
  (groupMemberIDs : list MemberID) (dishonestThreshold : Z)
  (networkProvider : Provider) (tssPreParams : option keygen.LocalPreParams) :
  2 <= Go.len groupMemberIDs ->
  Go.int dishonestThreshold < Go.len groupMemberIDs ->
  returnsOnly (fun r => forall e, r = Err e -> reportedByCallee e)
    (GenerateThresholdSigner groupID memberID groupMemberIDs dishonestThreshold
       networkProvider tssPreParams).
Proof.
  intros H2 Ht. unfold GenerateThresholdSigner.
  destruct (Z.ltb_spec (Go.len groupMemberIDs) 2); [lia|].
  destruct (Z.leb_spec (Go.len groupMemberIDs) (Go.int dishonestThreshold)); [lia|].
  destruct tssPreParams;
    repeat (cbn [returnsOnly pbind call defer]; intros;
            repeat match goal with
                   | x : Resp _ |- _ => cbn [Resp] in x
                   | x : result _ _ |- _ => destruct x
                   | H : Ok _ = Err _ |- _ => discriminate H
                   | H : Err _ = Err _ |- _ => injection H as <-
                   end);
    exact I.
Qed.

Lemma GenerateThresholdSigner_cooperative (groupID : string) (memberID : MemberID)
  (groupMemberIDs : list MemberID) (dishonestThreshold : Z)
  (networkProvider : Provider) (tssPreParams : option keygen.LocalPreParams) :
  2 <= Go.len groupMemberIDs ->
  Go.int dishonestThreshold < Go.len groupMemberIDs ->
  returnsWhenOk isOk
    (GenerateThresholdSigner groupID memberID groupMemberIDs dishonestThreshold
       networkProvider tssPreParams).
Proof.
  intros H2 Ht. unfold GenerateThresholdSigner.
  destruct (Z.ltb_spec (Go.len groupMemberIDs) 2); [lia|].
  destruct (Z.leb_spec (Go.len groupMemberIDs) (Go.int dishonestThreshold)); [lia|].
  destruct tssPreParams;
    repeat (cbn [returnsWhenOk pbind call defer answersOk]; intros;
            repeat match goal with
                   | x : Resp _ |- _ => cbn [Resp] in x
                   | H : isOk ?x |- _ => destruct H as [? ->]
                   end);
    eexists; reflexivity.
Qed.

Lemma CalculateSignature_timeouts (s : ThresholdSigner) (digest : bytes)
  (networkProvider : Provider) :
  callsOnly (fun o => match o with
                      | WithTimeout d => d = keyGenerationTimeout
                      | _ => True
                      end)
    (CalculateSignature s digest networkProvider).
Proof.
  unfold CalculateSignature.
  repeat (cbn [callsOnly pbind call defer]; intros;
          repeat match goal with
                 | |- _ /\ _ => split
                 | x : Resp _ |- _ => cbn [Resp] in x
                 | x : result _ _ |- _ => destruct x
                 end);
    try exact I; reflexivity.
Qed.

Lemma timeouts_Forall (P : time.Duration -> Prop) (calls : list Op) :
  Forall (fun o => match o with WithTimeout d => P d | _ => True end) calls ->
  Forall P (timeouts calls).
Proof.
  induction 1 as [|o calls Ho _ IH]; [constructor|].
  unfold timeouts. cbn [flat_map]. fold (timeouts calls).
  destruct o; cbn [app]; try assumption. constructor; assumption.
Qed.

End ProtocolProperties.

(** ** Sample data *)

Lemma basePoint_valid : valid_point basePoint.
Proof.
  unfold valid_point.
  repeat split; vm_compute; solve [reflexivity | discriminate].
Qed.

Lemma sampleKey_valid : valid_key sampleKey.
Proof.
  pose proof basePoint_valid as HG.
  unfold valid_key, sampleKey, nonneg; cbn.
  repeat match goal with
         | |- _ /\ _ => split
         | |- Forall _ _ => constructor
         | |- valid_point basePoint => exact HG
         | |- _ <= _ => cbn; lia
         end.
Qed.

Lemma Bytes_of_nat_injective (i j : nat) :
  big.Bytes (Z.of_nat i) = big.Bytes (Z.of_nat j) -> i = j.
Proof.
  intros E. apply (f_equal big.SetBytes) in E.
  rewrite !SetBytes_Bytes in E. lia.
Qed.

Lemma largeGroup_length : Go.len (groupMemberIDs largeGroup) = 2 ^ 31 + 1.
Proof.
  unfold Go.len, largeGroup. cbv [groupMemberIDs].
  rewrite length_map, length_seq. unfold largeGroupSize.
  apply Z2Nat.id. lia.
Qed.

Lemma largeGroup_valid : valid_group largeGroup.
Proof.
  unfold valid_group. rewrite largeGroup_length.
  split; [lia|]. split; [unfold largeGroup; cbv [dishonestThreshold]; lia|].
  unfold largeGroup; cbv [memberID groupMemberIDs]. split.
  - apply in_map_iff. exists 1%nat. split; [reflexivity|].
    apply in_seq. unfold largeGroupSize. lia.
  - apply Injective_map_NoDup; [|apply seq_NoDup].
    intros i j. apply Bytes_of_nat_injective.
Qed.

Lemma largeSigner_valid : valid_signer largeSigner.
Proof. split; [exact largeGroup_valid | exact sampleKey_valid]. Qed.

Lemma sampleSigner_valid : valid_signer sampleSigner.
Proof.
  split; [|exact sampleKey_valid].
  unfold valid_group; cbn. repeat split; try lia.
  - left; reflexivity.
  - repeat constructor; cbn; intuition discriminate.
Qed.

(** * The claims of the specification *)

Section MarshalingClaims.

Context {signerCodec : pb.Message pb.ThresholdSigner}.
Context {keyCodec : pb.Message pb.LocalPartySaveData}.
Context {messageCodec : pb.Message pb.TSSProtocolMessage}.
Context {signerLossless : pb.Lossless pb.typed_ThresholdSigner}.
Context {keyLossless : pb.Lossless (fun _ : pb.LocalPartySaveData => True)}.
Context {messageLossless : pb.Lossless (fun _ : pb.TSSProtocolMessage => True)}.

(** C1, as amended.  For every valid signer whose dishonest threshold fits
    in a signed 32-bit integer, [ThresholdSigner.Unmarshal] applied to the
    output of [ThresholdSigner.Marshal] succeeds and yields the signer
    itself: group id, member id, member id list, threshold, and every large
    integer and curve point of the threshold key. *)
Theorem ThresholdSigner_Unmarshal_Marshal (s : ThresholdSigner) :
  valid_signer s ->
  Go.is_int32 (dishonestThreshold (signerGroupInfo s)) ->
  bind (ThresholdSigner_Marshal s) ThresholdSigner_Unmarshal = Ok s.
Proof.
  intros [_ Hk] Ht. rewrite (ThresholdSigner_roundtrip s Hk).
  unfold narrowThreshold. rewrite (int32_id _ Ht).
  destruct s as [[gid mid ids t] key]. reflexivity.
Qed.

(** C10.  The round trip of a signer with valid key material succeeds and
    returns a signer whose dishonest threshold is the original one
    converted to [int32]: a value in the signed 32-bit range that differs
    from the original by a multiple of [2^32].  It equals the original
    exactly when the original fits in a signed 32-bit integer. *)
Theorem dishonestThreshold_narrowed (s : ThresholdSigner) :
  valid_key (thresholdKey s) ->
  exists s' : ThresholdSigner,
    bind (ThresholdSigner_Marshal s) ThresholdSigner_Unmarshal = Ok s'
    /\ dishonestThreshold (signerGroupInfo s')
       = Go.int32 (dishonestThreshold (signerGroupInfo s))
    /\ Go.is_int32 (dishonestThreshold (signerGroupInfo s'))
    /\ (dishonestThreshold (signerGroupInfo s')
        - dishonestThreshold (signerGroupInfo s)) mod 2 ^ 32 = 0
    /\ (dishonestThreshold (signerGroupInfo s')
        = dishonestThreshold (signerGroupInfo s)
        <-> Go.is_int32 (dishonestThreshold (signerGroupInfo s))).
Proof.
  intros Hk. exists (narrowThreshold s).
  split; [apply ThresholdSigner_roundtrip; exact Hk|].
  cbn [narrowThreshold signerGroupInfo dishonestThreshold].
  split; [reflexivity|]. split; [apply int32_range|].
  split; [|apply int32_id_iff].
  unfold Go.int32, Go.wrap_signed.
  change (2 ^ (32 - 1)) with 2147483648. change (2 ^ 32) with 4294967296.
  Z.div_mod_to_equations. lia.
Qed.

(** C9.  For every protocol message, [TSSProtocolMessage.Marshal] succeeds
    and [TSSProtocolMessage.Unmarshal] of its output yields a message with
    the same sender id, payload and broadcast flag. *)
Theorem TSSProtocolMessage_Unmarshal_Marshal (m : TSSProtocolMessage) :
  exists (data : bytes) (m' : TSSProtocolMessage),
    TSSProtocolMessage_Marshal m = Ok data
    /\ TSSProtocolMessage_Unmarshal data = Ok m'
    /\ SenderID m' = SenderID m
    /\ Payload m' = Payload m
    /\ IsBroadcast m' = IsBroadcast m.
Proof.
  pose proof (TSSProtocolMessage_roundtrip m) as R.
  destruct (TSSProtocolMessage_Marshal m) as [data|e] eqn:E; cbn [bind] in R;
    [|discriminate R].
  exists data, m. repeat split; assumption.
Qed.

(** C6, as amended.  [ThresholdKey.Marshal] hands every large integer to
    the generated encoder as the output of [big.Int.Bytes], and every
    curve point as its gob encoding.  [Bytes] writes the magnitude on the
    fewest bytes: the empty byte string for zero, and a string starting
    with a non-zero byte otherwise; reading it back with [SetBytes] gives
    the magnitude.  The gob encoding of a coordinate is one version and
    sign byte followed by [Bytes] of the coordinate, whatever the width of
    the field. *)
Theorem ThresholdKey_Marshal_minimal_bytes (tk : ThresholdKey) :
  (exists pbData : pb.LocalPartySaveData,
     ThresholdKey_pb tk = Ok pbData
     /\ pb.GetPublicKey (pb.GetPaillierSK (pb.GetLocalPreParams pbData))
        = big.Bytes (paillier.N (paillier.PublicKey_
                       (keygen.PaillierSK (LocalPreParams tk))))
     /\ pb.GetLambdaN (pb.GetPaillierSK (pb.GetLocalPreParams pbData))
        = big.Bytes (paillier.LambdaN (keygen.PaillierSK (LocalPreParams tk)))
     /\ pb.GetPhiN (pb.GetPaillierSK (pb.GetLocalPreParams pbData))
        = big.Bytes (paillier.PhiN (keygen.PaillierSK (LocalPreParams tk)))
     /\ pb.GetNTilde (pb.GetLocalPreParams pbData)
        = big.Bytes (keygen.NTildei (LocalPreParams tk))
     /\ pb.GetH1I (pb.GetLocalPreParams pbData)
        = big.Bytes (keygen.H1i (LocalPreParams tk))
     /\ pb.GetH2I (pb.GetLocalPreParams pbData)
        = big.Bytes (keygen.H2i (LocalPreParams tk))
     /\ pb.GetXi (pb.GetLocalSecrets pbData)
        = big.Bytes (keygen.Xi (LocalSecrets tk))
     /\ pb.GetShareID (pb.GetLocalSecrets pbData)
        = big.Bytes (keygen.ShareID (LocalSecrets tk))
     /\ pb.GetKs pbData = map big.Bytes (Ks tk)
     /\ pb.GetNTildej pbData = map big.Bytes (NTildej tk)
     /\ pb.GetH1J pbData = map big.Bytes (H1j tk)
     /\ pb.GetH2J pbData = map big.Bytes (H2j tk)
     /\ pb.GetPaillierPKs pbData
        = map (fun pk => big.Bytes (paillier.N pk)) (PaillierPKs tk)
     /\ map Ok (pb.GetBigXj pbData) = map crypto.GobEncode (BigXj tk)
     /\ Ok (pb.GetEcdsaPub pbData) = crypto.GobEncode (ECDSAPub tk))
  /\ (forall x : big.Int,
        (big.Bytes x = [] <-> x = 0)
        /\ (x <> 0 -> exists b rest, big.Bytes x = b :: rest /\ b <> x00)
        /\ big.SetBytes (big.Bytes x) = Z.abs x
        /\ exists v : byte, big.GobEncode x = Ok (v :: big.Bytes x)).
Proof.
  split.
  - unfold ThresholdKey_pb.
    assert (HB : forall l, exists enc,
               encodeBigXj l = Ok enc /\ map Ok enc = map crypto.GobEncode l).
    { induction l as [|p l (enc & E & M)]; cbn [encodeBigXj map].
      - exists []. split; reflexivity.
      - destruct (ECPoint_GobEncode_ok p) as (b & Eb). rewrite Eb, E.
        cbn [map_err bind]. exists (b :: enc). cbn [map]. rewrite M.
        split; reflexivity. }
    destruct (HB (BigXj tk)) as (enc & E & M). rewrite E.
    destruct (ECPoint_GobEncode_ok (ECDSAPub tk)) as (pub & Ep). rewrite Ep.
    cbn [map_err bind]. eexists. split; [reflexivity|].
    cbn. repeat split; try reflexivity. exact M.
  - intros x. split; [apply Bytes_empty_iff|].
    split; [apply Bytes_minimal|]. split; [apply SetBytes_Bytes|].
    unfold big.GobEncode. eexists. reflexivity.
Qed.

End MarshalingClaims.

Section ProtocolClaims.

Context {env : Environment} {constants : Constants}.

(** C2.  Whatever the other arguments, [GenerateThresholdSigner] called
    with fewer than two group members returns the error "group should have
    at least 2 members" ([InvalidGroupSize]) and no signer, without making
    any call. *)
Theorem GenerateThresholdSigner_InvalidGroupSize
  (groupID : string) (memberID : MemberID) (groupMemberIDs : list MemberID)
  (dishonestThreshold : Z) (networkProvider : Provider)
  (tssPreParams : option keygen.LocalPreParams) :
  Go.len groupMemberIDs < 2 ->
  GenerateThresholdSigner groupID memberID groupMemberIDs dishonestThreshold
    networkProvider tssPreParams
  = Ret (Err (InvalidGroupSize (Go.len groupMemberIDs))).
Proof.
  intros Hlen. unfold GenerateThresholdSigner.
  destruct (Z.ltb_spec (Go.len groupMemberIDs) 2) as [_|Hge].
  - reflexivity.
  - lia.
Qed.

(** The threshold check for thresholds below [2^63]: a group of at least
    two members that is not larger than the threshold is rejected with
    [ThresholdTooLarge]. *)
Lemma GenerateThresholdSigner_ThresholdTooLarge
  (groupID : string) (memberID : MemberID) (groupMemberIDs : list MemberID)
  (dishonestThreshold : Z) (networkProvider : Provider)
  (tssPreParams : option keygen.LocalPreParams) :
  2 <= Go.len groupMemberIDs ->
  Go.len groupMemberIDs <= dishonestThreshold < 2 ^ 63 ->
  GenerateThresholdSigner groupID memberID groupMemberIDs dishonestThreshold
    networkProvider tssPreParams
  = Ret (Err (ThresholdTooLarge (Go.len groupMemberIDs) dishonestThreshold)).
Proof.
  intros H2 Ht. apply GenerateThresholdSigner_large; [assumption|].
  rewrite int_uint_small by lia. lia.
Qed.

(** The example of the specification: three members, threshold three. *)
Lemma GenerateThresholdSigner_three_of_three
  (networkProvider : Provider) (tssPreParams : option keygen.LocalPreParams) :
  GenerateThresholdSigner "keep" [x01] sampleMembers 3 networkProvider tssPreParams
  = Ret (Err (ThresholdTooLarge 3 3)).
Proof. reflexivity. Qed.

(** Three members, threshold two: the configuration is accepted and the
    network bridge is created for the group. *)
Lemma GenerateThresholdSigner_two_of_three
  (networkProvider : Provider) (preParams : keygen.LocalPreParams) :
  exists k,
    GenerateThresholdSigner "keep" [x01] sampleMembers 2 networkProvider
      (Some preParams)
    = Call (newNetworkBridge
              {| groupID := "keep"; memberID := [x01];
                 groupMemberIDs := sampleMembers; dishonestThreshold := 2 |}
              networkProvider) k.
Proof. eexists. reflexivity. Qed.

(** C3, at the input where the code departs from it.  With three members
    and the threshold [2^63], a value of type [uint] that is not smaller
    than the group size, [int(dishonestThreshold)] is [-2^63]: the check
    passes, no [ThresholdTooLarge] error is returned, and the network bridge
    is created for a group whose threshold is negative. *)
Theorem GenerateThresholdSigner_threshold_wraps
  (networkProvider : Provider) (preParams : keygen.LocalPreParams) :
  Go.is_uint (2 ^ 63)
  /\ 2 <= Go.len sampleMembers <= 2 ^ 63
  /\ Go.int (2 ^ 63) = - 2 ^ 63
  /\ exists k,
       GenerateThresholdSigner "keep" [x01] sampleMembers (2 ^ 63)
         networkProvider (Some preParams)
       = Call (newNetworkBridge
                 {| groupID := "keep"; memberID := [x01];
                    groupMemberIDs := sampleMembers;
                    dishonestThreshold := - 2 ^ 63 |}
                 networkProvider) k.
Proof.
  split; [unfold Go.is_uint; lia|].
  split; [cbn; lia|]. split; [reflexivity|].
  eexists. reflexivity.
Qed.

(** C5.  When a run of [GenerateThresholdSigner] returns one of the two
    configuration errors, the function returned it straight from its
    validation: it made no call at all, so neither the network provider
    nor anything else outside was touched, and the state of the
    environment is the one it started in. *)
Theorem configuration_error_before_network
  {W : Type} (h : Handler W) (w : W)
  (groupID : string) (memberID : MemberID) (groupMemberIDs : list MemberID)
  (dishonestThreshold : Z) (networkProvider : Provider)
  (tssPreParams : option keygen.LocalPreParams)
  (e : error) (w' : W) (calls : list Op) :
  run h (GenerateThresholdSigner groupID memberID groupMemberIDs
           dishonestThreshold networkProvider tssPreParams) w
  = (Err e, w', calls) ->
  isConfigurationError e ->
  calls = [] /\ w' = w
  /\ GenerateThresholdSigner groupID memberID groupMemberIDs
       dishonestThreshold networkProvider tssPreParams = Ret (Err e).
Proof.
  intros Hrun He.
  destruct (Z.lt_ge_cases (Go.len groupMemberIDs) 2) as [H2|H2].
  - rewrite GenerateThresholdSigner_small in Hrun |- * by assumption.
    cbn [run] in Hrun. injection Hrun as <- <- <-. repeat split.
  - destruct (Z.le_gt_cases (Go.len groupMemberIDs) (Go.int dishonestThreshold))
      as [Ht|Ht].
    + rewrite GenerateThresholdSigner_large in Hrun |- * by assumption.
      cbn [run] in Hrun. injection Hrun as <- <- <-. repeat split.
    + exfalso.
      pose proof (run_returnsOnly _ h _
                    (GenerateThresholdSigner_accepted groupID memberID
                       groupMemberIDs dishonestThreshold networkProvider
                       tssPreParams H2 ltac:(lia)) w) as R.
      rewrite Hrun in R. cbn [fst] in R. specialize (R e eq_refl).
      destruct e as [| | ? []|]; cbn in He, R; contradiction.
Qed.

(** C8.  For a valid group configuration and nil pre-parameters,
    [GenerateThresholdSigner] does not fail on account of the missing
    pre-parameters: it logs the warning, creates the network bridge for
    the group and proceeds with the execution, handing the nil
    pre-parameters on to [initializeKeyGeneration].  Whatever the callees
    answer, the run is one of five: it stops at the first callee that
    fails, with the error of that callee, or it goes through the
    initialization, the join protocol and the key generation and returns
    the signer [generateKey] answered.  When no callee fails it is the
    last of these. *)
Theorem GenerateThresholdSigner_nil_preParams
  (groupID : string) (memberID : MemberID) (groupMemberIDs : list MemberID)
  (dishonestThreshold : Z) (networkProvider : Provider) :
  Go.is_int (Go.len groupMemberIDs) ->
  2 <= Go.len groupMemberIDs ->
  0 <= dishonestThreshold < Go.len groupMemberIDs ->
  forall (W : Type) (h : Handler W) (w : W),
    let group :=
      {| groupID := groupID; memberID := memberID;
         groupMemberIDs := groupMemberIDs;
         dishonestThreshold := dishonestThreshold |} in
    let warning :=
      Warningf "tss pre-params were not provided, they will be generated on protocol execution" in
    let out :=
      run h (GenerateThresholdSigner groupID memberID groupMemberIDs
               dishonestThreshold networkProvider None) w in
    let r := fst (fst out) in
    let calls := snd out in
    (exists rest : list Op,
       calls = warning :: newNetworkBridge group networkProvider :: rest)
    /\ (forall e : error, r = Err e -> reportedByCallee e)
    /\ ((exists (cause : lib_error) (w0 : W),
           fst (h (newNetworkBridge group networkProvider) w0) = Err cause
           /\ r = Err (Errorf "failed to initialize network bridge" (External cause))
           /\ calls = [warning; newNetworkBridge group networkProvider])
        \/ (exists (netBridge : networkBridge) (ctx : Context_)
              (cause : lib_error) (w0 : W),
              fst (h (initializeKeyGeneration ctx group None netBridge) w0)
              = Err cause
              /\ r = Err (External cause)
              /\ calls = [warning; newNetworkBridge group networkProvider;
                          WithTimeout keyGenerationTimeout;
                          initializeKeyGeneration ctx group None netBridge;
                          cancel ctx])
        \/ (exists (netBridge : networkBridge) (ctx : Context_)
              (party : keyGenSigner) (cause : lib_error) (w0 : W),
              fst (h (joinProtocol ctx group networkProvider) w0) = Err cause
              /\ r = Err (Errorf "failed to join the protocol" (External cause))
              /\ calls = [warning; newNetworkBridge group networkProvider;
                          WithTimeout keyGenerationTimeout;
                          initializeKeyGeneration ctx group None netBridge;
                          Infof ("[party:" ++ PartyID party
                                 ++ "]: initialized key generation");
                          joinProtocol ctx group networkProvider;
                          cancel ctx])
        \/ (exists (netBridge : networkBridge) (ctx : Context_)
              (party : keyGenSigner) (cause : lib_error) (w0 : W),
              fst (h (generateKey party ctx) w0) = Err cause
              /\ r = Err (Errorf "failed to generate key" (External cause))
              /\ calls = [warning; newNetworkBridge group networkProvider;
                          WithTimeout keyGenerationTimeout;
                          initializeKeyGeneration ctx group None netBridge;
                          Infof ("[party:" ++ PartyID party
                                 ++ "]: initialized key generation");
                          joinProtocol ctx group networkProvider;
                          Infof ("[party:" ++ PartyID party
                                 ++ "]: starting key generation");
                          generateKey party ctx;
                          cancel ctx])
        \/ (exists (netBridge : networkBridge) (ctx : Context_)
              (party : keyGenSigner) (signer : ThresholdSigner) (w0 : W),
              fst (h (generateKey party ctx) w0) = Ok signer
              /\ r = Ok signer
              /\ calls = [warning; newNetworkBridge group networkProvider;
                          WithTimeout keyGenerationTimeout;
                          initializeKeyGeneration ctx group None netBridge;
                          Infof ("[party:" ++ PartyID party
                                 ++ "]: initialized key generation");
                          joinProtocol ctx group networkProvider;
                          Infof ("[party:" ++ PartyID party
                                 ++ "]: starting key generation");
                          generateKey party ctx;
                          Infof ("[party:" ++ PartyID party
                                 ++ "]: completed key generation");
                          cancel ctx]))
    /\ (succeeds h ->
        exists (netBridge : networkBridge) (ctx : Context_)
          (party : keyGenSigner) (signer : ThresholdSigner),
          r = Ok signer
          /\ calls = [warning; newNetworkBridge group networkProvider;
                      WithTimeout keyGenerationTimeout;
                      initializeKeyGeneration ctx group None netBridge;
                      Infof ("[party:" ++ PartyID party
                             ++ "]: initialized key generation");
                      joinProtocol ctx group networkProvider;
                      Infof ("[party:" ++ PartyID party
                             ++ "]: starting key generation");
                      generateKey party ctx;
                      Infof ("[party:" ++ PartyID party
                             ++ "]: completed key generation");
                      cancel ctx]).
Proof.
  intros Hlen H2 Ht W h w.
  assert (Hint : Go.int dishonestThreshold = dishonestThreshold).
  { apply int_id. unfold Go.is_int in *. lia. }
  cbv zeta. unfold GenerateThresholdSigner.
  destruct (Z.ltb_spec (Go.len groupMemberIDs) 2); [lia|].
  destruct (Z.leb_spec (Go.len groupMemberIDs) (Go.int dishonestThreshold)); [lia|].
  rewrite Hint. follow h.
  all: split; [eexists; reflexivity|].
  all: split; [intros e He; first [discriminate He | injection He as <-; exact I]|].
  all: split;
    [|intros Hs; first [failed_call Hs | do 4 eexists; split; reflexivity]].
  all: match goal with
       | E : ?h (generateKey ?p ?c) ?w0 = (Ok ?x, _),
         E' : ?h (initializeKeyGeneration _ _ _ ?b) _ = _ |- _ =>
           do 4 right; exists b, c, p, x, w0;
           split; [exact (f_equal fst E)|split; reflexivity]
       | E : ?h (generateKey ?p ?c) ?w0 = (Err ?x, _),
         E' : ?h (initializeKeyGeneration _ _ _ ?b) _ = _ |- _ =>
           do 3 right; left; exists b, c, p, x, w0;
           split; [exact (f_equal fst E)|split; reflexivity]
       | E : ?h (joinProtocol ?c _ _) ?w0 = (Err ?x, _),
         E' : ?h (initializeKeyGeneration _ _ _ ?b) _ = (Ok ?p, _) |- _ =>
           do 2 right; left; exists b, c, p, x, w0;
           split; [exact (f_equal fst E)|split; reflexivity]
       | E : ?h (initializeKeyGeneration ?c _ _ ?b) ?w0 = (Err ?x, _) |- _ =>
           right; left; exists b, c, x, w0;
           split; [exact (f_equal fst E)|split; reflexivity]
       | E : ?h (newNetworkBridge _ _) ?w0 = (Err ?x, _) |- _ =>
           left; exists x, w0;
           split; [exact (f_equal fst E)|split; reflexivity]
       end.
Qed.


(** Every context created during a run of [CalculateSignature] is created
    with the constant the source names at that place,
    [keyGenerationTimeout]. *)
Lemma CalculateSignature_keyGenerationTimeout
  {W : Type} (h : Handler W) (w : W)
  (s : ThresholdSigner) (digest : bytes) (networkProvider : Provider) :
  Forall (fun d => d = keyGenerationTimeout)
    (timeouts (snd (run h (CalculateSignature s digest networkProvider) w))).
Proof.
  apply timeouts_Forall. apply run_callsOnly. apply CalculateSignature_timeouts.
Qed.

(** C7.  With the constants of the source, a signing run executes under a
    deadline of its own, of the 120 seconds of [signingTimeout]: when the
    network bridge is created, [CalculateSignature] creates one context,
    from the background context and with that timeout, right after the
    bridge; every later call of the run (the initialization of signing,
    the join protocol and the signing rounds) is given that context, and
    the context is cancelled as the last call of the run.  When the bridge
    cannot be created nothing else runs.  The source names
    [keyGenerationTimeout] where it creates the context; the two constants
    have the same value. *)
Theorem CalculateSignature_signingTimeout
  {W : Type} (h : Handler W) (w : W)
  (s : ThresholdSigner) (digest : bytes) (networkProvider : Provider) :
  let bridge := newNetworkBridge (signerGroupInfo s) networkProvider in
  let calls :=
    snd (run h (CalculateSignature (constants := tss_constants)
                  s digest networkProvider) w) in
  signingTimeout (Constants := tss_constants) = 120 * time.Second
  /\ match fst (h bridge w) with
     | Err _ => calls = [bridge]
     | Ok _ =>
         let ctx :=
           fst (h (WithTimeout (signingTimeout (Constants := tss_constants)))
                  (snd (h bridge w))) in
         timeouts calls = [signingTimeout (Constants := tss_constants)]
         /\ Forall (takesContext ctx) calls
         /\ exists middle : list Op,
              calls = bridge
                      :: WithTimeout (signingTimeout (Constants := tss_constants))
                      :: middle ++ [cancel ctx]
     end.
Proof.
  cbv zeta. split; [reflexivity|].
  unfold CalculateSignature, signingTimeout, keyGenerationTimeout, tss_constants.
  follow h; try reflexivity.
  all: split; [reflexivity|].
  all: split; [repeat constructor|].
  all: match goal with
       | |- exists middle, _ :: _ :: ?l = _ =>
           exists (removelast l); reflexivity
       end.
Qed.

End ProtocolClaims.

(** ** The claims on the sample data *)

Lemma sampleSigner_int32 :
  Go.is_int32 (dishonestThreshold (signerGroupInfo sampleSigner)).
Proof. unfold Go.is_int32. cbn. lia. Defined.

Lemma ThresholdSigner_Unmarshal_Marshal_witness :
  valid_signer sampleSigner
  /\ Go.is_int32 (dishonestThreshold (signerGroupInfo sampleSigner))
  /\ bind (ThresholdSigner_Marshal
             (signerCodec := wire.ThresholdSigner_message)
             (keyCodec := wire.LocalPartySaveData_message) sampleSigner)
       (ThresholdSigner_Unmarshal
          (signerCodec := wire.ThresholdSigner_message)
          (keyCodec := wire.LocalPartySaveData_message))
     = Ok sampleSigner.
Proof.
  split; [exact sampleSigner_valid|]. split; [exact sampleSigner_int32|].
  apply (ThresholdSigner_Unmarshal_Marshal
           (signerLossless := wire_facts.ThresholdSigner_lossless)
           (keyLossless := wire_facts.LocalPartySaveData_lossless)
           sampleSigner sampleSigner_valid sampleSigner_int32).
Defined.

(** C1 fails as stated: [largeSigner] satisfies every invariant of a valid
    signer, and no lossless codec brings it back from its encoding, since
    its threshold [2^31] is stored as the [int32] value [-2^31]. *)
Lemma ThresholdSigner_roundtrip_counterexample :
  valid_signer largeSigner
  /\ Go.int32 (dishonestThreshold (signerGroupInfo largeSigner)) = - 2 ^ 31
  /\ forall (signerCodec : pb.Message pb.ThresholdSigner)
       (keyCodec : pb.Message pb.LocalPartySaveData),
       pb.Lossless pb.typed_ThresholdSigner ->
       pb.Lossless (fun _ : pb.LocalPartySaveData => True) ->
       bind (ThresholdSigner_Marshal largeSigner) ThresholdSigner_Unmarshal
       <> Ok largeSigner.
Proof.
  split; [exact largeSigner_valid|]. split; [reflexivity|].
  intros signerCodec keyCodec signerLossless keyLossless E.
  rewrite (ThresholdSigner_roundtrip largeSigner sampleKey_valid) in E.
  apply (f_equal (fun r => match r with
                           | Ok s => dishonestThreshold (signerGroupInfo s)
                           | Err _ => 0
                           end)) in E.
  cbv [narrowThreshold signerGroupInfo dishonestThreshold largeSigner largeGroup] in E.
  vm_compute in E. discriminate E.
Qed.

Lemma dishonestThreshold_narrowed_witness :
  valid_key (thresholdKey largeSigner)
  /\ exists s' : ThresholdSigner,
       bind (ThresholdSigner_Marshal
               (signerCodec := wire.ThresholdSigner_message)
               (keyCodec := wire.LocalPartySaveData_message) largeSigner)
         (ThresholdSigner_Unmarshal
            (signerCodec := wire.ThresholdSigner_message)
            (keyCodec := wire.LocalPartySaveData_message)) = Ok s'
       /\ dishonestThreshold (signerGroupInfo s')
          = Go.int32 (dishonestThreshold (signerGroupInfo largeSigner))
       /\ Go.is_int32 (dishonestThreshold (signerGroupInfo s'))
       /\ (dishonestThreshold (signerGroupInfo s')
           - dishonestThreshold (signerGroupInfo largeSigner)) mod 2 ^ 32 = 0
       /\ (dishonestThreshold (signerGroupInfo s')
           = dishonestThreshold (signerGroupInfo largeSigner)
           <-> Go.is_int32 (dishonestThreshold (signerGroupInfo largeSigner))).
Proof.
  split; [exact sampleKey_valid|].
  apply (dishonestThreshold_narrowed
           (signerLossless := wire_facts.ThresholdSigner_lossless)
           (keyLossless := wire_facts.LocalPartySaveData_lossless)
           largeSigner sampleKey_valid).
Defined.

Lemma TSSProtocolMessage_Unmarshal_Marshal_witness :
  exists (data : bytes) (m' : TSSProtocolMessage),
    TSSProtocolMessage_Marshal (messageCodec := wire.TSSProtocolMessage_message)
      sampleMessage = Ok data
    /\ TSSProtocolMessage_Unmarshal (messageCodec := wire.TSSProtocolMessage_message)
         data = Ok m'
    /\ SenderID m' = SenderID sampleMessage
    /\ Payload m' = Payload sampleMessage
    /\ IsBroadcast m' = IsBroadcast sampleMessage.
Proof.
  apply (TSSProtocolMessage_Unmarshal_Marshal
           (messageLossless := wire_facts.TSSProtocolMessage_lossless)
           sampleMessage).
Defined.

(** C6 fails as stated: the zero-valued secret share of [sampleKey] is
    handed to the encoder as the empty byte string, and the coordinate [1]
    of [smallPoint] is gob-encoded on two bytes, the version byte and one
    byte of magnitude, not on the 32 bytes of a field element. *)
Lemma zero_and_leading_zeros_counterexample :
  keygen.Xi (LocalSecrets sampleKey) = 0
  /\ (exists pbData : pb.LocalPartySaveData,
        ThresholdKey_pb sampleKey = Ok pbData
        /\ pb.GetXi (pb.GetLocalSecrets pbData) = [])
  /\ valid_point smallPoint
  /\ exists rest : bytes,
       crypto.GobEncode smallPoint
       = Ok ([x02; x00; x00; x00] ++ [x02; x01] ++ [x21; x00; x00; x00] ++ rest)
       /\ Go.len rest = 33.
Proof.
  split; [reflexivity|]. split.
  - eexists. split; vm_compute; reflexivity.
  - split.
    + unfold valid_point. repeat split; vm_compute; solve [reflexivity | discriminate].
    + eexists. split; vm_compute; reflexivity.
Qed.

Lemma GenerateThresholdSigner_InvalidGroupSize_witness :
  Go.len [[x01]] < 2
  /\ GenerateThresholdSigner (env := unitEnvironment) (constants := tss_constants)
       "keep" [x01] [[x01]] 0 tt None
     = Ret (Err (InvalidGroupSize (Go.len [[x01]]))).
Proof.
  assert (H : Go.len [[x01]] < 2) by (cbn; lia).
  split; [exact H|].
  apply (GenerateThresholdSigner_InvalidGroupSize
           (env := unitEnvironment) (constants := tss_constants)
           "keep" [x01] [[x01]] 0 tt None H).
Defined.

Lemma configuration_error_before_network_witness :
  run (cooperative sampleSigner)
    (GenerateThresholdSigner (env := unitEnvironment) (constants := tss_constants)
       "keep" [x01] sampleMembers 3 tt None) tt
  = (Err (ThresholdTooLarge 3 3), tt, [])
  /\ isConfigurationError (ThresholdTooLarge 3 3)
  /\ (@nil (@Op unitEnvironment) = [] /\ tt = tt
      /\ GenerateThresholdSigner (env := unitEnvironment)
           (constants := tss_constants) "keep" [x01] sampleMembers 3 tt None
         = Ret (Err (ThresholdTooLarge 3 3))).
Proof.
  assert (H : run (cooperative sampleSigner)
                (GenerateThresholdSigner (env := unitEnvironment)
                   (constants := tss_constants)
                   "keep" [x01] sampleMembers 3 tt None) tt
              = (Err (ThresholdTooLarge 3 3), tt, [])) by reflexivity.
  split; [exact H|]. split; [exact I|].
  exact (configuration_error_before_network
           (env := unitEnvironment) (constants := tss_constants)
           (cooperative sampleSigner) tt "keep" [x01] sampleMembers 3 tt None
           (ThresholdTooLarge 3 3) tt [] H I).
Defined.

Lemma cooperative_succeeds (signer : ThresholdSigner) :
  succeeds (cooperative signer).
Proof.
  intros o w. destruct o; cbn; try exact I; eexists; reflexivity.
Defined.

Lemma GenerateThresholdSigner_nil_preParams_witness :
  Go.is_int (Go.len sampleMembers)
  /\ 2 <= Go.len sampleMembers
  /\ 0 <= 1 < Go.len sampleMembers
  /\ exists (netBridge ctx party : unit) (signer : ThresholdSigner),
       fst (fst (run (cooperative sampleSigner)
                   (GenerateThresholdSigner (env := unitEnvironment)
                      (constants := tss_constants)
                      "keep" [x01] sampleMembers 1 tt None) tt))
       = Ok signer
       /\ snd (run (cooperative sampleSigner)
                 (GenerateThresholdSigner (env := unitEnvironment)
                    (constants := tss_constants)
                    "keep" [x01] sampleMembers 1 tt None) tt)
          = [Warningf "tss pre-params were not provided, they will be generated on protocol execution";
             newNetworkBridge (env := unitEnvironment)
               (signerGroupInfo sampleSigner) tt;
             WithTimeout (120 * time.Second);
             initializeKeyGeneration (env := unitEnvironment) ctx
               (signerGroupInfo sampleSigner) None netBridge;
             Infof "[party:1]: initialized key generation";
             joinProtocol (env := unitEnvironment) ctx
               (signerGroupInfo sampleSigner) tt;
             Infof "[party:1]: starting key generation";
             generateKey (env := unitEnvironment) party ctx;
             Infof "[party:1]: completed key generation";
             cancel (env := unitEnvironment) ctx].
Proof.
  assert (H1 : Go.is_int (Go.len sampleMembers)) by (unfold Go.is_int; cbn; lia).
  assert (H2 : 2 <= Go.len sampleMembers) by (cbn; lia).
  assert (H3 : 0 <= 1 < Go.len sampleMembers) by (cbn; lia).
  split; [exact H1|]. split; [exact H2|]. split; [exact H3|].
  exact (proj2 (proj2 (proj2 (GenerateThresholdSigner_nil_preParams
                                (env := unitEnvironment)
                                (constants := tss_constants)
                                "keep" [x01] sampleMembers 1 tt H1 H2 H3
                                unit (cooperative sampleSigner) tt)))
           (cooperative_succeeds sampleSigner)).
Defined.


(** * Further properties of [marshaling.go] *)

(** ** Encoded sizes *)

Lemma be_value_bounds (buf : bytes) :
  forall start : Z,
    0 <= start ->
    start * 256 ^ Go.len buf <= be_value buf start
    < (start + 1) * 256 ^ Go.len buf.
Proof.
  unfold Go.len.
  induction buf as [|b buf IH]; intros start Hs.
  - cbn. lia.
  - cbn [be_value fold_left List.length].
    pose proof (Z_of_byte_range b) as Hb.
    specialize (IH (start * 256 + Z_of_byte b) ltac:(lia)).
    unfold be_value in IH.
    rewrite Nat2Z.inj_succ, Z.pow_succ_r by lia.
    assert (0 < 256 ^ Z.of_nat (List.length buf)) by (apply Z.pow_pos_nonneg; lia).
    nia.
Qed.

Lemma SetBytes_bounds (buf : bytes) :
  0 <= big.SetBytes buf < 256 ^ Go.len buf.
Proof.
  pose proof (be_value_bounds buf 0 ltac:(lia)) as H.
  unfold be_value in H. unfold big.SetBytes. lia.
Qed.

(** Writing back what was read never takes more bytes. *)
Lemma Bytes_SetBytes_length (buf : bytes) (z : Z) :
  Z.abs z = big.SetBytes buf -> Go.len (big.Bytes z) <= Go.len buf.
Proof.
  intros Hz. pose proof (SetBytes_bounds buf) as Hb. unfold Go.len in *.
  pose proof (Bytes_length z (List.length buf) ltac:(lia)). lia.
Qed.

Lemma GobDecode_length (x : bytes) (z : Z) :
  big.GobDecode x = Ok z -> Go.len (big.Bytes z) + 1 <= Z.max 1 (Go.len x).
Proof.
  unfold big.GobDecode. destruct x as [|b rest].
  - intros E. injection E as <-. cbn. lia.
  - destruct (Z.shiftr (Z_of_byte b) 1 =? big.intGobVersion); [|discriminate].
    cbv zeta. intros E. injection E as <-.
    pose proof (SetBytes_bounds rest) as Hb.
    assert (Hl : Go.len (b :: rest) = Go.len rest + 1)
      by (unfold Go.len; cbn [List.length]; lia).
    rewrite Hl.
    assert (Go.len (big.Bytes (if negb (Z.land (Z_of_byte b) 1 =? 0)
                               then - big.SetBytes rest else big.SetBytes rest))
            <= Go.len rest).
    { apply Bytes_SetBytes_length. destruct (negb _); lia. }
    set (t := Go.len (big.Bytes _)) in *. clearbody t.
    set (k := Go.len rest) in *. clearbody k. lia.
Qed.

Lemma readUint32_range (r rest : bytes) (n : Z) :
  crypto.readUint32 r = Ok (n, rest) -> 0 <= n < 2 ^ 32.
Proof.
  unfold crypto.readUint32.
  destruct r as [|b0 [|b1 [|b2 [|b3 r']]]]; try discriminate.
  intros E.
  assert (En : Z.lor (Z_of_byte b0)
                 (Z.lor (Z.shiftl (Z_of_byte b1) 8)
                    (Z.lor (Z.shiftl (Z_of_byte b2) 16)
                       (Z.shiftl (Z_of_byte b3) 24))) = n)
    by (injection E; intros; assumption).
  rewrite <- En. clear E En.
  pose proof (Z_of_byte_range b0). pose proof (Z_of_byte_range b1).
  pose proof (Z_of_byte_range b2). pose proof (Z_of_byte_range b3).
  rewrite littleEndian_uint32 by assumption.
  change (2 ^ 32) with 4294967296. lia.
Qed.

Lemma readFull_length (n : Z) (r x rest : bytes) :
  0 <= n -> crypto.readFull n r = Ok (x, rest) -> Go.len x = n.
Proof.
  intros Hn. unfold crypto.readFull. destruct r as [|b r]; [discriminate|].
  destruct (Z.leb_spec n (Go.len (b :: r))) as [Hle|]; [|discriminate].
  intros E. injection E. intros _ Ex. rewrite <- Ex. unfold Go.len in *.
  rewrite length_firstn. lia.
Qed.

(** ** Curve points *)

Lemma valid_point_storable (p : crypto.ECPoint) :
  valid_point p -> storable_point p.
Proof.
  intros Hv. apply valid_point_fits in Hv. destruct Hv as (HX & HY & Hc).
  unfold storable_point, Go.len.
  pose proof (Bytes_length (crypto.X p) 32 HX).
  pose proof (Bytes_length (crypto.Y p) 32 HY).
  repeat split; [assumption|lia|lia].
Qed.

(** Decoding an encoded point runs the curve check on the point itself. *)
Lemma ECPoint_GobDecode_GobEncode_check (p : crypto.ECPoint) :
  Go.len (big.Bytes (crypto.X p)) + 1 < 2 ^ 32 ->
  Go.len (big.Bytes (crypto.Y p)) + 1 < 2 ^ 32 ->
  bind (crypto.GobEncode p) crypto.GobDecode
  = if crypto.IsOnCurve p then Ok p else Err notOnCurve.
Proof.
  intros HX HY. destruct p as [X Y]. cbn [crypto.X crypto.Y] in *.
  assert (Hlen : forall z : Z, Go.len (big.Bytes z) + 1 < 2 ^ 32 ->
            forall v, 0 <= Go.len (v :: big.Bytes z) < 2 ^ 32).
  { intros z Hz v. unfold Go.len in *. cbn [List.length]. lia. }
  pose proof (GobDecode_GobEncode X) as EX.
  pose proof (GobDecode_GobEncode Y) as EY.
  unfold crypto.GobEncode, crypto.GobDecode.
  unfold big.GobEncode in *. cbn [bind] in *.
  unfold Go.uint32, Go.wrap_unsigned.
  rewrite !Z.mod_small by (apply Hlen; assumption).
  rewrite readUint32_putUint32 by (apply Hlen; assumption). cbn [bind].
  rewrite readFull_app by discriminate. cbn [bind].
  rewrite readUint32_putUint32 by (apply Hlen; assumption). cbn [bind].
  rewrite <- (app_nil_r (_ :: big.Bytes Y)) at 2.
  rewrite readFull_app by discriminate. cbn [bind].
  cbn [crypto.X crypto.Y]. rewrite EX. cbn [bind]. rewrite EY. cbn [bind].
  reflexivity.
Qed.

(** Whatever [ECPoint.GobDecode] returns is storable. *)
Lemma ECPoint_GobDecode_storable (buf : bytes) (p : crypto.ECPoint) :
  crypto.GobDecode buf = Ok p -> storable_point p.
Proof.
  unfold crypto.GobDecode. 
  destruct (crypto.readUint32 buf) as [[n r]|] eqn:E1; cbn [bind]; [|discriminate].
  destruct (crypto.readFull n r) as [[x r1]|] eqn:E2; cbn [bind]; [|discriminate].
  destruct (crypto.readUint32 r1) as [[n' r2]|] eqn:E3; cbn [bind]; [|discriminate].
  destruct (crypto.readFull n' r2) as [[y r3]|] eqn:E4; cbn [bind]; [|discriminate].
  destruct (big.GobDecode x) as [X|] eqn:E5; cbn [bind]; [|discriminate].
  destruct (big.GobDecode y) as [Y|] eqn:E6; cbn [bind]; [|discriminate].
  destruct (crypto.IsOnCurve {| crypto.X := X; crypto.Y := Y |}) eqn:Hc;
    [|discriminate].
  intros E. injection E as <-.
  pose proof (readUint32_range _ _ _ E1) as Hn.
  pose proof (readUint32_range _ _ _ E3) as Hn'.
  pose proof (readFull_length n r x r1 ltac:(lia) E2) as Lx.
  pose proof (readFull_length n' r2 y r3 ltac:(lia) E4) as Ly.
  pose proof (GobDecode_length _ _ E5) as Bx.
  pose proof (GobDecode_length _ _ E6) as By.
  unfold storable_point. cbn [crypto.X crypto.Y].
  change (2 ^ 32) with 4294967296 in *.
  repeat split; [assumption|lia|lia].
Qed.

(** ** Keys in general *)

Lemma SetBytes_nonneg (buf : bytes) : nonneg (big.SetBytes buf).
Proof. unfold nonneg. pose proof (SetBytes_bounds buf). lia. Qed.

Lemma unmarshalBigIntSlice_nonneg (l : list bytes) :
  Forall nonneg (unmarshalBigIntSlice l).
Proof.
  unfold unmarshalBigIntSlice. apply Forall_forall. intros z Hz.
  apply in_map_iff in Hz. destruct Hz as (b & <- & _). apply SetBytes_nonneg.
Qed.

Lemma unmarshal_marshalBigIntSlice_abs (l : list big.Int) :
  unmarshalBigIntSlice (marshalBigIntSlice l) = map Z.abs l.
Proof.
  unfold unmarshalBigIntSlice, marshalBigIntSlice. rewrite map_map.
  apply map_ext. intros z. apply SetBytes_Bytes.
Qed.

Lemma map_abs_nonneg (l : list Z) : Forall nonneg l -> map Z.abs l = l.
Proof.
  induction 1 as [|z l Hz _ IH]; cbn [map]; [reflexivity|].
  unfold nonneg in Hz. rewrite IH, Z.abs_eq by exact Hz. reflexivity.
Qed.

Lemma encodeBigXj_storable (l : list crypto.ECPoint) :
  exists enc, encodeBigXj l = Ok enc
    /\ (Forall storable_point l -> decodeBigXj enc = Ok l).
Proof.
  induction l as [|p l (enc & E & D)]; cbn [encodeBigXj].
  - exists []. split; [reflexivity|]. intros _. reflexivity.
  - destruct (ECPoint_GobEncode_ok p) as (b & Eb). rewrite Eb, E.
    cbn [map_err bind]. exists (b :: enc). split; [reflexivity|].
    intros Hv. inversion Hv as [|? ? Hp Hl]; subst.
    cbn [decodeBigXj]. destruct Hp as (Hc & HX & HY).
    pose proof (ECPoint_GobDecode_GobEncode_check p HX HY) as R.
    rewrite Eb, Hc in R. cbn [bind] in R. rewrite R. cbn [map_err bind].
    rewrite (D Hl). reflexivity.
Qed.

Lemma decodeBigXj_storable (enc : list bytes) :
  forall l, decodeBigXj enc = Ok l -> Forall storable_point l.
Proof.
  induction enc as [|b enc IH]; intros l; cbn [decodeBigXj].
  - intros E. injection E as <-. constructor.
  - destruct (crypto.GobDecode b) as [p|] eqn:Ep; cbn [map_err bind]; [|discriminate].
    destruct (decodeBigXj enc) as [l'|] eqn:El; cbn [bind]; [|discriminate].
    intros E. injection E as <-. constructor.
    + exact (ECPoint_GobDecode_storable b p Ep).
    + apply IH. reflexivity.
Qed.

Lemma absKey_loaded (tk : ThresholdKey) : loaded_key tk -> absKey tk = tk.
Proof.
  intros (HN & HL & HP & HNT & H1 & H2 & HXi & HS & HKs & HNj & Hh1j & Hh2j
          & _ & HPK & _).
  destruct tk as [[[[n] l p] nt h1 h2] [xi sh] ks ntj h1j h2j big pks pub].
  unfold absKey, nonneg in *.
  cbn [LocalPreParams LocalSecrets Ks NTildej H1j H2j BigXj PaillierPKs ECDSAPub
       keygen.PaillierSK keygen.NTildei keygen.H1i keygen.H2i keygen.Xi
       keygen.ShareID paillier.PublicKey_ paillier.LambdaN paillier.PhiN
       paillier.N] in *.
  rewrite !Z.abs_eq by assumption.
  rewrite !map_abs_nonneg by assumption.
  replace (map (fun pk => {| paillier.N := Z.abs (paillier.N pk) |}) pks) with pks;
    [reflexivity|].
  clear -HPK. induction HPK as [|[m] pks Hm _ IH]; [reflexivity|].
  cbn [map paillier.N] in *. rewrite <- IH, Z.abs_eq by exact Hm. reflexivity.
Qed.

Lemma valid_key_loaded (tk : ThresholdKey) : valid_key tk -> loaded_key tk.
Proof.
  intros (HN & HL & HP & HNT & H1 & H2 & HXi & HS & HKs & HNj & Hh1j & Hh2j
          & HBig & HPK & HPub).
  repeat split; try assumption.
  - eapply Forall_impl; [|exact HBig]. apply valid_point_storable.
  - apply valid_point_storable; assumption.
  - apply valid_point_storable; assumption.
  - apply valid_point_storable; assumption.
Qed.

Section MoreMarshaling.

Context {signerCodec : pb.Message pb.ThresholdSigner}.
Context {keyCodec : pb.Message pb.LocalPartySaveData}.
Context {signerLossless : pb.Lossless pb.typed_ThresholdSigner}.
Context {keyLossless : pb.Lossless (fun _ : pb.LocalPartySaveData => True)}.

(** The round trip of a key in general: the curve check decides, and the
    integers come back without their signs. *)
Lemma ThresholdKey_roundtrip_check (tk : ThresholdKey) :
  Forall storable_point (BigXj tk) ->
  Go.len (big.Bytes (crypto.X (ECDSAPub tk))) + 1 < 2 ^ 32 ->
  Go.len (big.Bytes (crypto.Y (ECDSAPub tk))) + 1 < 2 ^ 32 ->
  bind (ThresholdKey_Marshal tk) ThresholdKey_Unmarshal
  = if crypto.IsOnCurve (ECDSAPub tk) then Ok (absKey tk)
    else Err (Errorf "failed to decode ECDSAPub" (External notOnCurve)).
Proof.
  intros HBig HX HY.
  unfold ThresholdKey_Marshal, ThresholdKey_pb.
  destruct (encodeBigXj_storable (BigXj tk)) as (enc & E & D). rewrite E.
  destruct (ECPoint_GobEncode_ok (ECDSAPub tk)) as (pub & Ep). rewrite Ep.
  cbn [map_err bind].
  match goal with |- context [pb.Marshal ?m] =>
    destruct (pb.unmarshal_marshal m I) as (b & Eb & Ub) end.
  rewrite Eb. cbn [map_err bind].
  unfold ThresholdKey_Unmarshal. rewrite Ub. cbn [map_err bind].
  cbv [pb.GetLocalPreParams pb.GetLocalSecrets pb.GetPaillierSK pb.GetPublicKey
       pb.GetLambdaN pb.GetPhiN pb.GetNTilde pb.GetH1I pb.GetH2I pb.GetXi
       pb.GetShareID pb.GetKs pb.GetNTildej pb.GetH1J pb.GetH2J pb.GetBigXj
       pb.GetPaillierPKs pb.GetEcdsaPub pb.get
       pb.LocalPreParams pb.LocalSecrets pb.PaillierSK pb.PublicKey pb.LambdaN
       pb.PhiN pb.NTilde pb.H1I pb.H2I pb.Xi pb.ShareID pb.Ks pb.NTildej pb.H1J
       pb.H2J pb.BigXj pb.PaillierPKs pb.EcdsaPub].
  rewrite (D HBig). cbn [bind].
  pose proof (ECPoint_GobDecode_GobEncode_check _ HX HY) as R.
  rewrite Ep in R. cbn [bind] in R. rewrite R.
  destruct (crypto.IsOnCurve (ECDSAPub tk)); cbn [map_err bind]; [|reflexivity].
  rewrite !unmarshal_marshalBigIntSlice_abs, !SetBytes_Bytes.
  rewrite !map_map. cbn [paillier.N]. rewrite (map_ext _ _ (fun pk => f_equal _ (SetBytes_Bytes (paillier.N pk)))).
  reflexivity.
Qed.

End MoreMarshaling.

Lemma decodeBigXj_error (enc : list bytes) (e : error) :
  decodeBigXj enc = Err e ->
  exists cause, e = Errorf "failed to decode BigXj" (External cause).
Proof.
  induction enc as [|b enc IH]; cbn [decodeBigXj]; [discriminate|].
  destruct (crypto.GobDecode b) as [p|c]; cbn [map_err bind].
  - destruct (decodeBigXj enc) as [l|e']; cbn [bind]; [discriminate|].
    intros E. injection E as <-. apply IH. reflexivity.
  - intros E. injection E as <-. eauto.
Qed.

Section MoreMarshalingClaims.

Context {signerCodec : pb.Message pb.ThresholdSigner}.
Context {keyCodec : pb.Message pb.LocalPartySaveData}.
Context {joinCodec : pb.Message pb.JoinMessage}.
Context {signerLossless : pb.Lossless pb.typed_ThresholdSigner}.
Context {keyLossless : pb.Lossless (fun _ : pb.LocalPartySaveData => True)}.
Context {joinLossless : pb.Lossless (fun _ : pb.JoinMessage => True)}.

Lemma ThresholdKey_Unmarshal_loaded_aux (data : bytes) (tk : ThresholdKey) :
  ThresholdKey_Unmarshal data = Ok tk -> loaded_key tk.
Proof.
  unfold ThresholdKey_Unmarshal.
  destruct (pb.Unmarshal data) as [pbData|]; cbn [map_err bind]; [|discriminate].
  destruct (decodeBigXj (pb.GetBigXj pbData)) as [big|] eqn:EB; cbn [bind];
    [|discriminate].
  destruct (crypto.GobDecode (pb.GetEcdsaPub pbData)) as [pub|] eqn:EP;
    cbn [map_err bind]; [|discriminate].
  intros E. injection E as <-.
  unfold loaded_key.
  cbn [LocalPreParams LocalSecrets Ks NTildej H1j H2j BigXj PaillierPKs ECDSAPub
       keygen.PaillierSK keygen.NTildei keygen.H1i keygen.H2i keygen.Xi
       keygen.ShareID paillier.PublicKey_ paillier.LambdaN paillier.PhiN
       paillier.N].
  repeat match goal with
         | |- _ /\ _ => split
         | |- nonneg (big.SetBytes _) => apply SetBytes_nonneg
         | |- Forall nonneg (unmarshalBigIntSlice _) =>
             apply unmarshalBigIntSlice_nonneg
         end.
  - exact (decodeBigXj_storable _ _ EB).
  - apply Forall_forall. intros pk Hpk. apply in_map_iff in Hpk.
    destruct Hpk as (b & <- & _). apply SetBytes_nonneg.
  - exact (ECPoint_GobDecode_storable _ _ EP).
Qed.


(** X1.  Valid key material comes back from its encoding:
    [ThresholdKey.Unmarshal] applied to the output of
    [ThresholdKey.Marshal] succeeds and returns the key itself. *)
Theorem ThresholdKey_Unmarshal_Marshal (tk : ThresholdKey) :
  valid_key tk ->
  bind (ThresholdKey_Marshal tk) ThresholdKey_Unmarshal = Ok tk.
Proof.
  intros Hv. pose proof (valid_key_loaded tk Hv) as Hl.
  pose proof Hl as (_ & _ & _ & _ & _ & _ & _ & _ & _ & _ & _ & _
                    & HBig & _ & (Hc & HX & HY)).
  rewrite (ThresholdKey_roundtrip_check tk HBig HX HY), Hc.
  rewrite (absKey_loaded tk Hl). reflexivity.
Qed.

(** X2.  The signs of the large integers are not stored.  For a signer
    whose curve points are storable, whatever the signs of its integers
    and whatever its group information, the round trip succeeds and
    returns the signer with every large integer replaced by its absolute
    value and the threshold converted to [int32]; the points, the group
    id and the member ids come back unchanged. *)
Theorem ThresholdSigner_roundtrip_drops_signs (s : ThresholdSigner) :
  Forall storable_point (BigXj (thresholdKey s)) ->
  storable_point (ECDSAPub (thresholdKey s)) ->
  bind (ThresholdSigner_Marshal s) ThresholdSigner_Unmarshal
  = Ok (narrowThreshold {| signerGroupInfo := signerGroupInfo s;
                           thresholdKey := absKey (thresholdKey s) |}).
Proof.
  intros HBig (Hc & HX & HY).
  pose proof (ThresholdKey_roundtrip_check (thresholdKey s) HBig HX HY) as R.
  rewrite Hc in R.
  unfold ThresholdSigner_Marshal, ThresholdSigner_pb.
  destruct (ThresholdKey_Marshal_ok (thresholdKey s)) as (kb & Ek).
  rewrite Ek in R |- *. cbn [map_err bind] in R |- *.
  match goal with |- context [pb.Marshal ?m] =>
    destruct (pb.unmarshal_marshal m) as (b & Eb & Ub) end.
  { cbn. apply int32_range. }
  rewrite Eb. cbn [map_err bind].
  unfold ThresholdSigner_Unmarshal. rewrite Ub. cbn [map_err bind].
  cbv [pb.GetGroupInfo pb.GetThresholdKey pb.GetGroupID pb.GetMemberID
       pb.GetGroupMemberIDs pb.GetDishonestThreshold pb.get
       pb.GroupInfo pb.ThresholdKey pb.GroupID pb.MemberID pb.GroupMemberIDs
       pb.DishonestThreshold].
  rewrite R. cbn [map_err bind].
  rewrite !map_id, int_int32. reflexivity.
Qed.

(** X3.  [ThresholdSigner.Marshal] and [ThresholdKey.Marshal] never return
    an error, whatever the signer: the branches "failed to encode BigXj",
    "failed to encode ECDSAPub" and "failed to convert local party save
    data" are never taken. *)
Theorem Marshal_never_fails (s : ThresholdSigner) :
  isOk (ThresholdKey_Marshal (thresholdKey s))
  /\ isOk (ThresholdSigner_Marshal s).
Proof.
  destruct (ThresholdKey_Marshal_ok (thresholdKey s)) as (kb & Ek).
  split; [exists kb; exact Ek|].
  unfold ThresholdSigner_Marshal, ThresholdSigner_pb. rewrite Ek.
  cbn [map_err bind].
  match goal with |- context [pb.Marshal ?m] =>
    destruct (pb.unmarshal_marshal m) as (b & Eb & _) end.
  { cbn. apply int32_range. }
  rewrite Eb. exists b. reflexivity.
Qed.

(** X4.  A key whose points of [BigXj] all pass the curve check, whose
    point coordinates all encode within the 32-bit length prefix, and
    whose public key fails the curve check can be stored but not loaded:
    [ThresholdKey.Marshal] succeeds on it, and [ThresholdKey.Unmarshal] of
    the output fails with "failed to decode ECDSAPub" carrying the error
    of the curve check. *)
Theorem off_curve_key_not_loaded (tk : ThresholdKey) :
  Forall storable_point (BigXj tk) ->
  Go.len (big.Bytes (crypto.X (ECDSAPub tk))) + 1 < 2 ^ 32 ->
  Go.len (big.Bytes (crypto.Y (ECDSAPub tk))) + 1 < 2 ^ 32 ->
  crypto.IsOnCurve (ECDSAPub tk) = false ->
  isOk (ThresholdKey_Marshal tk)
  /\ bind (ThresholdKey_Marshal tk) ThresholdKey_Unmarshal
     = Err (Errorf "failed to decode ECDSAPub" (External notOnCurve)).
Proof.
  intros HBig HX HY Hc. split.
  - destruct (ThresholdKey_Marshal_ok tk) as (b & Eb). exists b. exact Eb.
  - rewrite (ThresholdKey_roundtrip_check tk HBig HX HY), Hc. reflexivity.
Qed.

(** X5.  Every key [ThresholdKey.Unmarshal] returns, from whatever bytes,
    has non-negative integers only and points that passed the curve
    check. *)
Theorem ThresholdKey_Unmarshal_loaded (data : bytes) (tk : ThresholdKey) :
  ThresholdKey_Unmarshal data = Ok tk ->
  loaded_key tk
  /\ Forall (fun p => crypto.IsOnCurve p = true) (ECDSAPub tk :: BigXj tk).
Proof.
  intros E. pose proof (ThresholdKey_Unmarshal_loaded_aux data tk E) as Hl.
  split; [exact Hl|].
  destruct Hl as (_ & _ & _ & _ & _ & _ & _ & _ & _ & _ & _ & _
                  & HBig & _ & (Hc & _)).
  constructor; [exact Hc|].
  eapply Forall_impl; [|exact HBig]. intros p (Hp & _). exact Hp.
Qed.

(** X6.  Loading is stable: a key that [ThresholdKey.Unmarshal] returned,
    from whatever bytes, comes back unchanged when it is stored and loaded
    again. *)
Theorem ThresholdKey_reload (data : bytes) (tk : ThresholdKey) :
  ThresholdKey_Unmarshal data = Ok tk ->
  bind (ThresholdKey_Marshal tk) ThresholdKey_Unmarshal = Ok tk.
Proof.
  intros E. pose proof (ThresholdKey_Unmarshal_loaded_aux data tk E) as Hl.
  pose proof Hl as (_ & _ & _ & _ & _ & _ & _ & _ & _ & _ & _ & _
                    & HBig & _ & (Hc & HX & HY)).
  rewrite (ThresholdKey_roundtrip_check tk HBig HX HY), Hc.
  rewrite (absKey_loaded tk Hl). reflexivity.
Qed.

End MoreMarshalingClaims.

Module wire_join_facts.
Import wire wire_facts.

Lemma JoinMessage_decode (m : pb.JoinMessage) :
  decodeMessage JoinMessage_step JoinMessage_zero
    (putFields (JoinMessage_fields m)) = Some m.
Proof.
  apply decodeMessage_putFields.
  - unfold JoinMessage_fields. apply wf_bytesField. lia.
  - destruct m as [[|b0 b]]; reflexivity.
Qed.

#[export] Instance JoinMessage_lossless :
  pb.Lossless (codec := JoinMessage_message) (fun _ => True).
Proof.
  exact (lossless_of_decode _ _ _ _ (fun m _ => JoinMessage_decode m)).
Qed.

End wire_join_facts.

Section MessageClaims.

Context {signerCodec : pb.Message pb.ThresholdSigner}.
Context {keyCodec : pb.Message pb.LocalPartySaveData}.
Context {joinCodec : pb.Message pb.JoinMessage}.
Context {joinLossless : pb.Lossless (fun _ : pb.JoinMessage => True)}.

(** X7.  Every error of [ThresholdSigner.Unmarshal] carries the context
    "failed to unmarshal signer" around one of four causes: the error of
    the generated decoder of the signer, or, from the threshold key, the
    error of its generated decoder (under the same context once more), of
    the decoding of a point of [BigXj], or of the decoding of [ECDSAPub]. *)
Theorem ThresholdSigner_Unmarshal_errors (data : bytes) (e : error) :
  ThresholdSigner_Unmarshal data = Err e ->
  exists cause : lib_error,
    e = Errorf "failed to unmarshal signer" (External cause)
    \/ e = Errorf "failed to unmarshal signer"
             (Errorf "failed to unmarshal signer" (External cause))
    \/ e = Errorf "failed to unmarshal signer"
             (Errorf "failed to decode BigXj" (External cause))
    \/ e = Errorf "failed to unmarshal signer"
             (Errorf "failed to decode ECDSAPub" (External cause)).
Proof.
  unfold ThresholdSigner_Unmarshal.
  destruct (pb.Unmarshal data) as [decoded|c]; cbn [map_err bind].
  - unfold ThresholdKey_Unmarshal.
    destruct (pb.Unmarshal _) as [pbData|c]; cbn [map_err bind].
    + destruct (decodeBigXj (pb.GetBigXj pbData)) as [big|e'] eqn:EB;
        cbn [map_err bind].
      * destruct (crypto.GobDecode (pb.GetEcdsaPub pbData)) as [pub|c];
          cbn [map_err bind]; [discriminate|].
        intros E. injection E as <-. exists c. auto.
      * destruct (decodeBigXj_error _ _ EB) as (c & ->).
        intros E. injection E as <-. exists c. auto.
    + intros E. injection E as <-. exists c. auto.
  - intros E. injection E as <-. exists c. auto.
Qed.

(** X8.  For every join message, [JoinMessage.Marshal] succeeds and
    [JoinMessage.Unmarshal] of its output returns the message, with the
    same sender id. *)
Theorem JoinMessage_Unmarshal_Marshal (m : JoinMessage) :
  exists data : bytes,
    JoinMessage_Marshal m = Ok data
    /\ JoinMessage_Unmarshal data = Ok m.
Proof.
  unfold JoinMessage_Marshal.
  match goal with |- context [pb.Marshal ?x] =>
    destruct (pb.unmarshal_marshal x I) as (b & Eb & Ub) end.
  rewrite Eb. exists b. split; [reflexivity|].
  unfold JoinMessage_Unmarshal. rewrite Ub. cbn [map_err bind].
  destruct m; reflexivity.
Qed.

End MessageClaims.

(** The type tag of a message depends on its kind only, and the tags
    of the three kinds are pairwise distinct: a receiver that dispatches on
    [Type()] never takes a protocol message, a join message and an announce
    message for one another. *)
Lemma message_types_distinct
  (m : TSSProtocolMessage) (j : JoinMessage) (a : AnnounceMessage) :
  TSSProtocolMessage_Type m <> JoinMessage_Type j
  /\ TSSProtocolMessage_Type m <> AnnounceMessage_Type a
  /\ JoinMessage_Type j <> AnnounceMessage_Type a.
Proof.
  unfold TSSProtocolMessage_Type, JoinMessage_Type, AnnounceMessage_Type.
  repeat split; discriminate.
Qed.

(** ** The further properties on the sample data *)

Lemma basePoint_storable : storable_point basePoint.
Proof. apply valid_point_storable. exact basePoint_valid. Defined.

Lemma sampleKey_BigXj_storable : Forall storable_point (BigXj sampleKey).
Proof. repeat constructor; exact basePoint_storable. Defined.

Lemma ThresholdKey_Unmarshal_Marshal_witness :
  valid_key sampleKey
  /\ bind (ThresholdKey_Marshal (keyCodec := wire.LocalPartySaveData_message)
             sampleKey)
       (ThresholdKey_Unmarshal (keyCodec := wire.LocalPartySaveData_message))
     = Ok sampleKey.
Proof.
  split; [exact sampleKey_valid|].
  exact (ThresholdKey_Unmarshal_Marshal
           (keyLossless := wire_facts.LocalPartySaveData_lossless)
           sampleKey sampleKey_valid).
Defined.

Lemma ThresholdSigner_roundtrip_drops_signs_witness :
  keygen.Xi (LocalSecrets (thresholdKey negativeSigner)) = -5
  /\ exists s' : ThresholdSigner,
       bind (ThresholdSigner_Marshal
               (signerCodec := wire.ThresholdSigner_message)
               (keyCodec := wire.LocalPartySaveData_message) negativeSigner)
         (ThresholdSigner_Unmarshal
            (signerCodec := wire.ThresholdSigner_message)
            (keyCodec := wire.LocalPartySaveData_message)) = Ok s'
       /\ keygen.Xi (LocalSecrets (thresholdKey s')) = 5
       /\ keygen.ShareID (LocalSecrets (thresholdKey s')) = 1.
Proof.
  split; [reflexivity|]. eexists. split.
  - exact (ThresholdSigner_roundtrip_drops_signs
             (signerLossless := wire_facts.ThresholdSigner_lossless)
             (keyLossless := wire_facts.LocalPartySaveData_lossless)
             negativeSigner sampleKey_BigXj_storable basePoint_storable).
  - split; reflexivity.
Defined.

Lemma Marshal_never_fails_witness :
  isOk (ThresholdKey_Marshal (keyCodec := wire.LocalPartySaveData_message)
          offCurveKey)
  /\ isOk (ThresholdSigner_Marshal
             (signerCodec := wire.ThresholdSigner_message)
             (keyCodec := wire.LocalPartySaveData_message)
             {| signerGroupInfo := signerGroupInfo sampleSigner; thresholdKey := offCurveKey |}).
Proof.
  exact (Marshal_never_fails
           (signerLossless := wire_facts.ThresholdSigner_lossless)
           (keyLossless := wire_facts.LocalPartySaveData_lossless)
           {| signerGroupInfo := signerGroupInfo sampleSigner; thresholdKey := offCurveKey |}).
Defined.

Lemma off_curve_key_not_loaded_witness :
  crypto.IsOnCurve (ECDSAPub offCurveKey) = false
  /\ isOk (ThresholdKey_Marshal (keyCodec := wire.LocalPartySaveData_message)
             offCurveKey)
  /\ bind (ThresholdKey_Marshal (keyCodec := wire.LocalPartySaveData_message)
             offCurveKey)
       (ThresholdKey_Unmarshal (keyCodec := wire.LocalPartySaveData_message))
     = Err (Errorf "failed to decode ECDSAPub" (External notOnCurve)).
Proof.
  assert (Hc : crypto.IsOnCurve (ECDSAPub offCurveKey) = false)
    by (vm_compute; reflexivity).
  assert (HX : Go.len (big.Bytes (crypto.X (ECDSAPub offCurveKey))) + 1 < 2 ^ 32)
    by (vm_compute; reflexivity).
  assert (HY : Go.len (big.Bytes (crypto.Y (ECDSAPub offCurveKey))) + 1 < 2 ^ 32)
    by (vm_compute; reflexivity).
  split; [exact Hc|].
  exact (off_curve_key_not_loaded
           (keyLossless := wire_facts.LocalPartySaveData_lossless)
           offCurveKey sampleKey_BigXj_storable HX HY Hc).
Defined.

Lemma sampleKeyData_loads :
  ThresholdKey_Unmarshal (keyCodec := wire.LocalPartySaveData_message)
    sampleKeyData = Ok sampleKey.
Proof. vm_compute. reflexivity. Defined.

Lemma ThresholdKey_Unmarshal_loaded_witness :
  ThresholdKey_Unmarshal (keyCodec := wire.LocalPartySaveData_message)
    sampleKeyData = Ok sampleKey
  /\ loaded_key sampleKey
  /\ Forall (fun p => crypto.IsOnCurve p = true)
       (ECDSAPub sampleKey :: BigXj sampleKey).
Proof.
  split; [exact sampleKeyData_loads|].
  exact (ThresholdKey_Unmarshal_loaded
           (keyCodec := wire.LocalPartySaveData_message)
           sampleKeyData sampleKey sampleKeyData_loads).
Defined.

Lemma ThresholdKey_reload_witness :
  ThresholdKey_Unmarshal (keyCodec := wire.LocalPartySaveData_message)
    sampleKeyData = Ok sampleKey
  /\ bind (ThresholdKey_Marshal (keyCodec := wire.LocalPartySaveData_message)
             sampleKey)
       (ThresholdKey_Unmarshal (keyCodec := wire.LocalPartySaveData_message))
     = Ok sampleKey.
Proof.
  split; [exact sampleKeyData_loads|].
  exact (ThresholdKey_reload
           (keyLossless := wire_facts.LocalPartySaveData_lossless)
           sampleKeyData sampleKey sampleKeyData_loads).
Defined.

Lemma truncated_signer_fails :
  ThresholdSigner_Unmarshal (signerCodec := wire.ThresholdSigner_message)
    (keyCodec := wire.LocalPartySaveData_message) [x0a; x05; x0a]
  = Err (Errorf "failed to unmarshal signer"
           (External (LibError "proto: illegal wire data"))).
Proof. vm_compute. reflexivity. Defined.

Lemma ThresholdSigner_Unmarshal_errors_witness :
  ThresholdSigner_Unmarshal (signerCodec := wire.ThresholdSigner_message)
    (keyCodec := wire.LocalPartySaveData_message) [x0a; x05; x0a]
  = Err (Errorf "failed to unmarshal signer"
           (External (LibError "proto: illegal wire data")))
  /\ exists cause : lib_error,
       Errorf "failed to unmarshal signer"
         (External (LibError "proto: illegal wire data"))
       = Errorf "failed to unmarshal signer" (External cause)
       \/ Errorf "failed to unmarshal signer"
            (External (LibError "proto: illegal wire data"))
          = Errorf "failed to unmarshal signer"
              (Errorf "failed to unmarshal signer" (External cause))
       \/ Errorf "failed to unmarshal signer"
            (External (LibError "proto: illegal wire data"))
          = Errorf "failed to unmarshal signer"
              (Errorf "failed to decode BigXj" (External cause))
       \/ Errorf "failed to unmarshal signer"
            (External (LibError "proto: illegal wire data"))
          = Errorf "failed to unmarshal signer"
              (Errorf "failed to decode ECDSAPub" (External cause)).
Proof.
  split; [exact truncated_signer_fails|].
  exact (ThresholdSigner_Unmarshal_errors
           (signerCodec := wire.ThresholdSigner_message)
           (keyCodec := wire.LocalPartySaveData_message)
           [x0a; x05; x0a] _ truncated_signer_fails).
Defined.

Lemma JoinMessage_Unmarshal_Marshal_witness :
  exists data : bytes,
    JoinMessage_Marshal (joinCodec := wire.JoinMessage_message) sampleJoin = Ok data
    /\ JoinMessage_Unmarshal (joinCodec := wire.JoinMessage_message) data
       = Ok sampleJoin.
Proof.
  exact (JoinMessage_Unmarshal_Marshal
           (joinLossless := wire_join_facts.JoinMessage_lossless) sampleJoin).
Defined.

(** * Further properties of [tss.go] *)

Section MoreProtocol.

Context {env : Environment} {constants : Constants}.

(** X9.  A run of [GenerateThresholdSigner] makes no call at all exactly
    when the group has fewer than two members or is not larger than
    [int(dishonestThreshold)]; in every other case calls are made. *)
Theorem GenerateThresholdSigner_no_call_iff_rejected
  {W : Type} (h : Handler W) (w : W)
  (groupID : string) (memberID : MemberID) (groupMemberIDs : list MemberID)
  (dishonestThreshold : Z) (networkProvider : Provider)
  (tssPreParams : option keygen.LocalPreParams) :
  snd (run h (GenerateThresholdSigner groupID memberID groupMemberIDs
                dishonestThreshold networkProvider tssPreParams) w) = []
  <-> (Go.len groupMemberIDs < 2
       \/ Go.len groupMemberIDs <= Go.int dishonestThreshold).
Proof.
  unfold GenerateThresholdSigner.
  destruct (Z.ltb_spec (Go.len groupMemberIDs) 2) as [H2|H2].
  - cbn [run snd]. split; [left; assumption|reflexivity].
  - destruct (Z.leb_spec (Go.len groupMemberIDs) (Go.int dishonestThreshold))
      as [Ht|Ht].
    + cbn [run snd]. split; [right; assumption|reflexivity].
    + split; [|lia]. destruct tssPreParams; follow h; discriminate.
Qed.

(** X10.  The warning about missing pre-parameters is logged once when the
    pre-parameters are nil and the configuration is accepted, and in no
    other case: not when pre-parameters are given, and not when the
    configuration is rejected. *)
Theorem GenerateThresholdSigner_warnings
  {W : Type} (h : Handler W) (w : W)
  (groupID : string) (memberID : MemberID) (groupMemberIDs : list MemberID)
  (dishonestThreshold : Z) (networkProvider : Provider)
  (tssPreParams : option keygen.LocalPreParams) :
  warnings (snd (run h (GenerateThresholdSigner groupID memberID groupMemberIDs
                          dishonestThreshold networkProvider tssPreParams) w))
  = match tssPreParams with
    | Some _ => []
    | None =>
        if negb (Go.len groupMemberIDs <? 2)
           && negb (Go.len groupMemberIDs <=? Go.int dishonestThreshold)
        then ["tss pre-params were not provided, they will be generated on protocol execution"%string]
        else []
    end.
Proof.
  unfold GenerateThresholdSigner.
  destruct (Go.len groupMemberIDs <? 2);
    [destruct tssPreParams; reflexivity|].
  destruct (Go.len groupMemberIDs <=? Go.int dishonestThreshold);
    [destruct tssPreParams; reflexivity|].
  destruct tssPreParams; follow h; reflexivity.
Qed.


(** X12.  The same for [CalculateSignature], by the answer to the creation
    of the network bridge.  When the bridge cannot be created, the bridge
    call is the only call of the run.  When it is created, the next call
    creates a context with [keyGenerationTimeout]; this is the only context
    of the run, every later call is given it, and its cancellation is the
    last call of the run, whether signing succeeded or failed. *)
Theorem CalculateSignature_context
  {W : Type} (h : Handler W) (w : W)
  (s : ThresholdSigner) (digest : bytes) (networkProvider : Provider) :
  let bridge := newNetworkBridge (signerGroupInfo s) networkProvider in
  let calls := snd (run h (CalculateSignature s digest networkProvider) w) in
  match fst (h bridge w) with
  | Err _ => calls = [bridge]
  | Ok _ =>
      let ctx := fst (h (WithTimeout keyGenerationTimeout) (snd (h bridge w))) in
      contextCalls calls = [WithTimeout keyGenerationTimeout; cancel ctx]
      /\ Forall (takesContext ctx) calls
      /\ exists middle : list Op,
           calls = bridge :: WithTimeout keyGenerationTimeout
                   :: middle ++ [cancel ctx]
  end.
Proof.
  cbv zeta. unfold CalculateSignature.
  follow h; try reflexivity.
  all: split; [reflexivity|].
  all: split; [repeat constructor|].
  all: match goal with
       | |- exists middle, _ :: _ :: ?l = _ =>
           exists (removelast l); reflexivity
       end.
Qed.

(** X13.  The result of [GenerateThresholdSigner] tells how far the
    execution went.  A configuration error means that no call was made; an
    error wrapped as "failed to initialize network bridge" that only the
    bridge was attempted; an error of the callee returned as it is that
    [initializeKeyGeneration] failed; "failed to join the protocol" and
    "failed to generate key" that the execution stopped at that stage; and
    a signer is returned only after all four stages, in the order of the
    source, and it is the signer [generateKey] answered. *)
Theorem GenerateThresholdSigner_outcome
  {W : Type} (h : Handler W) (w : W)
  (groupID : string) (memberID : MemberID) (groupMemberIDs : list MemberID)
  (dishonestThreshold : Z) (networkProvider : Provider)
  (tssPreParams : option keygen.LocalPreParams) :
  let out :=
    run h (GenerateThresholdSigner groupID memberID groupMemberIDs
             dishonestThreshold networkProvider tssPreParams) w in
  let r := fst (fst out) in
  let calls := snd out in
  (r = Err (InvalidGroupSize (Go.len groupMemberIDs)) /\ calls = [])
  \/ (r = Err (ThresholdTooLarge (Go.len groupMemberIDs) dishonestThreshold)
      /\ calls = [])
  \/ (exists (cause : lib_error) (w0 : W) (g : groupInfo),
        fst (h (newNetworkBridge g networkProvider) w0) = Err cause
        /\ r = Err (Errorf "failed to initialize network bridge" (External cause))
        /\ stages calls = [BridgeStage])
  \/ (exists (cause : lib_error) (w0 : W) (ctx : Context_) (g : groupInfo)
        (netBridge : networkBridge),
        fst (h (initializeKeyGeneration ctx g tssPreParams netBridge) w0)
        = Err cause
        /\ r = Err (External cause)
        /\ stages calls = [BridgeStage; InitStage])
  \/ (exists (cause : lib_error) (w0 : W) (ctx : Context_) (g : groupInfo),
        fst (h (joinProtocol ctx g networkProvider) w0) = Err cause
        /\ r = Err (Errorf "failed to join the protocol" (External cause))
        /\ stages calls = [BridgeStage; InitStage; JoinStage])
  \/ (exists (cause : lib_error) (w0 : W) (ctx : Context_) (party : keyGenSigner),
        fst (h (generateKey party ctx) w0) = Err cause
        /\ r = Err (Errorf "failed to generate key" (External cause))
        /\ stages calls = [BridgeStage; InitStage; JoinStage; RoundsStage])
  \/ (exists (signer : ThresholdSigner) (w0 : W) (ctx : Context_)
        (party : keyGenSigner),
        fst (h (generateKey party ctx) w0) = Ok signer
        /\ r = Ok signer
        /\ stages calls = [BridgeStage; InitStage; JoinStage; RoundsStage]).
Proof.
  cbv zeta. unfold GenerateThresholdSigner.
  destruct (Go.len groupMemberIDs <? 2); [left; split; reflexivity|].
  destruct (Go.len groupMemberIDs <=? Go.int dishonestThreshold);
    [right; left; split; reflexivity|].
  do 2 right.
  destruct tssPreParams; follow h.
  all: match goal with
       | E : ?h (generateKey ?p ?c) ?w0 = (Ok ?x, _) |- _ =>
           do 4 right; exists x, w0, c, p;
           split; [exact (f_equal fst E)|split; reflexivity]
       | E : ?h (generateKey ?p ?c) ?w0 = (Err ?x, _) |- _ =>
           do 3 right; left; exists x, w0, c, p;
           split; [exact (f_equal fst E)|split; reflexivity]
       | E : ?h (joinProtocol ?c ?g _) ?w0 = (Err ?x, _) |- _ =>
           do 2 right; left; exists x, w0, c, g;
           split; [exact (f_equal fst E)|split; reflexivity]
       | E : ?h (initializeKeyGeneration ?c ?g _ ?b) ?w0 = (Err ?x, _) |- _ =>
           right; left; exists x, w0, c, g, b;
           split; [exact (f_equal fst E)|split; reflexivity]
       | E : ?h (newNetworkBridge ?g _) ?w0 = (Err ?x, _) |- _ =>
           left; exists x, w0, g;
           split; [exact (f_equal fst E)|split; reflexivity]
       end.
Qed.

(** X14.  The result of [CalculateSignature] tells how far the execution
    went: each error is the error of the callee that failed, wrapped with
    the message of its stage, and the execution stopped at that stage; a
    signature is returned only after all four stages, in the order of the
    source, and it is the signature [sign] answered. *)
Theorem CalculateSignature_outcome
  {W : Type} (h : Handler W) (w : W)
  (s : ThresholdSigner) (digest : bytes) (networkProvider : Provider) :
  let out := run h (CalculateSignature s digest networkProvider) w in
  let r := fst (fst out) in
  let calls := snd out in
  (exists (cause : lib_error) (w0 : W),
     fst (h (newNetworkBridge (signerGroupInfo s) networkProvider) w0) = Err cause
     /\ r = Err (Errorf "failed to initialize network bridge" (External cause))
     /\ stages calls = [BridgeStage])
  \/ (exists (cause : lib_error) (w0 : W) (ctx : Context_)
        (netBridge : networkBridge),
        fst (h (initializeSigning s ctx digest netBridge) w0) = Err cause
        /\ r = Err (Errorf "failed to initialize signing" (External cause))
        /\ stages calls = [BridgeStage; InitStage])
  \/ (exists (cause : lib_error) (w0 : W) (ctx : Context_),
        fst (h (joinProtocol ctx (signerGroupInfo s) networkProvider) w0)
        = Err cause
        /\ r = Err (Errorf "failed to join the protocol:" (External cause))
        /\ stages calls = [BridgeStage; InitStage; JoinStage])
  \/ (exists (cause : lib_error) (w0 : W) (ctx : Context_) (party : signingSigner),
        fst (h (sign party ctx) w0) = Err cause
        /\ r = Err (Errorf "failed to sign" (External cause))
        /\ stages calls = [BridgeStage; InitStage; JoinStage; RoundsStage])
  \/ (exists (signature : Signature) (w0 : W) (ctx : Context_)
        (party : signingSigner),
        fst (h (sign party ctx) w0) = Ok signature
        /\ r = Ok signature
        /\ stages calls = [BridgeStage; InitStage; JoinStage; RoundsStage]).
Proof.
  cbv zeta. unfold CalculateSignature. follow h.
  all: match goal with
       | E : ?h (sign ?p ?c) ?w0 = (Ok ?x, _) |- _ =>
           do 4 right; exists x, w0, c, p;
           split; [exact (f_equal fst E)|split; reflexivity]
       | E : ?h (sign ?p ?c) ?w0 = (Err ?x, _) |- _ =>
           do 3 right; left; exists x, w0, c, p;
           split; [exact (f_equal fst E)|split; reflexivity]
       | E : ?h (joinProtocol ?c _ _) ?w0 = (Err ?x, _) |- _ =>
           do 2 right; left; exists x, w0, c;
           split; [exact (f_equal fst E)|split; reflexivity]
       | E : ?h (initializeSigning _ ?c _ ?b) ?w0 = (Err ?x, _) |- _ =>
           right; left; exists x, w0, c, b;
           split; [exact (f_equal fst E)|split; reflexivity]
       | E : ?h (newNetworkBridge _ _) ?w0 = (Err ?x, _) |- _ =>
           left; exists x, w0;
           split; [exact (f_equal fst E)|split; reflexivity]
       end.
Qed.

(** X15.  Whatever its callees answer, [GenerateThresholdSigner] gives
    every callee the same group, built from its arguments with the
    threshold converted to [int], the network provider it was given and
    the pre-parameters it was given, and it never starts signing. *)
Theorem GenerateThresholdSigner_arguments
  (groupID : string) (memberID : MemberID) (groupMemberIDs : list MemberID)
  (dishonestThreshold : Z) (networkProvider : Provider)
  (tssPreParams : option keygen.LocalPreParams) :
  let group :=
    {| groupID := groupID; memberID := memberID;
       groupMemberIDs := groupMemberIDs;
       dishonestThreshold := Go.int dishonestThreshold |} in
  callsOnly (fun o =>
               match o with
               | newNetworkBridge g p => g = group /\ p = networkProvider
               | initializeKeyGeneration _ g pre _ =>
                   g = group /\ pre = tssPreParams
               | joinProtocol _ g p => g = group /\ p = networkProvider
               | initializeSigning _ _ _ _ | sign _ _ => False
               | _ => True
               end)
    (GenerateThresholdSigner groupID memberID groupMemberIDs dishonestThreshold
       networkProvider tssPreParams).
Proof.
  cbv zeta. unfold GenerateThresholdSigner.
  destruct (Go.len groupMemberIDs <? 2); [exact I|].
  destruct (Go.len groupMemberIDs <=? Go.int dishonestThreshold); [exact I|].
  destruct tssPreParams;
    repeat (cbn [callsOnly pbind call defer]; intros;
            repeat match goal with
                   | |- _ /\ _ => split
                   | x : Resp _ |- _ => cbn [Resp] in x
                   | x : result _ _ |- _ => destruct x
                   end);
    try exact I; reflexivity.
Qed.

(** X16.  Whatever its callees answer, [CalculateSignature] creates the
    bridge and joins the protocol for the group of the signer with the
    network provider it was given, initializes signing for the signer and
    the digest as given, and neither logs nor starts key generation. *)
Theorem CalculateSignature_arguments
  (s : ThresholdSigner) (digest : bytes) (networkProvider : Provider) :
  callsOnly (fun o =>
               match o with
               | newNetworkBridge g p => g = signerGroupInfo s /\ p = networkProvider
               | initializeSigning s' _ d _ => s' = s /\ d = digest
               | joinProtocol _ g p => g = signerGroupInfo s /\ p = networkProvider
               | initializeKeyGeneration _ _ _ _ | generateKey _ _ => False
               | Warningf _ | Infof _ => False
               | _ => True
               end)
    (CalculateSignature s digest networkProvider).
Proof.
  unfold CalculateSignature.
  repeat (cbn [callsOnly pbind call defer]; intros;
          repeat match goal with
                 | |- _ /\ _ => split
                 | x : Resp _ |- _ => cbn [Resp] in x
                 | x : result _ _ |- _ => destruct x
                 end);
    try exact I; reflexivity.
Qed.

(** X17.  When [GenerateThresholdSigner] returns a signer, the calls of
    the run were exactly these, in this order: the warning if the
    pre-parameters are nil, the creation of the bridge, the creation of the
    context, the initialization of the party with that bridge and context,
    the join protocol, the key generation by that party, and the
    cancellation of the context, with a message logged after the
    initialization, before the key generation and after it, each naming
    the party. *)
Theorem GenerateThresholdSigner_success_trace
  {W : Type} (h : Handler W) (w w' : W)
  (groupID : string) (memberID : MemberID) (groupMemberIDs : list MemberID)
  (dishonestThreshold : Z) (networkProvider : Provider)
  (tssPreParams : option keygen.LocalPreParams)
  (signer : ThresholdSigner) (calls : list Op) :
  run h (GenerateThresholdSigner groupID memberID groupMemberIDs
           dishonestThreshold networkProvider tssPreParams) w
  = (Ok signer, w', calls) ->
  let group :=
    {| groupID := groupID; memberID := memberID;
       groupMemberIDs := groupMemberIDs;
       dishonestThreshold := Go.int dishonestThreshold |} in
  exists (netBridge : networkBridge) (ctx : Context_) (party : keyGenSigner),
    calls
    = match tssPreParams with
      | None =>
          [Warningf "tss pre-params were not provided, they will be generated on protocol execution"]
      | Some _ => []
      end
      ++ [newNetworkBridge group networkProvider;
          WithTimeout keyGenerationTimeout;
          initializeKeyGeneration ctx group tssPreParams netBridge;
          Infof ("[party:" ++ PartyID party ++ "]: initialized key generation");
          joinProtocol ctx group networkProvider;
          Infof ("[party:" ++ PartyID party ++ "]: starting key generation");
          generateKey party ctx;
          Infof ("[party:" ++ PartyID party ++ "]: completed key generation");
          cancel ctx].
Proof.
  cbv zeta. unfold GenerateThresholdSigner.
  destruct (Go.len groupMemberIDs <? 2); [discriminate|].
  destruct (Go.len groupMemberIDs <=? Go.int dishonestThreshold); [discriminate|].
  destruct tssPreParams; follow h; intros Hrun; try discriminate Hrun;
    injection Hrun as _ _ <-;
    match goal with
    | E : h (generateKey ?p ?c) _ = _,
      E' : h (initializeKeyGeneration _ _ _ ?b) _ = _ |- _ =>
        exists b, c, p; reflexivity
    end.
Qed.

(** X18.  When [CalculateSignature] returns a signature, the calls of the
    run were exactly these, in this order: the creation of the bridge for
    the group of the signer, the creation of the context, the
    initialization of signing with the digest, that bridge and context, the
    join protocol, the signing by the party that was initialized, and the
    cancellation of the context. *)
Theorem CalculateSignature_success_trace
  {W : Type} (h : Handler W) (w w' : W)
  (s : ThresholdSigner) (digest : bytes) (networkProvider : Provider)
  (signature : Signature) (calls : list Op) :
  run h (CalculateSignature s digest networkProvider) w
  = (Ok signature, w', calls) ->
  exists (netBridge : networkBridge) (ctx : Context_) (party : signingSigner),
    calls
    = [newNetworkBridge (signerGroupInfo s) networkProvider;
       WithTimeout keyGenerationTimeout;
       initializeSigning s ctx digest netBridge;
       joinProtocol ctx (signerGroupInfo s) networkProvider;
       sign party ctx;
       cancel ctx].
Proof.
  unfold CalculateSignature.
  follow h; intros Hrun; try discriminate Hrun;
    injection Hrun as _ _ <-;
    match goal with
    | E : h (sign ?p ?c) _ = _,
      E' : h (initializeSigning _ _ _ ?b) _ = _ |- _ =>
        exists b, c, p; reflexivity
    end.
Qed.

End MoreProtocol.

(** ** The properties of [tss.go] on the sample data *)

Lemma GenerateThresholdSigner_success_trace_witness :
  run (cooperative sampleSigner)
    (GenerateThresholdSigner (env := unitEnvironment) (constants := tss_constants)
       "keep" [x01] sampleMembers 1 tt None) tt
  = (Ok sampleSigner, tt,
     [Warningf "tss pre-params were not provided, they will be generated on protocol execution";
      newNetworkBridge (env := unitEnvironment) (signerGroupInfo sampleSigner) tt;
      WithTimeout (120 * time.Second);
      initializeKeyGeneration (env := unitEnvironment) tt
        (signerGroupInfo sampleSigner) None tt;
      Infof "[party:1]: initialized key generation";
      joinProtocol (env := unitEnvironment) tt (signerGroupInfo sampleSigner) tt;
      Infof "[party:1]: starting key generation";
      generateKey (env := unitEnvironment) tt tt;
      Infof "[party:1]: completed key generation";
      cancel (env := unitEnvironment) tt])
  /\ exists (netBridge ctx party : unit),
       [Warningf "tss pre-params were not provided, they will be generated on protocol execution";
        newNetworkBridge (env := unitEnvironment) (signerGroupInfo sampleSigner) tt;
        WithTimeout (120 * time.Second);
        initializeKeyGeneration (env := unitEnvironment) tt
          (signerGroupInfo sampleSigner) None tt;
        Infof "[party:1]: initialized key generation";
        joinProtocol (env := unitEnvironment) tt (signerGroupInfo sampleSigner) tt;
        Infof "[party:1]: starting key generation";
        generateKey (env := unitEnvironment) tt tt;
        Infof "[party:1]: completed key generation";
        cancel (env := unitEnvironment) tt]
       = [Warningf "tss pre-params were not provided, they will be generated on protocol execution"]
         ++ [newNetworkBridge (env := unitEnvironment) (signerGroupInfo sampleSigner) tt;
             WithTimeout (120 * time.Second);
             initializeKeyGeneration (env := unitEnvironment) ctx
               (signerGroupInfo sampleSigner) None netBridge;
             Infof "[party:1]: initialized key generation";
             joinProtocol (env := unitEnvironment) ctx (signerGroupInfo sampleSigner) tt;
             Infof "[party:1]: starting key generation";
             generateKey (env := unitEnvironment) party ctx;
             Infof "[party:1]: completed key generation";
             cancel (env := unitEnvironment) ctx].
Proof.
  assert (H : run (cooperative sampleSigner)
                (GenerateThresholdSigner (env := unitEnvironment)
                   (constants := tss_constants)
                   "keep" [x01] sampleMembers 1 tt None) tt
              = (Ok sampleSigner, tt,
                 [Warningf "tss pre-params were not provided, they will be generated on protocol execution";
                  newNetworkBridge (env := unitEnvironment)
                    (signerGroupInfo sampleSigner) tt;
                  WithTimeout (120 * time.Second);
                  initializeKeyGeneration (env := unitEnvironment) tt
                    (signerGroupInfo sampleSigner) None tt;
                  Infof "[party:1]: initialized key generation";
                  joinProtocol (env := unitEnvironment) tt
                    (signerGroupInfo sampleSigner) tt;
                  Infof "[party:1]: starting key generation";
                  generateKey (env := unitEnvironment) tt tt;
                  Infof "[party:1]: completed key generation";
                  cancel (env := unitEnvironment) tt])) by reflexivity.
  split; [exact H|].
  exact (GenerateThresholdSigner_success_trace
           (env := unitEnvironment) (constants := tss_constants)
           (cooperative sampleSigner) tt tt "keep" [x01] sampleMembers 1 tt None
           sampleSigner _ H).
Defined.

Lemma CalculateSignature_success_trace_witness :
  run (cooperative sampleSigner)
    (CalculateSignature (env := unitEnvironment) (constants := tss_constants)
       sampleSigner shortDigest tt) tt
  = (Ok tt, tt,
     [newNetworkBridge (env := unitEnvironment) (signerGroupInfo sampleSigner) tt;
      WithTimeout (120 * time.Second);
      initializeSigning (env := unitEnvironment) sampleSigner tt shortDigest tt;
      joinProtocol (env := unitEnvironment) tt (signerGroupInfo sampleSigner) tt;
      sign (env := unitEnvironment) tt tt;
      cancel (env := unitEnvironment) tt])
  /\ exists (netBridge ctx party : unit),
       [newNetworkBridge (env := unitEnvironment) (signerGroupInfo sampleSigner) tt;
        WithTimeout (120 * time.Second);
        initializeSigning (env := unitEnvironment) sampleSigner tt shortDigest tt;
        joinProtocol (env := unitEnvironment) tt (signerGroupInfo sampleSigner) tt;
        sign (env := unitEnvironment) tt tt;
        cancel (env := unitEnvironment) tt]
       = [newNetworkBridge (env := unitEnvironment) (signerGroupInfo sampleSigner) tt;
          WithTimeout (120 * time.Second);
          initializeSigning (env := unitEnvironment) sampleSigner ctx shortDigest
            netBridge;
          joinProtocol (env := unitEnvironment) ctx (signerGroupInfo sampleSigner) tt;
          sign (env := unitEnvironment) party ctx;
          cancel (env := unitEnvironment) ctx].
Proof.
  assert (H : run (cooperative sampleSigner)
                (CalculateSignature (env := unitEnvironment)
                   (constants := tss_constants) sampleSigner shortDigest tt) tt
              = (Ok tt, tt,
                 [newNetworkBridge (env := unitEnvironment)
                    (signerGroupInfo sampleSigner) tt;
                  WithTimeout (120 * time.Second);
                  initializeSigning (env := unitEnvironment) sampleSigner tt
                    shortDigest tt;
                  joinProtocol (env := unitEnvironment) tt
                    (signerGroupInfo sampleSigner) tt;
                  sign (env := unitEnvironment) tt tt;
                  cancel (env := unitEnvironment) tt])) by reflexivity.
  split; [exact H|].
  exact (CalculateSignature_success_trace
           (env := unitEnvironment) (constants := tss_constants)
           (cooperative sampleSigner) tt tt sampleSigner shortDigest tt tt _ H).
Defined.
